(** * Event-Horizon backend: ticket inventory, bookings and cascading deletes

    A shallow embedding of the store layer of the Event-Horizon backend
    (package [store]: [bookingStore.go], [eventStore.go], [categoryStore.go])
    together with the model structs of package [models].

    The MongoDB database is an explicit state [DB]: three collections, each a
    list of documents in natural (insertion) order, and the log of the store
    operations issued so far.  A store method is a computation
    [M A = DB -> result A * DB]: an error does not undo earlier writes, only
    [WithTransaction] does. *)

From Stdlib Require Import ZArith NArith List String Ascii Bool Lia Permutation.
From Stdlib Require Import PrimFloat Uint63.
Import ListNotations.
Local Open Scope string_scope.
Local Open Scope list_scope.
Local Open Scope Z_scope.

Set Implicit Arguments.

(** ** Go's [int] (64 bits, two's complement) and [float64] *)

Module GoInt.
Definition min_int : Z := - 2 ^ 63.
Definition max_int : Z := 2 ^ 63 - 1.

Definition in_range (z : Z) : Prop := min_int <= z <= max_int.

(** Two's complement wrap-around of an arithmetic result. *)
Definition wrap (z : Z) : Z := (z + 2 ^ 63) mod 2 ^ 64 - 2 ^ 63.

Definition add (a b : Z) : Z := wrap (a + b).
Definition sub (a b : Z) : Z := wrap (a - b).

(** The conversion [float64(n)], rounding to nearest. *)
Definition to_float64 (z : Z) : float :=
  if z =? min_int then
    PrimFloat.opp (PrimFloat.mul (PrimFloat.of_uint63 (Uint63.of_Z (2 ^ 62))) 2%float)
  else if z <? 0 then PrimFloat.opp (PrimFloat.of_uint63 (Uint63.of_Z (- z)))
  else PrimFloat.of_uint63 (Uint63.of_Z z).
End GoInt.

(** ** [bson.ObjectID]: twelve bytes, read as a number below [2 ^ 96] *)

Definition ObjectID := N.
Definition NilObjectID : ObjectID := 0%N.

Definition hex_digit (c : ascii) : option N :=
  let n := N_of_ascii c in
  if ((48 <=? n) && (n <=? 57))%N then Some (n - 48)%N
  else if ((97 <=? n) && (n <=? 102))%N then Some (n - 87)%N
  else if ((65 <=? n) && (n <=? 70))%N then Some (n - 55)%N
  else None.

Fixpoint hex_value (s : string) (acc : N) : option N :=
  match s with
  | EmptyString => Some acc
  | String c r =>
      match hex_digit c with
      | Some d => hex_value r (16 * acc + d)%N
      | None => None
      end
  end.

(** [bson.ObjectIDFromHex]: exactly 24 hexadecimal characters. *)
Definition ObjectIDFromHex (s : string) : option ObjectID :=
  if Nat.eqb (String.length s) 24 then hex_value s 0%N else None.

Definition hex_char (d : N) : ascii :=
  if (d <? 10)%N then ascii_of_N (48 + d) else ascii_of_N (87 + d).

(** The last [n] hexadecimal digits of [v], most significant first, put in
    front of [suffix]. *)
Fixpoint hex_digits (n : nat) (v : N) (suffix : string) : string :=
  match n with
  | O => suffix
  | S k => hex_digits k (v / 16)%N (String (hex_char (v mod 16)%N) suffix)
  end.

(** [ObjectID.Hex]: 24 lower-case hexadecimal characters. *)
Definition Hex (id : ObjectID) : string := hex_digits 24 id "".

(** [time.Time] as stored in BSON: milliseconds since the epoch. *)
Definition Time := Z.

(** ** Package [models] *)

Module TicketInfo.
Record t := mk {
  Type_ : string;
  Price : float;
  TotalQuantity : Z;
  AvailableQuantity : Z }.

Definition zero : t := mk "" 0%float 0 0.

Definition with_AvailableQuantity (v : Z) (x : t) : t :=
  mk (Type_ x) (Price x) (TotalQuantity x) v.
End TicketInfo.

Module Event.
Record t := mk {
  ID : ObjectID;
  HostID : ObjectID;
  CategoryName : string;
  Name : string;
  Description : string;
  Date : Time;
  Location : string;
  ImageURL : string;
  StartTime : Time;
  EndTime : Time;
  CreatedAt : Time;
  Tickets : list TicketInfo.t }.

Definition with_ID (i : ObjectID) (e : t) : t :=
  mk i (HostID e) (CategoryName e) (Name e) (Description e) (Date e)
     (Location e) (ImageURL e) (StartTime e) (EndTime e) (CreatedAt e) (Tickets e).

Definition with_CreatedAt (c : Time) (e : t) : t :=
  mk (ID e) (HostID e) (CategoryName e) (Name e) (Description e) (Date e)
     (Location e) (ImageURL e) (StartTime e) (EndTime e) c (Tickets e).

Definition with_Tickets (ts : list TicketInfo.t) (e : t) : t :=
  mk (ID e) (HostID e) (CategoryName e) (Name e) (Description e) (Date e)
     (Location e) (ImageURL e) (StartTime e) (EndTime e) (CreatedAt e) ts.
End Event.

Module Booking.
Record t := mk {
  ID : ObjectID;
  UserID : ObjectID;
  EventID : ObjectID;
  TicketType : string;
  TransactionID : string;
  Quantity : Z;
  TotalPaid : float;
  Status : string;
  BookedAt : Time }.

Definition with_ID (i : ObjectID) (b : t) : t :=
  mk i (UserID b) (EventID b) (TicketType b) (TransactionID b) (Quantity b)
     (TotalPaid b) (Status b) (BookedAt b).

(** The three fields [CreateBooking] fills in before the insert. *)
Definition priced (paid : float) (at_ : Time) (st : string) (b : t) : t :=
  mk (ID b) (UserID b) (EventID b) (TicketType b) (TransactionID b) (Quantity b)
     paid st at_.
End Booking.

Module Category.
Record t := mk {
  ID : ObjectID;
  Name : string;
  CreatedAt : Time }.

Definition with_ID (i : ObjectID) (c : t) : t := mk i (Name c) (CreatedAt c).
Definition with_CreatedAt (a : Time) (c : t) : t := mk (ID c) (Name c) a.
End Category.

Module CategoryWithEvents.
Record t := mk {
  Category : Category.t;
  Events : list Event.t;
  EventCount : Z }.
End CategoryWithEvents.

(** ** The document store *)

(** The query documents ([bson.M] filters) the store layer builds. *)
Inductive Filter :=
| F_all                              (* bson.M{} *)
| F_id (id : ObjectID)               (* {"_id": id} *)
| F_event_id (id : ObjectID)         (* {"event_id": id} *)
| F_user_id (id : ObjectID)          (* {"user_id": id} *)
| F_name (name : string)             (* {"name": name} *)
| F_name_regex_i (literal : string)  (* {"name": {"$regex": "^" + quoted + "$", "$options": "i"}} *)
| F_category_name (name : string)    (* {"category_name": name} *)
| F_end_time_lt (now : Time).        (* {"end_time": {"$lt": now}} *)

(** The update documents: [{"$set": {"tickets.<i>.available_quantity": v}}]
    of the booking store, and the field-by-field [$set] of [UpdateEvent]. *)
Inductive Update :=
| U_set_ticket_available (i : nat) (v : Z)
| U_set_event_fields (fields : Event.t).  (* the [$set] of [UpdateEvent] *)

Inductive StoreOp :=
| OpFindOne (coll : string) (f : Filter)
| OpFind (coll : string) (f : Filter)
| OpCountDocuments (coll : string) (f : Filter)
| OpInsertOne (coll : string) (id : ObjectID)
| OpUpdateOne (coll : string) (f : Filter) (u : Update)
| OpDeleteOne (coll : string) (f : Filter)
| OpDeleteMany (coll : string) (f : Filter)
| OpStartTransaction
| OpCommitTransaction
| OpAbortTransaction.

Record DB := mkDB {
  Categories : list Category.t;
  Events : list Event.t;
  Bookings : list Booking.t;
  OpLog : list StoreOp }.

Definition log_op (op : StoreOp) (db : DB) : DB :=
  mkDB (Categories db) (Events db) (Bookings db) (OpLog db ++ [op]).

(** Errors are Go [error] values built by [errors.New]: their message. *)
Definition error := string.

Inductive result (A : Type) :=
| Ok (a : A)
| Err (e : error).
Arguments Ok {A} a.
Arguments Err {A} e.

Definition M (A : Type) : Type := DB -> result A * DB.

Definition ret {A} (a : A) : M A := fun db => (Ok a, db).

Definition fail {A} (e : error) : M A := fun db => (Err e, db).

Definition bind {A B} (c : M A) (k : A -> M B) : M B :=
  fun db =>
    match c db with
    | (Ok a, db') => k a db'
    | (Err e, db') => (Err e, db')
    end.

Declare Scope store_scope.
Delimit Scope store_scope with store.
Notation "x <- c ;; k" := (bind c (fun x => k))
  (at level 61, c at next level, right associativity) : store_scope.
Notation "c ;; k" := (bind c (fun _ => k))
  (at level 61, right associativity) : store_scope.
Local Open Scope store_scope.

(** [if err != nil { return errors.New(prefix + err.Error()) }] *)
Definition wrap_err {A} (prefix : string) (c : M A) : M A :=
  fun db =>
    match c db with
    | (Ok a, db') => (Ok a, db')
    | (Err e, db') => (Err (prefix ++ e)%string, db')
    end.

(** [if err != nil { return errors.New(message) }] *)
Definition replace_err {A} (message : string) (c : M A) : M A :=
  fun db =>
    match c db with
    | (Ok a, db') => (Ok a, db')
    | (Err _, db') => (Err message, db')
    end.

(** [for _, x := range xs { ... }] with an early return on error. *)
Fixpoint for_each {A} (xs : list A) (body : A -> M unit) : M unit :=
  match xs with
  | [] => ret tt
  | x :: r => body x ;; for_each r body
  end.

(** *** Lists of documents *)

Section Documents.
Variable A : Type.

(** Remove the first document a filter matches ([DeleteOne]). *)
Fixpoint delete_first (p : A -> bool) (docs : list A) : list A :=
  match docs with
  | [] => []
  | d :: rest => if p d then rest else d :: delete_first p rest
  end.

(** Rewrite the first document a filter matches ([UpdateOne]). *)
Fixpoint update_first (p : A -> bool) (u : A -> A) (docs : list A) : list A :=
  match docs with
  | [] => []
  | d :: rest => if p d then u d :: rest else d :: update_first p u rest
  end.
End Documents.

(** *** How filters and updates read the three kinds of document *)

Definition ascii_lower (c : ascii) : ascii :=
  let n := N_of_ascii c in
  if ((65 <=? n) && (n <=? 90))%N then ascii_of_N (n + 32) else c.

Fixpoint string_lower (s : string) : string :=
  match s with
  | EmptyString => EmptyString
  | String c r => String (ascii_lower c) (string_lower r)
  end.

(** The regular expression [^literal$] with option [i], the literal quoted
    by [regexp.QuoteMeta]: equality up to the case of ASCII letters. *)
Definition regex_i_anchored (literal s : string) : bool :=
  String.eqb (string_lower literal) (string_lower s).

Definition category_matches (f : Filter) (c : Category.t) : bool :=
  match f with
  | F_all => true
  | F_id id => N.eqb (Category.ID c) id
  | F_name name => String.eqb (Category.Name c) name
  | F_name_regex_i literal => regex_i_anchored literal (Category.Name c)
  | F_event_id _ | F_user_id _ | F_category_name _ | F_end_time_lt _ => false
  end.

Definition event_matches (f : Filter) (e : Event.t) : bool :=
  match f with
  | F_all => true
  | F_id id => N.eqb (Event.ID e) id
  | F_name name => String.eqb (Event.Name e) name
  | F_name_regex_i literal => regex_i_anchored literal (Event.Name e)
  | F_category_name name => String.eqb (Event.CategoryName e) name
  | F_end_time_lt now => Event.EndTime e <? now
  | F_event_id _ | F_user_id _ => false
  end.

Definition booking_matches (f : Filter) (b : Booking.t) : bool :=
  match f with
  | F_all => true
  | F_id id => N.eqb (Booking.ID b) id
  | F_event_id id => N.eqb (Booking.EventID b) id
  | F_user_id id => N.eqb (Booking.UserID b) id
  | F_name _ | F_name_regex_i _ | F_category_name _ | F_end_time_lt _ => false
  end.

(** [$set] on the path [tickets.<i>.available_quantity]; a path beyond the
    end of the array pads the array, as the store does. *)
Fixpoint set_ticket_available (i : nat) (v : Z) (tickets : list TicketInfo.t)
  : list TicketInfo.t :=
  match i, tickets with
  | O, [] => [TicketInfo.with_AvailableQuantity v TicketInfo.zero]
  | O, ticket :: rest => TicketInfo.with_AvailableQuantity v ticket :: rest
  | S j, [] => TicketInfo.zero :: set_ticket_available j v []
  | S j, ticket :: rest => ticket :: set_ticket_available j v rest
  end.

Definition event_apply (u : Update) (e : Event.t) : Event.t :=
  match u with
  | U_set_ticket_available i v =>
      Event.with_Tickets (set_ticket_available i v (Event.Tickets e)) e
  | U_set_event_fields fields =>
      Event.mk (Event.ID e) (Event.HostID e) (Event.CategoryName fields)
        (Event.Name fields) (Event.Description fields) (Event.Date fields)
        (Event.Location fields) (Event.ImageURL fields) (Event.StartTime fields)
        (Event.EndTime fields) (Event.CreatedAt e) (Event.Tickets fields)
  end.

(** *** Collection handles ([*mongo.Collection]) *)

Record Collection (A : Type) := mkCollection {
  coll_name : string;
  coll_docs : DB -> list A;
  coll_put : list A -> DB -> DB;
  doc_id : A -> ObjectID;
  doc_with_id : ObjectID -> A -> A;
  doc_matches : Filter -> A -> bool;
  doc_apply : Update -> A -> A }.

Definition CategoriesColl : Collection Category.t :=
  mkCollection "Categories" Categories
    (fun docs db => mkDB docs (Events db) (Bookings db) (OpLog db))
    Category.ID Category.with_ID category_matches (fun _ c => c).

Definition EventsColl : Collection Event.t :=
  mkCollection "Events" Events
    (fun docs db => mkDB (Categories db) docs (Bookings db) (OpLog db))
    Event.ID Event.with_ID event_matches event_apply.

Definition BookingsColl : Collection Booking.t :=
  mkCollection "Bookings" Bookings
    (fun docs db => mkDB (Categories db) (Events db) docs (OpLog db))
    Booking.ID Booking.with_ID booking_matches (fun _ b => b).

(** The driver's write error on a repeated [_id]. *)
Definition ErrDuplicateKey : error := "E11000 duplicate key error".

Section Driver.
Variable A : Type.
Variable c : Collection A.

(** [FindOne(ctx, filter).Decode(&x)]: [None] is [mongo.ErrNoDocuments]. *)
Definition FindOne (f : Filter) : M (option A) :=
  fun db =>
    (Ok (find (doc_matches c f) (coll_docs c db)),
     log_op (OpFindOne (coll_name c) f) db).

(** [Find(ctx, filter)] followed by [cursor.All]. *)
Definition Find (f : Filter) : M (list A) :=
  fun db =>
    (Ok (filter (doc_matches c f) (coll_docs c db)),
     log_op (OpFind (coll_name c) f) db).

Definition CountDocuments (f : Filter) : M Z :=
  fun db =>
    (Ok (Z.of_nat (List.length (filter (doc_matches c f) (coll_docs c db)))),
     log_op (OpCountDocuments (coll_name c) f) db).

(** [InsertOne]: a document whose [_id] is the zero value ([omitempty])
    gets the identifier the driver generates; the result is [InsertedID]. *)
Definition InsertOne (generated : ObjectID) (doc : A) : M ObjectID :=
  fun db =>
    let id := if N.eqb (doc_id c doc) NilObjectID then generated else doc_id c doc in
    let db1 := log_op (OpInsertOne (coll_name c) id) db in
    if existsb (fun d => N.eqb (doc_id c d) id) (coll_docs c db)
    then (Err ErrDuplicateKey, db1)
    else (Ok id, coll_put c (coll_docs c db ++ [doc_with_id c id doc]) db1).

(** [UpdateOne]: the result is [MatchedCount]. *)
Definition UpdateOne (f : Filter) (u : Update) : M Z :=
  fun db =>
    let docs := coll_docs c db in
    (Ok (if existsb (doc_matches c f) docs then 1 else 0),
     coll_put c (update_first (doc_matches c f) (doc_apply c u) docs)
       (log_op (OpUpdateOne (coll_name c) f u) db)).

(** [DeleteOne]: the result is [DeletedCount]. *)
Definition DeleteOne (f : Filter) : M Z :=
  fun db =>
    let docs := coll_docs c db in
    (Ok (if existsb (doc_matches c f) docs then 1 else 0),
     coll_put c (delete_first (doc_matches c f) docs)
       (log_op (OpDeleteOne (coll_name c) f) db)).

(** [DeleteMany]: the result is [DeletedCount]. *)
Definition DeleteMany (f : Filter) : M Z :=
  fun db =>
    let docs := coll_docs c db in
    (Ok (Z.of_nat (List.length (filter (doc_matches c f) docs))),
     coll_put c (filter (fun d => negb (doc_matches c f d)) docs)
       (log_op (OpDeleteMany (coll_name c) f) db)).
End Driver.

(** [session.WithTransaction]: the callback's writes are committed together
    when it returns no error and are all discarded when it returns one. *)
Definition WithTransaction {A} (callback : M A) : M A :=
  fun db =>
    match callback (log_op OpStartTransaction db) with
    | (Ok a, db') => (Ok a, log_op OpCommitTransaction db')
    | (Err e, db') =>
        (Err e,
         log_op OpAbortTransaction
           (mkDB (Categories db) (Events db) (Bookings db) (OpLog db')))
    end.

(** ** [store/bookingStore.go] *)

Module BookingStore.
Record t := mk {
  bookingCollection : Collection Booking.t;
  eventCollection : Collection Event.t }.

Definition NewBookingStore : t := mk BookingsColl EventsColl.

(** The scan [for i, ticket := range event.Tickets] with its [break]:
    index and value of the first ticket class of the requested type. *)
Fixpoint find_ticket (ticketType : string) (tickets : list TicketInfo.t)
  : option (nat * TicketInfo.t) :=
  match tickets with
  | [] => None
  | ticket :: rest =>
      if String.eqb (TicketInfo.Type_ ticket) ticketType then Some (O, ticket)
      else match find_ticket ticketType rest with
           | Some (i, found) => Some (S i, found)
           | None => None
           end
  end.

(** [now] is [time.Now()] and [generated] the identifier the driver would
    give the inserted document. *)
Definition CreateBooking (s : t) (now : Time) (generated : ObjectID)
    (booking : Booking.t) : M Booking.t :=
  let callback : M Booking.t :=
    let eventFilter := F_id (Booking.EventID booking) in
    decoded <- FindOne (eventCollection s) eventFilter ;;
    match decoded with
    | None => fail "event not found"
    | Some event =>
        match find_ticket (Booking.TicketType booking) (Event.Tickets event) with
        | None => fail "ticket type not found for this event"
        | Some (ticketIndex, selectedTicket) =>
            if TicketInfo.AvailableQuantity selectedTicket <? Booking.Quantity booking
            then fail "not enough tickets available"
            else
              let booking :=
                Booking.priced
                  (PrimFloat.mul (TicketInfo.Price selectedTicket)
                     (GoInt.to_float64 (Booking.Quantity booking)))
                  now "confirmed" booking in
              insertedID <- InsertOne (bookingCollection s) generated booking ;;
              let booking := Booking.with_ID insertedID booking in
              let newAvailableQuantity :=
                GoInt.sub (TicketInfo.AvailableQuantity selectedTicket)
                  (Booking.Quantity booking) in
              UpdateOne (eventCollection s) eventFilter
                (U_set_ticket_available ticketIndex newAvailableQuantity) ;;
              ret booking
        end
    end in
  WithTransaction callback.

Definition GetBookingByID (s : t) (bookingID : string) : M Booking.t :=
  match ObjectIDFromHex bookingID with
  | None => fail "invalid booking id"
  | Some objID =>
      decoded <- FindOne (bookingCollection s) (F_id objID) ;;
      match decoded with
      | None => fail "booking not found"
      | Some booking => ret booking
      end
  end.

Definition GetBookingsByUserID (s : t) (userID : ObjectID) : M (list Booking.t) :=
  Find (bookingCollection s) (F_user_id userID).

Definition GetBookingsByEventID (s : t) (eventID : ObjectID) : M (list Booking.t) :=
  Find (bookingCollection s) (F_event_id eventID).

Definition CancelBooking (s : t) (bookingID : ObjectID) : M unit :=
  let callback : M unit :=
    let bookingFilter := F_id bookingID in
    decoded <- FindOne (bookingCollection s) bookingFilter ;;
    match decoded with
    | None => fail "booking not found"
    | Some booking =>
        if String.eqb (Booking.Status booking) "cancelled"
        then fail "booking already cancelled"
        else
          let eventFilter := F_id (Booking.EventID booking) in
          decodedEvent <- FindOne (eventCollection s) eventFilter ;;
          match decodedEvent with
          | None =>
              DeleteOne (bookingCollection s) bookingFilter ;;
              ret tt
          | Some event =>
              match find_ticket (Booking.TicketType booking) (Event.Tickets event) with
              | Some (ticketIndex, ticket) =>
                  let newAvailableQuantity :=
                    GoInt.add (TicketInfo.AvailableQuantity ticket)
                      (Booking.Quantity booking) in
                  UpdateOne (eventCollection s) eventFilter
                    (U_set_ticket_available ticketIndex newAvailableQuantity) ;;
                  ret tt
              | None => ret tt
              end ;;
              DeleteOne (bookingCollection s) bookingFilter ;;
              ret tt
          end
    end in
  WithTransaction callback.

Definition GetAllBookings (s : t) : M (list Booking.t) :=
  Find (bookingCollection s) F_all.

Definition DeleteBookingsByEventID (s : t) (eventID : ObjectID) : M Z :=
  DeleteMany (bookingCollection s) (F_event_id eventID).
End BookingStore.

(** ** [store/categoryStore.go] *)

Module CategoryStore.
Record t := mk {
  collection : Collection Category.t;
  eventCollection : Collection Event.t;
  bookingStore : option BookingStore.t }.

Definition NewCategoryStore : t := mk CategoriesColl EventsColl None.

Definition SetBookingStore (s : t) (bs : BookingStore.t) : t :=
  mk (collection s) (eventCollection s) (Some bs).

Definition CreateCategory (s : t) (now : Time) (generated : ObjectID)
    (category : Category.t) : M Category.t :=
  existing <- FindOne (collection s) (F_name (Category.Name category)) ;;
  match existing with
  | Some _ => fail "category with the same name already exists"
  | None =>
      let category := Category.with_CreatedAt now category in
      insertedID <- InsertOne (collection s) generated category ;;
      ret (Category.with_ID insertedID category)
  end.

Definition GetAllCategories (s : t) : M (list Category.t) :=
  Find (collection s) F_all.

Definition GetCategoryByID (s : t) (categoryID : ObjectID) : M Category.t :=
  decoded <- FindOne (collection s) (F_id categoryID) ;;
  match decoded with
  | None => fail "category not found"
  | Some category => ret category
  end.

Definition GetCategoryByName (s : t) (categoryName : string) : M Category.t :=
  decoded <- FindOne (collection s) (F_name_regex_i categoryName) ;;
  match decoded with
  | None => fail "category not found"
  | Some category => ret category
  end.

Definition getEventsByCategory (s : t) (categoryID : ObjectID) : M (list Event.t) :=
  category <- GetCategoryByID s categoryID ;;
  Find (eventCollection s) (F_category_name (Category.Name category)).

Definition GetCategoryEventCount (s : t) (categoryID : ObjectID) : M Z :=
  category <- GetCategoryByID s categoryID ;;
  CountDocuments (eventCollection s) (F_category_name (Category.Name category)).

Definition DeleteCategory (s : t) (categoryID : ObjectID) : M unit :=
  count <- GetCategoryEventCount s categoryID ;;
  if 0 <? count then fail "cannot delete category with existing events"
  else
    deletedCount <- DeleteOne (collection s) (F_id categoryID) ;;
    if deletedCount =? 0 then fail "category not found" else ret tt.

Definition DeleteCategoryWithCascade (s : t) (categoryID : ObjectID) : M unit :=
  category <- GetCategoryByID s categoryID ;;
  events <- getEventsByCategory s categoryID ;;
  match bookingStore s with
  | Some bs =>
      for_each events (fun event =>
        wrap_err "failed to delete bookings for event: "
          (BookingStore.DeleteBookingsByEventID bs (Event.ID event)) ;;
        ret tt)
  | None => ret tt
  end ;;
  wrap_err "failed to delete events: "
    (DeleteMany (eventCollection s) (F_category_name (Category.Name category))) ;;
  deletedCount <- DeleteOne (collection s) (F_id categoryID) ;;
  if deletedCount =? 0 then fail "category not found" else ret tt.

Definition GetCategoryWithEvents (s : t) (categoryID : ObjectID)
  : M CategoryWithEvents.t :=
  category <- GetCategoryByID s categoryID ;;
  events <- getEventsByCategory s categoryID ;;
  ret (CategoryWithEvents.mk category events (Z.of_nat (List.length events))).

(** The loop of [GetAllCategoriesWithEvents]: a category whose events
    cannot be listed is reported with none. *)
Fixpoint collect_with_events (s : t) (categories : list Category.t)
    (result : list CategoryWithEvents.t) : M (list CategoryWithEvents.t) :=
  match categories with
  | [] => ret result
  | category :: rest =>
      fun db =>
        let (listed, db') := getEventsByCategory s (Category.ID category) db in
        let events := match listed with Ok events => events | Err _ => [] end in
        collect_with_events s rest
          (result ++ [CategoryWithEvents.mk category events
                        (Z.of_nat (List.length events))]) db'
  end.

Definition GetAllCategoriesWithEvents (s : t) : M (list CategoryWithEvents.t) :=
  categories <- GetAllCategories s ;;
  collect_with_events s categories [].
End CategoryStore.

(** ** [store/eventStore.go] *)

Module EventStore.
Record t := mk {
  collection : Collection Event.t;
  categoryStore : CategoryStore.t;
  bookingStore : option BookingStore.t }.

Definition NewEventStore (categoryStore : CategoryStore.t) : t :=
  mk EventsColl categoryStore None.

Definition SetBookingStore (s : t) (bs : BookingStore.t) : t :=
  mk (collection s) (categoryStore s) (Some bs).

Definition CreateEvent (s : t) (now : Time) (generated : ObjectID)
    (event : Event.t) : M Event.t :=
  replace_err ("category not found: " ++ Event.CategoryName event)%string
    (CategoryStore.GetCategoryByName (categoryStore s) (Event.CategoryName event)) ;;
  existingEvent <- FindOne (collection s) (F_name (Event.Name event)) ;;
  match existingEvent with
  | Some _ => fail "event with the same name already exists"
  | None =>
      let event := Event.with_CreatedAt now event in
      insertedID <- InsertOne (collection s) generated event ;;
      ret (Event.with_ID insertedID event)
  end.

Definition GetAllEvents (s : t) : M (list Event.t) :=
  Find (collection s) F_all.

Definition GetEventByID (s : t) (id : string) : M Event.t :=
  match ObjectIDFromHex id with
  | None => fail "invalid event id"
  | Some bsonID =>
      decoded <- FindOne (collection s) (F_id bsonID) ;;
      match decoded with
      | None => fail "event not found"
      | Some event => ret event
      end
  end.

(** [now] is the [time.Now()] of the filter, built once and used by both
    the [Find] and the [DeleteMany]. *)
Definition DeleteExpiredEvents (s : t) (now : Time) : M Z :=
  let filter := F_end_time_lt now in
  expiredEvents <- Find (collection s) filter ;;
  match bookingStore s with
  | Some bs =>
      for_each expiredEvents (fun event =>
        wrap_err "failed to delete bookings for expired event: "
          (BookingStore.DeleteBookingsByEventID bs (Event.ID event)) ;;
        ret tt)
  | None => ret tt
  end ;;
  DeleteMany (collection s) filter.

Definition DeleteEvent (s : t) (id : ObjectID) : M unit :=
  match bookingStore s with
  | Some bs =>
      wrap_err "failed to delete associated bookings: "
        (BookingStore.DeleteBookingsByEventID bs id) ;;
      ret tt
  | None => ret tt
  end ;;
  deletedCount <- DeleteOne (collection s) (F_id id) ;;
  if deletedCount =? 0 then fail "event not found" else ret tt.

Definition UpdateEvent (s : t) (event : Event.t) : M unit :=
  replace_err ("category not found: " ++ Event.CategoryName event)%string
    (CategoryStore.GetCategoryByName (categoryStore s) (Event.CategoryName event)) ;;
  matchedCount <- UpdateOne (collection s) (F_id (Event.ID event))
                    (U_set_event_fields event) ;;
  if matchedCount =? 0 then fail "event not found" else ret tt.
End EventStore.

(** ** The stores as [main] wires them *)

Module Main.
Definition bookingStore : BookingStore.t := BookingStore.NewBookingStore.

Definition categoryStore : CategoryStore.t :=
  CategoryStore.SetBookingStore CategoryStore.NewCategoryStore bookingStore.

Definition eventStore : EventStore.t :=
  EventStore.SetBookingStore (EventStore.NewEventStore categoryStore) bookingStore.
End Main.

(** ** [controllers/bookingController.go] and the category delete handler

    A handler reads its request through [echo.Context]; here what it reads
    (the bound body, the path parameter, the user identifier of the token)
    is passed in, and what it answers is a [Response]. *)

Inductive JSONValue :=
| JString (s : string)
| JInt (n : Z)
| JFloat (x : float)
| JTime (t : Time)
| JBooking (b : Booking.t)
| JBookings (bs : list Booking.t).

Inductive Response :=
| HTTPError (code : Z) (message : string)   (* echo.NewHTTPError *)
| JSON (code : Z) (body : list (string * JSONValue)).  (* c.JSON *)

Definition StatusOK : Z := 200.
Definition StatusCreated : Z := 201.
Definition StatusBadRequest : Z := 400.
Definition StatusUnauthorized : Z := 401.
Definition StatusForbidden : Z := 403.
Definition StatusNotFound : Z := 404.
Definition StatusInternalServerError : Z := 500.

(** [hex.EncodeToString]: two lower-case digits per byte. *)
Fixpoint hex_EncodeToString (bytes : list N) : string :=
  match bytes with
  | [] => EmptyString
  | b :: rest =>
      String (hex_char (b / 16)%N) (String (hex_char (b mod 16)%N) (hex_EncodeToString rest))
  end.

Module BookingController.
Record t := mk {
  BookingStore_ : BookingStore.t;
  EventStore_ : EventStore.t }.

Definition NewBookingController (bookingStore : BookingStore.t)
    (eventStore : EventStore.t) : t := mk bookingStore eventStore.

(** [random] is what [rand.Read] put in the 16 bytes. *)
Definition generateTransactionID (random : list N) : string :=
  ("TXN-" ++ hex_EncodeToString random)%string.

(** The request payload struct of [CreateBooking]. *)
Record bookingRequest := mkRequest {
  EventID : string;
  TicketType : string;
  Quantity : Z }.

(** [bound] is the outcome of [c.Bind] ([None]: it failed) and [token] that
    of [utils.GetUserIDFromToken]. *)
Definition CreateBooking (cntrlr : t) (bound : option bookingRequest)
    (token : result string) (random : list N) (now : Time) (generated : ObjectID)
  : DB -> Response * DB :=
  fun db =>
    match bound with
    | None => (HTTPError StatusBadRequest "Invalid request payload FROM BOOKING", db)
    | Some bookingRequest =>
        if Quantity bookingRequest <=? 0
        then (HTTPError StatusBadRequest
                "Quantity must be greater than zero FROM BOOKING", db)
        else
          match token with
          | Err _ => (HTTPError StatusUnauthorized "Unauthorized FROM BOOKING", db)
          | Ok userID =>
              match ObjectIDFromHex userID with
              | None => (HTTPError StatusBadRequest "Invalid user ID FROM BOOKING", db)
              | Some userObjID =>
                  match ObjectIDFromHex (EventID bookingRequest) with
                  | None =>
                      (HTTPError StatusBadRequest "Invalid event ID FROM BOOKING", db)
                  | Some eventObjID =>
                      match EventStore.GetEventByID (EventStore_ cntrlr)
                              (EventID bookingRequest) db with
                      | (Err _, db1) =>
                          (HTTPError StatusNotFound "Event not found FROM BOOKING", db1)
                      | (Ok event, db1) =>
                          let booking :=
                            Booking.mk NilObjectID userObjID eventObjID
                              (TicketType bookingRequest)
                              (generateTransactionID random)
                              (Quantity bookingRequest) 0%float "confirmed" 0 in
                          match BookingStore.CreateBooking (BookingStore_ cntrlr)
                                  now generated booking db1 with
                          | (Err _, db2) =>
                              (HTTPError StatusInternalServerError
                                 "error creating booking FROM BOOKING", db2)
                          | (Ok booking, db2) =>
                              (JSON StatusCreated
                                 [("message", JString "Booking created successfully");
                                  ("booking_id", JString (Hex (Booking.ID booking)));
                                  ("transaction_id", JString (Booking.TransactionID booking));
                                  ("event_id", JString (Hex (Event.ID event)));
                                  ("event_name", JString (Event.Name event));
                                  ("ticket_type", JString (Booking.TicketType booking));
                                  ("quantity", JInt (Booking.Quantity booking));
                                  ("total_paid", JFloat (Booking.TotalPaid booking));
                                  ("status", JString (Booking.Status booking));
                                  ("booked_at", JTime (Booking.BookedAt booking))],
                               db2)
                          end
                      end
                  end
              end
          end
    end.


(** [bookingID] is the path parameter [id]. *)
Definition GetBookingByID (cntrlr : t) (bookingID : string) : DB -> Response * DB :=
  fun db =>
    match BookingStore.GetBookingByID (BookingStore_ cntrlr) bookingID db with
    | (Err _, db1) => (HTTPError StatusNotFound "Booking not found FROM BOOKING", db1)
    | (Ok booking, db1) =>
        (JSON StatusOK
           [("message", JString "Booking retrieved successfully");
            ("booking", JBooking booking)], db1)
    end.

Definition CancelBooking (cntrlr : t) (bookingID : string) (token : result string)
  : DB -> Response * DB :=
  fun db =>
    match ObjectIDFromHex bookingID with
    | None => (HTTPError StatusBadRequest "Invalid booking ID FROM FROM BOOKING", db)
    | Some bookingObjID =>
        match token with
        | Err _ => (HTTPError StatusUnauthorized "Unauthorized FROM BOOKING", db)
        | Ok userID =>
            match BookingStore.GetBookingByID (BookingStore_ cntrlr) bookingID db with
            | (Err _, db1) =>
                (HTTPError StatusNotFound "Booking not found FROM BOOKING", db1)
            | (Ok booking, db1) =>
                if negb (String.eqb (Hex (Booking.UserID booking)) userID)
                then (HTTPError StatusForbidden
                        "You can only cancel your own bookings FROM BOOKING", db1)
                else
                  match BookingStore.CancelBooking (BookingStore_ cntrlr)
                          bookingObjID db1 with
                  | (Err _, db2) =>
                      (HTTPError StatusInternalServerError
                         "Error cancelling booking FROM BOOKING", db2)
                  | (Ok _, db2) =>
                      (JSON StatusOK
                         [("message",
                           JString "Booking cancelled and deleted successfully")], db2)
                  end
            end
        end
    end.

Definition GetAllBookings (cntrlr : t) : DB -> Response * DB :=
  fun db =>
    match BookingStore.GetAllBookings (BookingStore_ cntrlr) db with
    | (Err _, db1) =>
        (HTTPError StatusInternalServerError
           "Error retrieving all bookings FROM BOOKING", db1)
    | (Ok bookings, db1) =>
        (JSON StatusOK
           [("bookings", JBookings bookings);
            ("count", JInt (Z.of_nat (List.length bookings)))], db1)
    end.
End BookingController.

Module CategoryController.
Record t := mk { categoryStore : CategoryStore.t }.

Definition NewCategoryController (categoryStore : CategoryStore.t) : t := mk categoryStore.

(** The handler of the category delete route; [categoryID] is the path
    parameter [id]. *)
Definition DeleteCategory (cc : t) (categoryID : string) : DB -> Response * DB :=
  fun db =>
    match ObjectIDFromHex categoryID with
    | None => (HTTPError StatusBadRequest "Invalid category ID", db)
    | Some objID =>
        match CategoryStore.DeleteCategoryWithCascade (categoryStore cc) objID db with
        | (Err e, db1) =>
            (HTTPError StatusBadRequest ("Failed to delete category: " ++ e)%string, db1)
        | (Ok _, db1) =>
            (JSON StatusOK
               [("message",
                 JString "Category and all associated events deleted successfully")], db1)
        end
    end.
End CategoryController.

(** The controllers as [main] builds them. *)
Module MainControllers.
Definition categoryController : CategoryController.t :=
  CategoryController.NewCategoryController Main.categoryStore.

Definition bookingController : BookingController.t :=
  BookingController.NewBookingController Main.bookingStore Main.eventStore.
End MainControllers.

(** ** Predicates of the specification *)

(** Every quantity of every ticket class is a Go [int]. *)
Definition ticket_ints_in_range (ticket : TicketInfo.t) : Prop :=
  GoInt.in_range (TicketInfo.TotalQuantity ticket) /\
  GoInt.in_range (TicketInfo.AvailableQuantity ticket).

Definition events_well_typed (db : DB) : Prop :=
  Forall (fun e => Forall ticket_ints_in_range (Event.Tickets e)) (Events db).

(** [0 <= available <= total] for a ticket class. *)
Definition ticket_within_bounds (ticket : TicketInfo.t) : Prop :=
  0 <= TicketInfo.AvailableQuantity ticket <= TicketInfo.TotalQuantity ticket.

Definition inventory_invariant (db : DB) : Prop :=
  Forall (fun e => Forall ticket_within_bounds (Event.Tickets e)) (Events db).

(** The store keeps [_id] unique within a collection. *)
Definition unique_event_ids (db : DB) : Prop := NoDup (map Event.ID (Events db)).
Definition unique_booking_ids (db : DB) : Prop := NoDup (map Booking.ID (Bookings db)).

(** Two states hold the same documents (the operation logs may differ). *)
Definition same_documents (db db' : DB) : Prop :=
  Categories db' = Categories db /\
  Events db' = Events db /\
  Bookings db' = Bookings db.

(** The identifier [InsertOne] stores a booking under. *)
Definition inserted_id (generated : ObjectID) (booking : Booking.t) : ObjectID :=
  if N.eqb (Booking.ID booking) NilObjectID then generated else Booking.ID booking.

(** The bookings left once the bookings of each listed event are deleted. *)
Definition without_bookings_of (events : list Event.t) (bookings : list Booking.t)
  : list Booking.t :=
  filter (fun b => negb (existsb (fun e => N.eqb (Booking.EventID b) (Event.ID e)) events))
    bookings.

(** The record a successful [CreateBooking] stores and returns. *)
Definition booking_made (now : Time) (generated : ObjectID) (booking : Booking.t)
    (ticket : TicketInfo.t) : Booking.t :=
  Booking.with_ID (inserted_id generated booking)
    (Booking.priced
       (PrimFloat.mul (TicketInfo.Price ticket)
          (GoInt.to_float64 (Booking.Quantity booking)))
       now "confirmed" booking).

(** Every stored booking has the status [CreateBooking] writes. *)
Definition bookings_confirmed (db : DB) : Prop :=
  Forall (fun b => Booking.Status b = "confirmed") (Bookings db).

Definition unique_category_ids (db : DB) : Prop := NoDup (map Category.ID (Categories db)).
Definition unique_category_names (db : DB) : Prop := NoDup (map Category.Name (Categories db)).
Definition unique_event_names (db : DB) : Prop := NoDup (map Event.Name (Events db)).

(** *** Serial schedules of booking calls *)

Record BookingCall := mkCall {
  call_now : Time;
  call_generated : ObjectID;
  call_booking : Booking.t }.

(** The calls of a schedule, one atomic unit after the other; the result is
    the total quantity granted to the calls that succeeded. *)
Fixpoint run_serial (schedule : list BookingCall) (db : DB) : Z * DB :=
  match schedule with
  | [] => (0, db)
  | call :: rest =>
      match BookingStore.CreateBooking Main.bookingStore (call_now call)
              (call_generated call) (call_booking call) db with
      | (Ok _, db') =>
          let (granted, db'') := run_serial rest db' in
          (Booking.Quantity (call_booking call) + granted, db'')
      | (Err _, db') => run_serial rest db'
      end
  end.

(** *** Concrete scenarios of the specification *)

Module Scenario.
Definition hostID : ObjectID := 7%N.
Definition userID : ObjectID := 9%N.

Definition music : Category.t := Category.mk 5%N "Music" 0.

(** Scenario A: one event with the ticket class
    [{type: "VIP", price: 100, total: 10, available: 10}]. *)
Definition vip : TicketInfo.t := TicketInfo.mk "VIP" 100%float 10 10.

Definition concert : Event.t :=
  Event.mk 1%N hostID "Music" "Concert" "" 1000 "Hall" "" 1000 2000 0 [vip].

Definition dbA : DB := mkDB [music] [concert] [] [].

(** The booking the controller hands to the store: no identifier yet. *)
Definition request (eventID : ObjectID) (ticketType : string) (quantity : Z)
  : Booking.t :=
  Booking.mk NilObjectID userID eventID ticketType "TXN-00" quantity 0%float
    "confirmed" 0.

(** [dbA] after the booking of scenario A (3 VIP tickets, identifier 100). *)
Definition dbA_booked : DB :=
  snd (BookingStore.CreateBooking Main.bookingStore 5000 100%N (request 1%N "VIP" 3) dbA).

(** The host then re-submits the event as first created ([UpdateEvent]
    rewrites the whole ticket list), while the booking is still there. *)
Definition dbA_updated : DB :=
  snd (EventStore.UpdateEvent Main.eventStore concert dbA_booked).

Definition booked (id eventID : ObjectID) (ticketType : string) (quantity : Z)
    (paid : float) : Booking.t :=
  Booking.mk id userID eventID ticketType "TXN-00" quantity paid "confirmed" 4000.

(** Scenario C: a category owning two events, each with one booking. *)
Definition recital : Event.t :=
  Event.mk 2%N hostID "Music" "Recital" "" 1000 "Club" "" 1000 2000 0
    [TicketInfo.mk "Regular" 20%float 50 49].

Definition dbC : DB :=
  mkDB [music] [concert; recital]
    [booked 100%N 1%N "VIP" 3 300%float; booked 101%N 2%N "Regular" 1 20%float] [].

(** Scenario D: at time [now], one event ended an hour ago and another
    ends in an hour; each has one booking. *)
Definition nowD : Time := 10000000.

Definition ended : Event.t :=
  Event.mk 1%N hostID "Music" "Matinee" "" 1000 "Hall" "" 1000 (nowD - 3600000) 0 [vip].

Definition upcoming : Event.t :=
  Event.mk 2%N hostID "Music" "Soiree" "" 1000 "Hall" "" 1000 (nowD + 3600000) 0 [vip].

Definition dbD : DB :=
  mkDB [music] [ended; upcoming]
    [booked 100%N 1%N "VIP" 3 300%float; booked 101%N 2%N "VIP" 2 200%float] [].

(** An event created under the name ["music"] while the category is stored
    as ["Music"], then booked once. *)
Definition lowercase_concert : Event.t :=
  Event.mk NilObjectID hostID "music" "Concert" "" 1000 "Hall" "" 1000 2000 0 [vip].

Definition dbM_created : DB :=
  snd (EventStore.CreateEvent Main.eventStore 3000 1%N lowercase_concert
         (mkDB [music] [] [] [])).

Definition dbM : DB :=
  snd (BookingStore.CreateBooking Main.bookingStore 5000 100%N (request 1%N "VIP" 3)
         dbM_created).

(** A booking whose event is no longer stored. *)
Definition dbOrphan : DB := mkDB [music] [] [booked 100%N 1%N "VIP" 3 300%float] [].

(** Scenario B: two calls against [dbA], each for 6 VIP tickets. *)
Definition callB1 : BookingCall := mkCall 5000 100%N (request 1%N "VIP" 6).
Definition callB2 : BookingCall := mkCall 5001 101%N (request 1%N "VIP" 6).

Definition hex1 : string := "000000000000000000000001".
Definition hex2 : string := "000000000000000000000002".
Definition hex5 : string := "000000000000000000000005".
Definition hex100 : string := "000000000000000000000064".
Definition hex101 : string := "000000000000000000000065".
End Scenario.

(** The available count of the ticket class a booking of type [ticketType]
    on event [eventID] is drawn from, and the quantity booked against it. *)
Definition available_of (db : DB) (eventID : ObjectID) (ticketType : string) : option Z :=
  match find (fun e => N.eqb (Event.ID e) eventID) (Events db) with
  | Some event =>
      match BookingStore.find_ticket ticketType (Event.Tickets event) with
      | Some (_, ticket) => Some (TicketInfo.AvailableQuantity ticket)
      | None => None
      end
  | None => None
  end.

Definition books (eventID : ObjectID) (ticketType : string) (b : Booking.t) : bool :=
  N.eqb (Booking.EventID b) eventID && String.eqb (Booking.TicketType b) ticketType.

Fixpoint total_quantity (bookings : list Booking.t) : Z :=
  match bookings with
  | [] => 0
  | b :: rest => Booking.Quantity b + total_quantity rest
  end.

Definition booked_of (db : DB) (eventID : ObjectID) (ticketType : string) : Z :=
  total_quantity (filter (books eventID ticketType) (Bookings db)).

(** *** More states for the examples *)

Module Scenario2.
(** An event with two ticket classes of the same type: the first nearly
    sold out, the second not. *)
Definition twin : Event.t :=
  Event.mk 1%N Scenario.hostID "Music" "Twin" "" 1000 "Hall" "" 1000 2000 0
    [TicketInfo.mk "Regular" 20%float 50 50;
     TicketInfo.mk "VIP" 100%float 10 2;
     TicketInfo.mk "VIP" 80%float 60 50].

Definition dbTwin : DB := mkDB [Scenario.music] [twin] [] [].

(** A booking whose ticket type its event no longer offers. *)
Definition dbNoClass : DB :=
  mkDB [Scenario.music] [Scenario.concert]
    [Scenario.booked 100%N 1%N "Student" 2 40%float] [].

Definition userHex : string := "000000000000000000000009".
Definition otherHex : string := "00000000000000000000000a".
End Scenario2.

Unset Implicit Arguments.

(** * Properties *)

(** ** Go integers *)

Lemma wrap_in_range (z : Z) : GoInt.in_range z -> GoInt.wrap z = z.
Proof.
  unfold GoInt.in_range, GoInt.min_int, GoInt.max_int, GoInt.wrap. intros H.
  rewrite Z.mod_small; lia.
Qed.

Lemma wrap_range (z : Z) : GoInt.in_range (GoInt.wrap z).
Proof.
  unfold GoInt.in_range, GoInt.min_int, GoInt.max_int, GoInt.wrap.
  pose proof (Z.mod_pos_bound (z + 2 ^ 63) (2 ^ 64) ltac:(lia)). lia.
Qed.

Lemma wrap_add_sub (a q : Z) :
  GoInt.in_range a -> GoInt.add (GoInt.sub a q) q = a.
Proof.
  intros H. unfold GoInt.add, GoInt.sub.
  rewrite <- (wrap_in_range a H) at 2.
  unfold GoInt.wrap. f_equal.
  replace ((a - q + 2 ^ 63) mod 2 ^ 64 - 2 ^ 63 + q + 2 ^ 63)
    with ((a - q + 2 ^ 63) mod 2 ^ 64 + q) by lia.
  rewrite Zplus_mod_idemp_l. f_equal. lia.
Qed.

(** A subtraction that passed the availability check either did not wrap or
    wrapped downwards by [2 ^ 64], which needs a negative quantity. *)
Lemma sub_after_check (a q : Z) :
  GoInt.in_range a -> GoInt.in_range q -> q <= a ->
  (GoInt.sub a q = a - q /\ 0 <= a - q) \/
  (GoInt.sub a q = a - q - 2 ^ 64 /\ q < 0).
Proof.
  unfold GoInt.in_range, GoInt.min_int, GoInt.max_int, GoInt.sub, GoInt.wrap.
  intros Ha Hq Hle.
  destruct (Z_lt_le_dec (a - q) (2 ^ 63)) as [Hs|Hb].
  - left. rewrite Z.mod_small; lia.
  - right.
    replace (a - q + 2 ^ 63) with ((a - q - 2 ^ 63) + 1 * 2 ^ 64) by lia.
    rewrite Z_mod_plus_full, Z.mod_small; lia.
Qed.

(** ** Identifiers in hexadecimal *)

Lemma hex_digit_hex_char (d : N) : (d < 16)%N -> hex_digit (hex_char d) = Some d.
Proof.
  intros H.
  assert (Hcases : In d [0; 1; 2; 3; 4; 5; 6; 7; 8; 9; 10; 11; 12; 13; 14; 15]%N).
  { simpl. lia. }
  simpl in Hcases.
  repeat (destruct Hcases as [<-|Hcases]; [reflexivity|]). contradiction.
Qed.

Lemma hex_digits_length (n : nat) (v : N) (suffix : string) :
  String.length (hex_digits n v suffix) = (n + String.length suffix)%nat.
Proof.
  revert v suffix. induction n as [|k IH]; intros v suffix; simpl; [reflexivity|].
  rewrite IH. simpl. lia.
Qed.

Lemma hex_value_hex_digits (n : nat) (v acc : N) (suffix : string) :
  hex_value (hex_digits n v suffix) acc =
  hex_value suffix (acc * 16 ^ N.of_nat n + v mod 16 ^ N.of_nat n)%N.
Proof.
  revert v acc suffix. induction n as [|k IH]; intros v acc suffix.
  - simpl. rewrite N.mod_1_r. f_equal. lia.
  - cbn [hex_digits]. rewrite IH. cbn [hex_value].
    rewrite hex_digit_hex_char by (apply N.mod_upper_bound; lia).
    f_equal. rewrite Nat2N.inj_succ, N.pow_succ_r'.
    rewrite (N.Div0.mod_mul_r v 16 (16 ^ N.of_nat k)). lia.
Qed.

(** Every twelve-byte identifier is read back from its hexadecimal form. *)
Lemma ObjectIDFromHex_Hex (id : ObjectID) :
  (id < 2 ^ 96)%N -> ObjectIDFromHex (Hex id) = Some id.
Proof.
  intros H. unfold ObjectIDFromHex, Hex.
  rewrite hex_digits_length. cbn [String.length Nat.add Nat.eqb].
  rewrite hex_value_hex_digits. cbn [hex_value].
  f_equal. change (16 ^ N.of_nat 24)%N with (2 ^ 96)%N.
  rewrite N.mod_small by exact H. lia.
Qed.

(** ** Lists of documents *)

Section DocumentFacts.
Context {A : Type}.
Variables (p : A -> bool).

Lemma find_none_existsb (docs : list A) :
  find p docs = None <-> existsb p docs = false.
Proof.
  induction docs as [|d rest IH]; simpl; [tauto|].
  destruct (p d); simpl; [split; discriminate|exact IH].
Qed.

Lemma find_some_existsb (docs : list A) (d : A) :
  find p docs = Some d -> existsb p docs = true.
Proof.
  intros H. destruct (existsb p docs) eqn:E; [reflexivity|].
  apply find_none_existsb in E. congruence.
Qed.

Lemma find_app_fresh (docs : list A) (d : A) :
  existsb p docs = false -> p d = true -> find p (docs ++ [d]) = Some d.
Proof.
  induction docs as [|x rest IH]; simpl; intros Hn Hd.
  - now rewrite Hd.
  - apply orb_false_iff in Hn as [Hx Hr]. rewrite Hx. auto.
Qed.

Lemma delete_first_app_fresh (docs : list A) (d : A) :
  existsb p docs = false -> p d = true -> delete_first p (docs ++ [d]) = docs.
Proof.
  induction docs as [|x rest IH]; simpl; intros Hn Hd.
  - now rewrite Hd.
  - apply orb_false_iff in Hn as [Hx Hr]. rewrite Hx. f_equal. auto.
Qed.

Lemma find_update_first (u : A -> A) (docs : list A) :
  (forall x, p (u x) = p x) ->
  find p (update_first p u docs) =
  match find p docs with Some d => Some (u d) | None => None end.
Proof.
  intros Hu. induction docs as [|x rest IH]; simpl; [reflexivity|].
  destruct (p x) eqn:E; simpl.
  - now rewrite Hu, E.
  - now rewrite E.
Qed.

Lemma update_first_twice (u1 u2 : A -> A) (docs : list A) :
  (forall x, p (u1 x) = p x) ->
  update_first p u2 (update_first p u1 docs) =
  update_first p (fun x => u2 (u1 x)) docs.
Proof.
  intros Hu. induction docs as [|x rest IH]; simpl; [reflexivity|].
  destruct (p x) eqn:E; simpl.
  - now rewrite Hu, E.
  - rewrite E. now f_equal.
Qed.

Lemma update_first_fixed (u : A -> A) (docs : list A) (d : A) :
  find p docs = Some d -> u d = d -> update_first p u docs = docs.
Proof.
  induction docs as [|x rest IH]; simpl; [discriminate|].
  destruct (p x) eqn:E; intros Hf Hd.
  - injection Hf as ->. now rewrite Hd.
  - f_equal. auto.
Qed.

Lemma delete_first_none (docs : list A) :
  existsb p docs = false -> delete_first p docs = docs.
Proof.
  induction docs as [|x rest IH]; simpl; [reflexivity|].
  intros H. apply orb_false_iff in H as [Hx Hr]. rewrite Hx. f_equal. auto.
Qed.

Lemma Forall_update_first (P : A -> Prop) (u : A -> A) (docs : list A) :
  Forall P docs ->
  (forall d, find p docs = Some d -> P d -> P (u d)) ->
  Forall P (update_first p u docs).
Proof.
  induction docs as [|x rest IH]; simpl; intros HF Hu; [constructor|].
  inversion HF as [|? ? Hx Hr]; subst.
  destruct (p x) eqn:E.
  - constructor; [apply Hu; auto|assumption].
  - constructor; [assumption|apply IH; assumption].
Qed.

Lemma Forall_delete_first (P : A -> Prop) (docs : list A) :
  Forall P docs -> Forall P (delete_first p docs).
Proof.
  induction docs as [|x rest IH]; simpl; intros HF; [constructor|].
  inversion HF; subst. destruct (p x); [assumption|constructor; auto].
Qed.

Lemma Forall_filter (P : A -> Prop) (docs : list A) :
  Forall P docs -> Forall P (filter p docs).
Proof.
  induction docs as [|x rest IH]; simpl; intros HF; [constructor|].
  inversion HF; subst. destruct (p x); [constructor|]; auto.
Qed.

(** The first match survives a filter that keeps it. *)
Lemma find_filter_keep (keep : A -> bool) (docs : list A) (d : A) :
  find p docs = Some d -> keep d = true -> find p (filter keep docs) = Some d.
Proof.
  induction docs as [|x rest IH]; simpl; [discriminate|].
  destruct (p x) eqn:E; intros Hf Hk.
  - injection Hf as ->. rewrite Hk. simpl. now rewrite E.
  - destruct (keep x); simpl; [rewrite E|]; auto.
Qed.
End DocumentFacts.

Section UniqueIds.
Context {A : Type}.
Variable id : A -> ObjectID.

Lemma unique_id_same (docs : list A) (x y : A) :
  NoDup (map id docs) -> In x docs -> In y docs -> id x = id y -> x = y.
Proof.
  induction docs as [|d rest IH]; simpl; [tauto|].
  intros Hnd Hx Hy Hid. inversion Hnd as [|? ? Hnotin Hrest]; subst.
  destruct Hx as [->|Hx], Hy as [->|Hy]; auto.
  - exfalso. apply Hnotin. rewrite Hid. now apply in_map.
  - exfalso. apply Hnotin. rewrite <- Hid. now apply in_map.
Qed.

Lemma find_by_id_In (k : ObjectID) (docs : list A) (d : A) :
  find (fun x => N.eqb (id x) k) docs = Some d -> In d docs /\ id d = k.
Proof.
  intros H. apply find_some in H as [Hin Hk]. split; [assumption|].
  now apply N.eqb_eq.
Qed.

Lemma find_delete_first_unique (k : ObjectID) (docs : list A) :
  NoDup (map id docs) ->
  find (fun x => N.eqb (id x) k)
    (delete_first (fun x => N.eqb (id x) k) docs) = None.
Proof.
  induction docs as [|d rest IH]; simpl; [reflexivity|].
  intros Hnd. inversion Hnd as [|? ? Hnotin Hrest]; subst.
  destruct (N.eqb (id d) k) eqn:E.
  - apply N.eqb_eq in E. subst k.
    destruct (find _ rest) as [y|] eqn:F; [|reflexivity].
    apply find_by_id_In in F as [Hin Hy].
    exfalso. apply Hnotin. rewrite <- Hy. now apply in_map.
  - simpl. rewrite E. auto.
Qed.

Lemma NoDup_map_delete_first (p : A -> bool) (docs : list A) :
  NoDup (map id docs) -> NoDup (map id (delete_first p docs)).
Proof.
  induction docs as [|d rest IH]; simpl; intros Hnd; [constructor|].
  inversion Hnd as [|? ? Hnotin Hrest]; subst.
  destruct (p d); [assumption|]. simpl. constructor; [|auto].
  intros Hin. apply Hnotin. clear - Hin.
  induction rest as [|x r IHr]; simpl in *; [tauto|].
  destruct (p x); simpl in *; tauto.
Qed.

Lemma NoDup_map_filter (p : A -> bool) (docs : list A) :
  NoDup (map id docs) -> NoDup (map id (filter p docs)).
Proof.
  induction docs as [|d rest IH]; simpl; intros Hnd; [constructor|].
  inversion Hnd as [|? ? Hnotin Hrest]; subst.
  destruct (p d); [|auto]. simpl. constructor; [|auto].
  intros Hin. apply Hnotin. apply in_map_iff in Hin as [x [Hx Hf]].
  apply filter_In in Hf as [Hf _]. rewrite <- Hx. now apply in_map.
Qed.
End UniqueIds.

(** ** Ticket classes *)

Lemma with_AvailableQuantity_same (ticket : TicketInfo.t) :
  TicketInfo.with_AvailableQuantity (TicketInfo.AvailableQuantity ticket) ticket = ticket.
Proof. destruct ticket; reflexivity. Qed.

Lemma find_ticket_In (ty : string) (tickets : list TicketInfo.t) i ticket :
  BookingStore.find_ticket ty tickets = Some (i, ticket) -> In ticket tickets.
Proof.
  revert i. induction tickets as [|x rest IH]; simpl; intros i; [discriminate|].
  destruct (String.eqb (TicketInfo.Type_ x) ty).
  - intros [= _ ->]. now left.
  - destruct (BookingStore.find_ticket ty rest) as [[j found]|]; [|discriminate].
    intros [= _ ->]. right. eapply IH. reflexivity.
Qed.

Lemma find_ticket_set (ty : string) (v : Z) (tickets : list TicketInfo.t) i ticket :
  BookingStore.find_ticket ty tickets = Some (i, ticket) ->
  BookingStore.find_ticket ty (set_ticket_available i v tickets) =
  Some (i, TicketInfo.with_AvailableQuantity v ticket).
Proof.
  revert i. induction tickets as [|x rest IH]; simpl; intros i; [discriminate|].
  destruct (String.eqb (TicketInfo.Type_ x) ty) eqn:E.
  - intros [= <- <-]. simpl. now rewrite E.
  - destruct (BookingStore.find_ticket ty rest) as [[j found]|] eqn:F; [|discriminate].
    intros [= <- <-]. simpl. rewrite E. now rewrite (IH j eq_refl).
Qed.

Lemma set_ticket_available_twice (i : nat) (v1 v2 : Z) (tickets : list TicketInfo.t) :
  set_ticket_available i v2 (set_ticket_available i v1 tickets) =
  set_ticket_available i v2 tickets.
Proof.
  revert tickets. induction i as [|j IH]; intros [|x rest]; simpl;
    try reflexivity; f_equal; apply IH.
Qed.

Lemma set_ticket_available_same (ty : string) (tickets : list TicketInfo.t) i ticket :
  BookingStore.find_ticket ty tickets = Some (i, ticket) ->
  set_ticket_available i (TicketInfo.AvailableQuantity ticket) tickets = tickets.
Proof.
  revert i. induction tickets as [|x rest IH]; simpl; intros i; [discriminate|].
  destruct (String.eqb (TicketInfo.Type_ x) ty).
  - intros [= <- <-]. simpl. now rewrite with_AvailableQuantity_same.
  - destruct (BookingStore.find_ticket ty rest) as [[j found]|] eqn:F; [|discriminate].
    intros [= <- <-]. simpl. f_equal. now apply IH.
Qed.

Lemma Forall_set_ticket_available (P : TicketInfo.t -> Prop) (ty : string) (v : Z)
    (tickets : list TicketInfo.t) i ticket :
  BookingStore.find_ticket ty tickets = Some (i, ticket) ->
  Forall P tickets ->
  P (TicketInfo.with_AvailableQuantity v ticket) ->
  Forall P (set_ticket_available i v tickets).
Proof.
  revert i. induction tickets as [|x rest IH]; simpl; intros i; [discriminate|].
  intros Hf HF HP. inversion HF; subst.
  destruct (String.eqb (TicketInfo.Type_ x) ty).
  - injection Hf as <- <-. simpl. now constructor.
  - destruct (BookingStore.find_ticket ty rest) as [[j found]|] eqn:F; [|discriminate].
    injection Hf as <- <-. simpl. constructor; [assumption|]. now apply IH.
Qed.

(** ** The booking store, case by case *)

(** What [CreateBooking] returns and leaves behind, by the checks it makes. *)
Lemma CreateBooking_cases (now : Time) (generated : ObjectID) (booking : Booking.t) (db : DB) :
  let r := BookingStore.CreateBooking Main.bookingStore now generated booking db in
  match find (event_matches (F_id (Booking.EventID booking))) (Events db) with
  | None => fst r = Err "event not found" /\ same_documents db (snd r)
  | Some event =>
      match BookingStore.find_ticket (Booking.TicketType booking) (Event.Tickets event) with
      | None =>
          fst r = Err "ticket type not found for this event" /\ same_documents db (snd r)
      | Some (i, ticket) =>
          if TicketInfo.AvailableQuantity ticket <? Booking.Quantity booking
          then fst r = Err "not enough tickets available" /\ same_documents db (snd r)
          else if existsb (fun d => N.eqb (Booking.ID d) (inserted_id generated booking))
                    (Bookings db)
          then fst r = Err ErrDuplicateKey /\ same_documents db (snd r)
          else
            fst r = Ok (booking_made now generated booking ticket) /\
            Categories (snd r) = Categories db /\
            Events (snd r) =
              update_first (event_matches (F_id (Booking.EventID booking)))
                (event_apply
                   (U_set_ticket_available i
                      (GoInt.sub (TicketInfo.AvailableQuantity ticket)
                         (Booking.Quantity booking))))
                (Events db) /\
            Bookings (snd r) = Bookings db ++ [booking_made now generated booking ticket]
      end
  end.
Proof.
  unfold BookingStore.CreateBooking, WithTransaction, bind, FindOne, InsertOne,
    UpdateOne, fail, ret, inserted_id, booking_made.
  cbn.
  destruct (find _ _) as [event|]; cbn; [|repeat split].
  destruct (BookingStore.find_ticket _ _) as [[i ticket]|]; cbn;
    [|repeat split].
  destruct (_ <? _); cbn; [repeat split|].
  destruct (existsb _ _); cbn; [repeat split|].
  repeat split.
Qed.

(** A failed [CreateBooking] leaves every collection as it was. *)
Lemma CreateBooking_failure_rolls_back now generated booking db e :
  fst (BookingStore.CreateBooking Main.bookingStore now generated booking db) = Err e ->
  same_documents db (snd (BookingStore.CreateBooking Main.bookingStore now generated booking db)).
Proof.
  pose proof (CreateBooking_cases now generated booking db) as H. cbv zeta in H.
  destruct (find _ _) as [event|]; [|tauto].
  destruct (BookingStore.find_ticket _ _) as [[i ticket]|]; [|tauto].
  destruct (_ <? _); [tauto|].
  destruct (existsb _ _); [tauto|].
  destruct H as [H _]. rewrite H. discriminate.
Qed.

(** What a successful [CreateBooking] has checked and written. *)
Lemma CreateBooking_success now generated booking db booking' :
  fst (BookingStore.CreateBooking Main.bookingStore now generated booking db) = Ok booking' ->
  exists event i ticket,
    find (event_matches (F_id (Booking.EventID booking))) (Events db) = Some event /\
    BookingStore.find_ticket (Booking.TicketType booking) (Event.Tickets event) = Some (i, ticket) /\
    Booking.Quantity booking <= TicketInfo.AvailableQuantity ticket /\
    existsb (fun d => N.eqb (Booking.ID d) (inserted_id generated booking)) (Bookings db) = false /\
    booking' = booking_made now generated booking ticket /\
    Categories (snd (BookingStore.CreateBooking Main.bookingStore now generated booking db))
      = Categories db /\
    Events (snd (BookingStore.CreateBooking Main.bookingStore now generated booking db))
      = update_first (event_matches (F_id (Booking.EventID booking)))
          (event_apply
             (U_set_ticket_available i
                (GoInt.sub (TicketInfo.AvailableQuantity ticket) (Booking.Quantity booking))))
          (Events db) /\
    Bookings (snd (BookingStore.CreateBooking Main.bookingStore now generated booking db))
      = Bookings db ++ [booking'].
Proof.
  pose proof (CreateBooking_cases now generated booking db) as H. cbv zeta in H.
  intros Hok.
  destruct (find _ _) as [event|] eqn:Hfind; [|destruct H as [H _]; congruence].
  destruct (BookingStore.find_ticket _ _) as [[i ticket]|] eqn:Hticket;
    [|destruct H as [H _]; congruence].
  destruct (_ <? _) eqn:Hlt; [destruct H as [H _]; congruence|].
  destruct (existsb _ _) eqn:Hdup; [destruct H as [H _]; congruence|].
  destruct H as (H & Hc & He & Hb).
  rewrite H in Hok. injection Hok as Hok. subst booking'.
  exists event, i, ticket. apply Z.ltb_ge in Hlt.
  split; [reflexivity|]. split; [exact Hticket|]. split; [exact Hlt|].
  split; [reflexivity|]. split; [reflexivity|]. split; [exact Hc|].
  split; [exact He|exact Hb].
Qed.

(** What [CancelBooking] returns and leaves behind, by the checks it makes. *)
Lemma CancelBooking_cases (bookingID : ObjectID) (db : DB) :
  let r := BookingStore.CancelBooking Main.bookingStore bookingID db in
  match find (booking_matches (F_id bookingID)) (Bookings db) with
  | None => fst r = Err "booking not found" /\ same_documents db (snd r)
  | Some booking =>
      if String.eqb (Booking.Status booking) "cancelled"
      then fst r = Err "booking already cancelled" /\ same_documents db (snd r)
      else
        fst r = Ok tt /\
        Categories (snd r) = Categories db /\
        Bookings (snd r) = delete_first (booking_matches (F_id bookingID)) (Bookings db) /\
        Events (snd r) =
          match find (event_matches (F_id (Booking.EventID booking))) (Events db) with
          | None => Events db
          | Some event =>
              match BookingStore.find_ticket (Booking.TicketType booking)
                      (Event.Tickets event) with
              | Some (i, ticket) =>
                  update_first (event_matches (F_id (Booking.EventID booking)))
                    (event_apply
                       (U_set_ticket_available i
                          (GoInt.add (TicketInfo.AvailableQuantity ticket)
                             (Booking.Quantity booking))))
                    (Events db)
              | None => Events db
              end
          end
  end.
Proof.
  unfold BookingStore.CancelBooking, WithTransaction, bind, FindOne, DeleteOne,
    UpdateOne, fail, ret.
  cbn.
  destruct (find _ (Bookings db)) as [booking|]; cbn; [|repeat split].
  destruct (String.eqb _ _); cbn; [repeat split|].
  destruct (find _ (Events db)) as [event|]; cbn; [|repeat split].
  destruct (BookingStore.find_ticket _ _) as [[i ticket]|]; cbn; repeat split.
Qed.

Lemma CancelBooking_failure_rolls_back bookingID db e :
  fst (BookingStore.CancelBooking Main.bookingStore bookingID db) = Err e ->
  same_documents db (snd (BookingStore.CancelBooking Main.bookingStore bookingID db)).
Proof.
  pose proof (CancelBooking_cases bookingID db) as H. cbv zeta in H.
  destruct (find _ _) as [booking|]; [|tauto].
  destruct (String.eqb _ _); [tauto|].
  destruct H as [H _]. rewrite H. discriminate.
Qed.

Lemma event_apply_keeps_id (u : Update) (k : ObjectID) (e : Event.t) :
  event_matches (F_id k) (event_apply u e) = event_matches (F_id k) e.
Proof. destruct u; reflexivity. Qed.

Lemma booking_made_ID now generated booking ticket :
  Booking.ID (booking_made now generated booking ticket) = inserted_id generated booking.
Proof. reflexivity. Qed.

(** ** Creating a booking *)

(** C3. A successful [CreateBooking] on an existing event, for a ticket type
    the event offers, with [0 < quantity <= available]: the first ticket
    class of that type has its available count lowered by exactly the
    quantity, and the booking returned and stored carries
    [totalPaid = price * quantity] (the [float64] product the code computes),
    the status ["confirmed"] and the identifier it was inserted under, which
    no earlier booking had.  Scenario A: on
    [{type: "VIP", price: 100, total: 10, available: 10}], booking 3 VIP
    tickets succeeds, leaves 7 available and costs 300. *)
Theorem C3_create_booking_success :
  (forall now generated booking db event i ticket booking' db',
      find (event_matches (F_id (Booking.EventID booking))) (Events db) = Some event ->
      BookingStore.find_ticket (Booking.TicketType booking) (Event.Tickets event)
        = Some (i, ticket) ->
      0 < Booking.Quantity booking ->
      Booking.Quantity booking <= TicketInfo.AvailableQuantity ticket ->
      TicketInfo.AvailableQuantity ticket <= GoInt.max_int ->
      BookingStore.CreateBooking Main.bookingStore now generated booking db
        = (Ok booking', db') ->
      (exists event',
          find (event_matches (F_id (Booking.EventID booking))) (Events db') = Some event' /\
          Event.Tickets event' =
            set_ticket_available i
              (TicketInfo.AvailableQuantity ticket - Booking.Quantity booking)
              (Event.Tickets event) /\
          BookingStore.find_ticket (Booking.TicketType booking) (Event.Tickets event') =
            Some (i, TicketInfo.with_AvailableQuantity
                       (TicketInfo.AvailableQuantity ticket - Booking.Quantity booking)
                       ticket)) /\
      Booking.TotalPaid booking' =
        PrimFloat.mul (TicketInfo.Price ticket) (GoInt.to_float64 (Booking.Quantity booking)) /\
      Booking.Status booking' = "confirmed" /\
      Booking.ID booking' = inserted_id generated booking /\
      existsb (fun d => N.eqb (Booking.ID d) (Booking.ID booking')) (Bookings db) = false /\
      Bookings db' = Bookings db ++ [booking']) /\
  (let r := BookingStore.CreateBooking Main.bookingStore 5000 100%N
              (Scenario.request 1%N "VIP" 3) Scenario.dbA in
   exists booking',
     fst r = Ok booking' /\
     Booking.TotalPaid booking' = 300%float /\
     Booking.ID booking' = 100%N /\
     map Event.Tickets (Events (snd r)) = [[TicketInfo.mk "VIP" 100%float 10 7]]).
Proof.
  split.
  - intros now generated booking db event i ticket booking' db' Hev Htk Hpos Hle Hmax Hrun.
    assert (Hfst : fst (BookingStore.CreateBooking Main.bookingStore now generated booking db)
                   = Ok booking') by now rewrite Hrun.
    destruct (CreateBooking_success _ _ _ _ _ Hfst)
      as (event0 & i0 & ticket0 & Hev0 & Htk0 & _ & Hfresh & Hmade & _ & Hevents & Hbookings).
    rewrite Hrun in Hevents, Hbookings. simpl in Hevents, Hbookings.
    rewrite Hev in Hev0. injection Hev0 as <-.
    rewrite Htk in Htk0. injection Htk0 as <- <-.
    assert (Hsub : GoInt.sub (TicketInfo.AvailableQuantity ticket) (Booking.Quantity booking)
                   = TicketInfo.AvailableQuantity ticket - Booking.Quantity booking).
    { apply wrap_in_range. unfold GoInt.in_range, GoInt.min_int, GoInt.max_int in *. lia. }
    rewrite Hsub in Hevents.
    split.
    + eexists. rewrite Hevents.
      rewrite find_update_first by (intros x; apply event_apply_keeps_id).
      rewrite Hev. split; [reflexivity|]. split; [reflexivity|].
      simpl. now apply find_ticket_set.
    + subst booking'. rewrite booking_made_ID.
      split; [reflexivity|]. split; [reflexivity|]. split; [reflexivity|].
      split; assumption.
  - cbv zeta. eexists. split; [vm_compute; reflexivity|]. vm_compute. repeat split.
Qed.

Lemma C3_create_booking_success_witness :
  let made := booking_made 5000 100%N (Scenario.request 1%N "VIP" 3) Scenario.vip in
  Booking.TotalPaid made = 300%float /\
  Booking.Status made = "confirmed" /\
  Booking.ID made = 100%N.
Proof.
  intros made.
  destruct (proj1 C3_create_booking_success 5000 100%N (Scenario.request 1%N "VIP" 3)
              Scenario.dbA Scenario.concert 0%nat Scenario.vip made
              (snd (BookingStore.CreateBooking Main.bookingStore 5000 100%N
                      (Scenario.request 1%N "VIP" 3) Scenario.dbA)))
    as (_ & Hpaid & Hstatus & Hid & _).
  - reflexivity.
  - reflexivity.
  - reflexivity.
  - discriminate.
  - discriminate.
  - vm_compute. reflexivity.
  - rewrite Hpaid, Hstatus, Hid. repeat split.
Defined.

(** C4. [CreateBooking] fails with "event not found" when no event has the
    requested identifier, with "ticket type not found for this event" when
    the event has no ticket class of the requested type, and with "not
    enough tickets available" when the first class of that type has fewer
    tickets available than requested; after any failure the three
    collections hold exactly the documents they held before: no booking is
    inserted and no ticket class is changed. *)
Theorem C4_create_booking_failures :
  forall now generated booking db,
    let r := BookingStore.CreateBooking Main.bookingStore now generated booking db in
    (find (event_matches (F_id (Booking.EventID booking))) (Events db) = None ->
     fst r = Err "event not found") /\
    (forall event,
        find (event_matches (F_id (Booking.EventID booking))) (Events db) = Some event ->
        BookingStore.find_ticket (Booking.TicketType booking) (Event.Tickets event) = None ->
        fst r = Err "ticket type not found for this event") /\
    (forall event i ticket,
        find (event_matches (F_id (Booking.EventID booking))) (Events db) = Some event ->
        BookingStore.find_ticket (Booking.TicketType booking) (Event.Tickets event)
          = Some (i, ticket) ->
        TicketInfo.AvailableQuantity ticket < Booking.Quantity booking ->
        fst r = Err "not enough tickets available") /\
    (forall e, fst r = Err e ->
        Bookings (snd r) = Bookings db /\ Events (snd r) = Events db /\
        Categories (snd r) = Categories db).
Proof.
  intros now generated booking db r.
  pose proof (CreateBooking_cases now generated booking db) as H. cbv zeta in H.
  fold r in H.
  split; [|split; [|split]].
  - intros Hev. rewrite Hev in H. tauto.
  - intros event Hev Htk. rewrite Hev, Htk in H. tauto.
  - intros event i ticket Hev Htk Hlt. rewrite Hev, Htk in H.
    apply Z.ltb_lt in Hlt. rewrite Hlt in H. tauto.
  - intros e He. destruct (CreateBooking_failure_rolls_back _ _ _ _ _ He) as (Hc & Hevs & Hb).
    tauto.
Qed.

Lemma C4_create_booking_failures_witness :
  fst (BookingStore.CreateBooking Main.bookingStore 5000 100%N
         (Scenario.request 2%N "VIP" 3) Scenario.dbA) = Err "event not found" /\
  fst (BookingStore.CreateBooking Main.bookingStore 5000 100%N
         (Scenario.request 1%N "Student" 3) Scenario.dbA)
    = Err "ticket type not found for this event" /\
  fst (BookingStore.CreateBooking Main.bookingStore 5000 100%N
         (Scenario.request 1%N "VIP" 11) Scenario.dbA)
    = Err "not enough tickets available" /\
  Events (snd (BookingStore.CreateBooking Main.bookingStore 5000 100%N
                 (Scenario.request 1%N "VIP" 11) Scenario.dbA)) = Events Scenario.dbA.
Proof.
  split; [|split; [|split]].
  - apply (proj1 (C4_create_booking_failures 5000 100%N
                    (Scenario.request 2%N "VIP" 3) Scenario.dbA)).
    reflexivity.
  - apply (proj1 (proj2 (C4_create_booking_failures 5000 100%N
                           (Scenario.request 1%N "Student" 3) Scenario.dbA))
             Scenario.concert); reflexivity.
  - apply (proj1 (proj2 (proj2 (C4_create_booking_failures 5000 100%N
                                  (Scenario.request 1%N "VIP" 11) Scenario.dbA)))
             Scenario.concert 0%nat Scenario.vip); reflexivity.
  - apply (proj2 (proj2 (proj2 (C4_create_booking_failures 5000 100%N
                                  (Scenario.request 1%N "VIP" 11) Scenario.dbA)))
             "not enough tickets available").
    vm_compute. reflexivity.
Defined.

(** ** Reads by identifier *)

Lemma GetBookingByID_run (hex : string) (db : DB) :
  fst (BookingStore.GetBookingByID Main.bookingStore hex db) =
  match ObjectIDFromHex hex with
  | None => Err "invalid booking id"
  | Some id =>
      match find (booking_matches (F_id id)) (Bookings db) with
      | None => Err "booking not found"
      | Some booking => Ok booking
      end
  end.
Proof.
  unfold BookingStore.GetBookingByID.
  destruct (ObjectIDFromHex hex) as [id|]; [|reflexivity].
  unfold bind, FindOne. cbn. destruct (find _ _); reflexivity.
Qed.

Lemma GetEventByID_run (hex : string) (db : DB) :
  fst (EventStore.GetEventByID Main.eventStore hex db) =
  match ObjectIDFromHex hex with
  | None => Err "invalid event id"
  | Some id =>
      match find (event_matches (F_id id)) (Events db) with
      | None => Err "event not found"
      | Some event => Ok event
      end
  end.
Proof.
  unfold EventStore.GetEventByID.
  destruct (ObjectIDFromHex hex) as [id|]; [|reflexivity].
  unfold bind, FindOne. cbn. destruct (find _ _); reflexivity.
Qed.

Lemma GetCategoryByID_run (id : ObjectID) (db : DB) :
  CategoryStore.GetCategoryByID Main.categoryStore id db =
  (match find (category_matches (F_id id)) (Categories db) with
   | None => Err "category not found"
   | Some category => Ok category
   end,
   log_op (OpFindOne "Categories" (F_id id)) db).
Proof.
  unfold CategoryStore.GetCategoryByID, bind, FindOne. cbn.
  destruct (find _ _); reflexivity.
Qed.

(** ** Cancelling a booking *)

(** C5. Round trip.  In every state in which [CreateBooking] succeeds (for
    any ticket type and quantity, so for 3 ["VIP"] tickets), cancelling the
    booking just made, with nothing in between, succeeds and leaves the
    events exactly as they were before the booking was made, so the
    available count of the ticket class is its pre-booking value; the
    bookings are those from before, and [GetBookingByID] on the booking's
    identifier then fails "booking not found". *)
Theorem C5_create_then_cancel_round_trip :
  forall now generated booking db booking' db1,
    events_well_typed db ->
    BookingStore.CreateBooking Main.bookingStore now generated booking db
      = (Ok booking', db1) ->
    let r := BookingStore.CancelBooking Main.bookingStore (Booking.ID booking') db1 in
    fst r = Ok tt /\
    Events (snd r) = Events db /\
    Bookings (snd r) = Bookings db /\
    Categories (snd r) = Categories db /\
    forall hex, ObjectIDFromHex hex = Some (Booking.ID booking') ->
      fst (BookingStore.GetBookingByID Main.bookingStore hex (snd r))
        = Err "booking not found".
Proof.
  intros now generated booking db booking' db1 Htyped Hrun r.
  assert (Hfst : fst (BookingStore.CreateBooking Main.bookingStore now generated booking db)
                 = Ok booking') by now rewrite Hrun.
  destruct (CreateBooking_success _ _ _ _ _ Hfst)
    as (event & i & ticket & Hev & Htk & _ & Hfresh & Hmade & Hcat & Hevents & Hbookings).
  rewrite Hrun in Hcat, Hevents, Hbookings. simpl in Hcat, Hevents, Hbookings.
  assert (Hid : Booking.ID booking' = inserted_id generated booking)
    by (subst booking'; reflexivity).
  assert (Hfound : find (booking_matches (F_id (Booking.ID booking'))) (Bookings db1)
                   = Some booking').
  { rewrite Hbookings. apply find_app_fresh.
    - rewrite Hid. exact Hfresh.
    - simpl. apply N.eqb_refl. }
  assert (Hrange : GoInt.in_range (TicketInfo.AvailableQuantity ticket)).
  { apply find_some in Hev as [Hin _]. apply find_ticket_In in Htk as Hint.
    unfold events_well_typed in Htyped. rewrite Forall_forall in Htyped.
    specialize (Htyped _ Hin). rewrite Forall_forall in Htyped.
    apply (Htyped _ Hint). }
  pose proof (CancelBooking_cases (Booking.ID booking') db1) as H. cbv zeta in H.
  fold r in H. rewrite Hfound in H.
  replace (String.eqb (Booking.Status booking') "cancelled") with false in H
    by (subst booking'; reflexivity).
  destruct H as (Hok & Hc & Hb & He).
  assert (Hbookings' : Bookings (snd r) = Bookings db).
  { rewrite Hb, Hbookings. apply delete_first_app_fresh.
    - rewrite Hid. exact Hfresh.
    - simpl. apply N.eqb_refl. }
  split; [exact Hok|]. split; [|split; [exact Hbookings'|split; [congruence|]]].
  - rewrite He.
    replace (Booking.EventID booking') with (Booking.EventID booking)
      by (subst booking'; reflexivity).
    replace (Booking.TicketType booking') with (Booking.TicketType booking)
      by (subst booking'; reflexivity).
    replace (Booking.Quantity booking') with (Booking.Quantity booking)
      by (subst booking'; reflexivity).
    rewrite Hevents.
    rewrite find_update_first by (intros x; apply event_apply_keeps_id).
    rewrite Hev. simpl Event.Tickets.
    rewrite (find_ticket_set _ _ _ _ _ Htk). simpl TicketInfo.AvailableQuantity.
    rewrite wrap_add_sub by exact Hrange.
    rewrite update_first_twice by (intros x; apply event_apply_keeps_id).
    apply update_first_fixed with (d := event); [exact Hev|].
    simpl. rewrite set_ticket_available_twice.
    rewrite (set_ticket_available_same _ _ _ _ Htk).
    destruct event; reflexivity.
  - intros hex Hhex. rewrite GetBookingByID_run, Hhex, Hbookings'.
    rewrite Hid.
    replace (find _ (Bookings db)) with (@None Booking.t); [reflexivity|].
    symmetry. apply find_none_existsb. exact Hfresh.
Qed.

Lemma C5_create_then_cancel_round_trip_witness :
  let r := BookingStore.CancelBooking Main.bookingStore 100%N Scenario.dbA_booked in
  fst r = Ok tt /\
  Events (snd r) = Events Scenario.dbA /\
  fst (BookingStore.GetBookingByID Main.bookingStore Scenario.hex100 (snd r))
    = Err "booking not found".
Proof.
  destruct (C5_create_then_cancel_round_trip 5000 100%N (Scenario.request 1%N "VIP" 3)
              Scenario.dbA
              (booking_made 5000 100%N (Scenario.request 1%N "VIP" 3) Scenario.vip)
              Scenario.dbA_booked)
    as (Hok & Hev & _ & _ & Hget).
  - repeat constructor; vm_compute; discriminate.
  - vm_compute. reflexivity.
  - split; [exact Hok|]. split; [exact Hev|]. apply Hget. reflexivity.
Defined.

(** C6. Once a first [CancelBooking] of a booking identifier has succeeded,
    the booking's row is gone, so a second [CancelBooking] of the same
    identifier fails "booking not found", not "booking already cancelled". *)
Theorem C6_second_cancel_not_found :
  forall bookingID db,
    unique_booking_ids db ->
    fst (BookingStore.CancelBooking Main.bookingStore bookingID db) = Ok tt ->
    let db1 := snd (BookingStore.CancelBooking Main.bookingStore bookingID db) in
    find (booking_matches (F_id bookingID)) (Bookings db1) = None /\
    fst (BookingStore.CancelBooking Main.bookingStore bookingID db1)
      = Err "booking not found" /\
    fst (BookingStore.CancelBooking Main.bookingStore bookingID db1)
      <> Err "booking already cancelled".
Proof.
  intros bookingID db Huniq Hok db1.
  pose proof (CancelBooking_cases bookingID db) as H. cbv zeta in H.
  assert (Hgone : find (booking_matches (F_id bookingID)) (Bookings db1) = None).
  { destruct (find _ (Bookings db)) as [booking|] eqn:Hfind.
    - destruct (String.eqb _ _).
      + destruct H as [H _]. rewrite H in Hok. discriminate.
      + destruct H as (_ & _ & Hb & _). unfold db1. rewrite Hb.
        apply (find_delete_first_unique Booking.ID bookingID (Bookings db) Huniq).
    - destruct H as [H _]. rewrite H in Hok. discriminate. }
  pose proof (CancelBooking_cases bookingID db1) as H1. cbv zeta in H1.
  rewrite Hgone in H1. destruct H1 as [H1 _].
  split; [exact Hgone|]. split; [exact H1|]. rewrite H1. discriminate.
Qed.

Lemma C6_second_cancel_not_found_witness :
  fst (BookingStore.CancelBooking Main.bookingStore 100%N
         (snd (BookingStore.CancelBooking Main.bookingStore 100%N Scenario.dbA_booked)))
    = Err "booking not found".
Proof.
  apply (C6_second_cancel_not_found 100%N Scenario.dbA_booked).
  - unfold unique_booking_ids. vm_compute. repeat constructor; simpl; tauto.
  - vm_compute. reflexivity.
Defined.

(** ** Serial schedules: no oversell *)

(** One call against the ticket class: the class is still the first of its
    type afterwards, and either the call failed and the count is unchanged,
    or it was granted and the count went down by the quantity (or, for a
    negative quantity that overflows, wrapped to a negative count). *)
Lemma serial_step now generated booking db event i ticket :
  find (event_matches (F_id (Booking.EventID booking))) (Events db) = Some event ->
  BookingStore.find_ticket (Booking.TicketType booking) (Event.Tickets event)
    = Some (i, ticket) ->
  GoInt.in_range (TicketInfo.AvailableQuantity ticket) ->
  GoInt.in_range (Booking.Quantity booking) ->
  let r := BookingStore.CreateBooking Main.bookingStore now generated booking db in
  exists event' ticket',
    find (event_matches (F_id (Booking.EventID booking))) (Events (snd r)) = Some event' /\
    BookingStore.find_ticket (Booking.TicketType booking) (Event.Tickets event')
      = Some (i, ticket') /\
    GoInt.in_range (TicketInfo.AvailableQuantity ticket') /\
    ((exists e, fst r = Err e) /\
       TicketInfo.AvailableQuantity ticket' = TicketInfo.AvailableQuantity ticket
     \/
     (exists b, fst r = Ok b) /\
       (0 <= TicketInfo.AvailableQuantity ticket' /\
          TicketInfo.AvailableQuantity ticket' =
            TicketInfo.AvailableQuantity ticket - Booking.Quantity booking
        \/
        TicketInfo.AvailableQuantity ticket' < 0 /\ Booking.Quantity booking < 0)).
Proof.
  intros Hev Htk Ha Hq r.
  pose proof (CreateBooking_cases now generated booking db) as H. cbv zeta in H.
  fold r in H. rewrite Hev, Htk in H.
  assert (Hsame : same_documents db (snd r) ->
                  find (event_matches (F_id (Booking.EventID booking))) (Events (snd r))
                  = Some event).
  { intros (_ & Hevs & _). now rewrite Hevs. }
  destruct (_ <? _) eqn:Hlt.
  { destruct H as [Hr Hs]. exists event, ticket.
    repeat (split; [auto|]). left. split; [eauto|reflexivity]. }
  destruct (existsb _ _).
  { destruct H as [Hr Hs]. exists event, ticket.
    repeat (split; [auto|]). left. split; [eauto|reflexivity]. }
  destruct H as (Hr & _ & Hevs & _).
  apply Z.ltb_ge in Hlt.
  eexists. eexists. rewrite Hevs.
  rewrite find_update_first by (intros x; apply event_apply_keeps_id).
  rewrite Hev. split; [reflexivity|]. simpl Event.Tickets.
  split; [apply find_ticket_set; exact Htk|].
  simpl TicketInfo.AvailableQuantity.
  split; [apply wrap_range|].
  right. split; [eauto|].
  destruct (sub_after_check _ _ Ha Hq Hlt) as [[Hs Hnn]|[Hs Hneg]]; rewrite Hs.
  - left. split; [exact Hnn|reflexivity].
  - right. split; [|exact Hneg].
    unfold GoInt.in_range, GoInt.min_int, GoInt.max_int in Ha, Hq. lia.
Qed.

Lemma run_serial_bound schedule :
  forall db eventID ticketType event i ticket,
    find (event_matches (F_id eventID)) (Events db) = Some event ->
    BookingStore.find_ticket ticketType (Event.Tickets event) = Some (i, ticket) ->
    GoInt.in_range (TicketInfo.AvailableQuantity ticket) ->
    Forall (fun c =>
              Booking.EventID (call_booking c) = eventID /\
              Booking.TicketType (call_booking c) = ticketType /\
              GoInt.in_range (Booking.Quantity (call_booking c))) schedule ->
    fst (run_serial schedule db) <= Z.max (TicketInfo.AvailableQuantity ticket) 0.
Proof.
  induction schedule as [|call rest IH];
    intros db eventID ticketType event i ticket Hev Htk Ha Hcalls.
  - simpl. lia.
  - inversion Hcalls as [|? ? (Heid & Hty & Hq) Hrest]; subst.
    pose proof (serial_step (call_now call) (call_generated call) (call_booking call)
                  db event i ticket Hev Htk Ha Hq) as Hstep.
    cbv zeta in Hstep.
    destruct Hstep as (event' & ticket' & Hev' & Htk' & Ha' & Hcase).
    specialize (IH _ _ _ _ _ _ Hev' Htk' Ha' Hrest).
    simpl.
    destruct (BookingStore.CreateBooking Main.bookingStore (call_now call)
                (call_generated call) (call_booking call) db) as [[b|e] db'] eqn:Hrun;
      simpl in *.
    + destruct (run_serial rest db') as [granted db'']. simpl in *.
      destruct Hcase as [[[e He] _]|[_ Hgranted]]; [discriminate|]. lia.
    + destruct Hcase as [[_ Hsame]|[[b Hb] _]]; [|discriminate]. lia.
Qed.

(** C1. No oversell.  Serializable isolation makes each call's
    read-check-write sequence one atomic unit, so a run of N concurrent
    [CreateBooking] calls is their execution one after the other in some
    order.  For every ticket class with available quantity Q (the first
    class of its type in its event) and every order of every set of calls
    against it, the quantities of the calls that succeed add up to at most
    Q. *)
Theorem C1_no_oversell_serializable :
  forall db eventID ticketType event i ticket calls schedule,
    find (event_matches (F_id eventID)) (Events db) = Some event ->
    BookingStore.find_ticket ticketType (Event.Tickets event) = Some (i, ticket) ->
    0 <= TicketInfo.AvailableQuantity ticket <= GoInt.max_int ->
    Forall (fun c =>
              Booking.EventID (call_booking c) = eventID /\
              Booking.TicketType (call_booking c) = ticketType /\
              GoInt.in_range (Booking.Quantity (call_booking c))) calls ->
    Permutation calls schedule ->
    fst (run_serial schedule db) <= TicketInfo.AvailableQuantity ticket.
Proof.
  intros db eventID ticketType event i ticket calls schedule Hev Htk HQ Hcalls Hperm.
  pose proof (Permutation_Forall Hperm Hcalls) as Hsched.
  assert (Ha : GoInt.in_range (TicketInfo.AvailableQuantity ticket)).
  { unfold GoInt.in_range, GoInt.min_int, GoInt.max_int in *. lia. }
  pose proof (run_serial_bound schedule db eventID ticketType event i ticket
                Hev Htk Ha Hsched).
  lia.
Qed.

(** ** Cascading deletes *)

Lemma filter_all_true {A : Type} (docs : list A) : filter (fun _ => true) docs = docs.
Proof. induction docs as [|d rest IH]; simpl; [reflexivity|now f_equal]. Qed.

Lemma without_bookings_of_cons (event : Event.t) (events : list Event.t)
    (bookings : list Booking.t) :
  without_bookings_of events
    (filter (fun d => negb (N.eqb (Booking.EventID d) (Event.ID event))) bookings)
  = without_bookings_of (event :: events) bookings.
Proof.
  unfold without_bookings_of.
  induction bookings as [|b rest IH]; simpl; [reflexivity|].
  destruct (N.eqb (Booking.EventID b) (Event.ID event)); simpl.
  - exact IH.
  - destruct (existsb _ events); simpl; [exact IH|now f_equal].
Qed.

(** The loop that deletes the bookings of each listed event, whatever the
    error prefix of its body. *)
Lemma for_each_delete_bookings (body : Event.t -> M unit) (events : list Event.t) :
  (forall event db0,
      body event db0 =
      (Ok tt,
       mkDB (Categories db0) (Events db0)
         (filter (fun d => negb (N.eqb (Booking.EventID d) (Event.ID event)))
            (Bookings db0))
         (OpLog db0 ++ [OpDeleteMany "Bookings" (F_event_id (Event.ID event))]))) ->
  forall db,
    for_each events body db =
    (Ok tt,
     mkDB (Categories db) (Events db) (without_bookings_of events (Bookings db))
       (OpLog db ++
        map (fun e => OpDeleteMany "Bookings" (F_event_id (Event.ID e))) events)).
Proof.
  intros Hbody. induction events as [|event rest IH]; intros db.
  - simpl. unfold ret, without_bookings_of. simpl.
    rewrite filter_all_true, app_nil_r. destruct db; reflexivity.
  - simpl. unfold bind. rewrite Hbody, IH. simpl.
    rewrite without_bookings_of_cons, <- app_assoc. reflexivity.
Qed.

Lemma DeleteCategoryWithCascade_run (categoryID : ObjectID) (db : DB) :
  CategoryStore.DeleteCategoryWithCascade Main.categoryStore categoryID db =
  match find (category_matches (F_id categoryID)) (Categories db) with
  | None =>
      (Err "category not found", log_op (OpFindOne "Categories" (F_id categoryID)) db)
  | Some category =>
      let name := Category.Name category in
      let events := filter (event_matches (F_category_name name)) (Events db) in
      (Ok tt,
       mkDB (delete_first (category_matches (F_id categoryID)) (Categories db))
         (filter (fun e => negb (event_matches (F_category_name name) e)) (Events db))
         (without_bookings_of events (Bookings db))
         (OpLog db ++
          [OpFindOne "Categories" (F_id categoryID);
           OpFindOne "Categories" (F_id categoryID);
           OpFind "Events" (F_category_name name)] ++
          map (fun e => OpDeleteMany "Bookings" (F_event_id (Event.ID e))) events ++
          [OpDeleteMany "Events" (F_category_name name);
           OpDeleteOne "Categories" (F_id categoryID)]))
  end.
Proof.
  unfold CategoryStore.DeleteCategoryWithCascade, CategoryStore.getEventsByCategory,
    CategoryStore.GetCategoryByID, bind, FindOne, Find, fail, ret.
  cbn.
  destruct (find _ _) as [category|] eqn:Hc; cbn; [|reflexivity].
  rewrite Hc. cbn.
  rewrite for_each_delete_bookings by (intros; reflexivity).
  cbn. rewrite (find_some_existsb _ _ _ Hc). cbn.
  repeat rewrite <- app_assoc. reflexivity.
Qed.

(** C7. [DeleteCategoryWithCascade], with the stores wired as [main] wires
    them, fails "category not found" and changes no document when the
    category does not exist.  Otherwise it succeeds and has issued, in this
    order: the look-up of the category by identifier (made once by the
    method and once more by its helper that lists the events), the listing
    of the events whose [category_name] is the category's name, one bulk
    delete of bookings per listed event, one bulk delete of the events of
    that name, and the delete of the category; the three collections end up
    accordingly.  Scenario C: for a category owning two events with one
    booking each, the category, both events and both bookings are not found
    afterwards. *)
Theorem C7_delete_category_with_cascade :
  (forall categoryID db,
      let r := CategoryStore.DeleteCategoryWithCascade Main.categoryStore categoryID db in
      match find (category_matches (F_id categoryID)) (Categories db) with
      | None => fst r = Err "category not found" /\ same_documents db (snd r)
      | Some category =>
          let name := Category.Name category in
          let events := filter (event_matches (F_category_name name)) (Events db) in
          fst r = Ok tt /\
          OpLog (snd r) =
            OpLog db ++
            [OpFindOne "Categories" (F_id categoryID);
             OpFindOne "Categories" (F_id categoryID);
             OpFind "Events" (F_category_name name)] ++
            map (fun e => OpDeleteMany "Bookings" (F_event_id (Event.ID e))) events ++
            [OpDeleteMany "Events" (F_category_name name);
             OpDeleteOne "Categories" (F_id categoryID)] /\
          Bookings (snd r) = without_bookings_of events (Bookings db) /\
          Events (snd r) =
            filter (fun e => negb (event_matches (F_category_name name) e)) (Events db) /\
          Categories (snd r) =
            delete_first (category_matches (F_id categoryID)) (Categories db)
      end) /\
  (let r := CategoryStore.DeleteCategoryWithCascade Main.categoryStore 5%N Scenario.dbC in
   fst r = Ok tt /\
   fst (CategoryStore.GetCategoryByID Main.categoryStore 5%N (snd r))
     = Err "category not found" /\
   fst (EventStore.GetEventByID Main.eventStore Scenario.hex1 (snd r))
     = Err "event not found" /\
   fst (EventStore.GetEventByID Main.eventStore Scenario.hex2 (snd r))
     = Err "event not found" /\
   fst (BookingStore.GetBookingByID Main.bookingStore Scenario.hex100 (snd r))
     = Err "booking not found" /\
   fst (BookingStore.GetBookingByID Main.bookingStore Scenario.hex101 (snd r))
     = Err "booking not found").
Proof.
  split.
  - intros categoryID db r. unfold r. rewrite DeleteCategoryWithCascade_run.
    destruct (find _ _) as [category|]; cbn.
    + repeat split.
    + repeat split.
  - vm_compute. repeat split.
Qed.

(** ** Expired events *)

Lemma DeleteExpiredEvents_run (now : Time) (db : DB) :
  EventStore.DeleteExpiredEvents Main.eventStore now db =
  let expired := filter (event_matches (F_end_time_lt now)) (Events db) in
  (Ok (Z.of_nat (List.length expired)),
   mkDB (Categories db)
     (filter (fun e => negb (event_matches (F_end_time_lt now) e)) (Events db))
     (without_bookings_of expired (Bookings db))
     (OpLog db ++
      [OpFind "Events" (F_end_time_lt now)] ++
      map (fun e => OpDeleteMany "Bookings" (F_event_id (Event.ID e))) expired ++
      [OpDeleteMany "Events" (F_end_time_lt now)])).
Proof.
  unfold EventStore.DeleteExpiredEvents, bind, Find, DeleteMany.
  cbn.
  rewrite for_each_delete_bookings by (intros; reflexivity).
  cbn. repeat rewrite <- app_assoc. reflexivity.
Qed.

Lemma DeleteEvent_run (id : ObjectID) (db : DB) :
  EventStore.DeleteEvent Main.eventStore id db =
  (if existsb (event_matches (F_id id)) (Events db) then Ok tt else Err "event not found",
   mkDB (Categories db)
     (delete_first (event_matches (F_id id)) (Events db))
     (filter (fun b => negb (booking_matches (F_event_id id) b)) (Bookings db))
     (OpLog db ++
      [OpDeleteMany "Bookings" (F_event_id id); OpDeleteOne "Events" (F_id id)])).
Proof.
  unfold EventStore.DeleteEvent, bind, wrap_err, BookingStore.DeleteBookingsByEventID,
    DeleteMany, DeleteOne, fail, ret.
  cbn. rewrite <- app_assoc.
  destruct (existsb _ _); reflexivity.
Qed.

Lemma without_bookings_of_keeps (events : list Event.t) (b : Booking.t) :
  (forall e, In e events -> Event.ID e <> Booking.EventID b) ->
  negb (existsb (fun e => N.eqb (Booking.EventID b) (Event.ID e)) events) = true.
Proof.
  intros H. apply negb_true_iff.
  destruct (existsb _ events) eqn:E; [|reflexivity].
  apply existsb_exists in E as (e & Hin & Heq). apply N.eqb_eq in Heq.
  exfalso. apply (H e Hin). now symmetry.
Qed.

(** C8. A run of [DeleteExpiredEvents] at time [now], with the stores wired
    as [main] wires them, removes exactly the events whose end time is
    strictly before [now], removes the bookings of those events, and returns
    the number of events removed.  An event that has not ended is retrieved
    by [GetEventByID] as before, and so are its bookings by
    [GetBookingByID]; an event that has ended, and its bookings, are no
    longer found.  Scenario D: of an event that ended an hour ago and one
    that ends in an hour, only the first and its booking are removed. *)
Theorem C8_delete_expired_events :
  (forall now db,
      let r := EventStore.DeleteExpiredEvents Main.eventStore now db in
      let expired := filter (fun e => Event.EndTime e <? now) (Events db) in
      fst r = Ok (Z.of_nat (List.length expired)) /\
      Events (snd r) = filter (fun e => negb (Event.EndTime e <? now)) (Events db) /\
      Bookings (snd r) = without_bookings_of expired (Bookings db) /\
      Categories (snd r) = Categories db /\
      (forall hex e,
          fst (EventStore.GetEventByID Main.eventStore hex db) = Ok e ->
          now <= Event.EndTime e ->
          fst (EventStore.GetEventByID Main.eventStore hex (snd r)) = Ok e) /\
      (forall hex b e,
          unique_event_ids db ->
          fst (BookingStore.GetBookingByID Main.bookingStore hex db) = Ok b ->
          In e (Events db) -> Event.ID e = Booking.EventID b ->
          now <= Event.EndTime e ->
          fst (BookingStore.GetBookingByID Main.bookingStore hex (snd r)) = Ok b) /\
      (forall hex e,
          unique_event_ids db ->
          fst (EventStore.GetEventByID Main.eventStore hex db) = Ok e ->
          Event.EndTime e < now ->
          fst (EventStore.GetEventByID Main.eventStore hex (snd r))
            = Err "event not found") /\
      (forall hex b e,
          unique_booking_ids db ->
          fst (BookingStore.GetBookingByID Main.bookingStore hex db) = Ok b ->
          In e (Events db) -> Event.ID e = Booking.EventID b ->
          Event.EndTime e < now ->
          fst (BookingStore.GetBookingByID Main.bookingStore hex (snd r))
            = Err "booking not found")) /\
  (let r := EventStore.DeleteExpiredEvents Main.eventStore Scenario.nowD Scenario.dbD in
   fst r = Ok 1 /\
   Events (snd r) = [Scenario.upcoming] /\
   fst (EventStore.GetEventByID Main.eventStore Scenario.hex1 (snd r))
     = Err "event not found" /\
   fst (BookingStore.GetBookingByID Main.bookingStore Scenario.hex100 (snd r))
     = Err "booking not found" /\
   fst (EventStore.GetEventByID Main.eventStore Scenario.hex2 (snd r))
     = Ok Scenario.upcoming /\
   fst (BookingStore.GetBookingByID Main.bookingStore Scenario.hex101 (snd r))
     = Ok (Scenario.booked 101%N 2%N "VIP" 2 200%float)).
Proof.
  split.
  - intros now db r expired. unfold r. rewrite DeleteExpiredEvents_run.
    cbv zeta. cbn [fst snd Events Bookings Categories].
    change (filter (event_matches (F_end_time_lt now)) (Events db)) with expired.
    change (fun e : Event.t => negb (event_matches (F_end_time_lt now) e))
      with (fun e : Event.t => negb (Event.EndTime e <? now)).
    split; [reflexivity|]. split; [reflexivity|]. split; [reflexivity|].
    split; [reflexivity|].
    split; [|split; [|split]].
    + intros hex e Hget Hfuture. rewrite GetEventByID_run in *.
      destruct (ObjectIDFromHex hex) as [id|]; [|discriminate].
      destruct (find _ (Events db)) as [e0|] eqn:Hfind; [|discriminate].
      injection Hget as ->. simpl.
      rewrite (find_filter_keep _ _ _ e Hfind); [reflexivity|].
      apply negb_true_iff. apply Z.ltb_ge. exact Hfuture.
    + intros hex b e Huniq Hget Hin Hid Hfuture. rewrite GetBookingByID_run in *.
      destruct (ObjectIDFromHex hex) as [id|]; [|discriminate].
      destruct (find _ (Bookings db)) as [b0|] eqn:Hfind; [|discriminate].
      injection Hget as ->. simpl. unfold without_bookings_of.
      rewrite (find_filter_keep _ _ _ b Hfind); [reflexivity|].
      apply without_bookings_of_keeps. intros e' Hin' Heq.
      apply filter_In in Hin' as [Hin' Hexp]. apply Z.ltb_lt in Hexp.
      assert (e' = e) as ->.
      { apply (unique_id_same Event.ID (Events db)); auto. congruence. }
      lia.
    + intros hex e Huniq Hget Hpast. rewrite GetEventByID_run in *.
      destruct (ObjectIDFromHex hex) as [id|]; [|discriminate].
      destruct (find _ (Events db)) as [e0|] eqn:Hfind; [|discriminate].
      injection Hget as ->. simpl.
      destruct (find _ (filter _ _)) as [e2|] eqn:Hfind2; [exfalso|reflexivity].
      apply (find_by_id_In Event.ID) in Hfind as [Hin Hide].
      apply (find_by_id_In Event.ID) in Hfind2 as [Hin2 Hide2].
      apply filter_In in Hin2 as [Hin2 Hkeep].
      assert (e2 = e) as ->.
      { apply (unique_id_same Event.ID (Events db)); auto. congruence. }
      apply negb_true_iff, Z.ltb_ge in Hkeep. lia.
    + intros hex b e Huniq Hget Hin Hid Hpast. rewrite GetBookingByID_run in *.
      destruct (ObjectIDFromHex hex) as [id|]; [|discriminate].
      destruct (find _ (Bookings db)) as [b0|] eqn:Hfind; [|discriminate].
      injection Hget as ->. simpl.
      destruct (find _ (without_bookings_of _ _)) as [b2|] eqn:Hfind2;
        [exfalso|reflexivity].
      apply (find_by_id_In Booking.ID) in Hfind as [Hinb Hidb].
      apply (find_by_id_In Booking.ID) in Hfind2 as [Hin2 Hid2].
      apply filter_In in Hin2 as [Hin2 Hkeep].
      assert (b2 = b) as ->.
      { apply (unique_id_same Booking.ID (Bookings db)); auto. congruence. }
      apply negb_true_iff in Hkeep.
      assert (Hex : existsb (fun e0 => N.eqb (Booking.EventID b) (Event.ID e0)) expired
                    = true).
      { apply existsb_exists. exists e. split.
        - apply filter_In. split; [exact Hin|]. apply Z.ltb_lt. exact Hpast.
        - apply N.eqb_eq. now symmetry. }
      congruence.
  - vm_compute. repeat split.
Qed.

Lemma C8_delete_expired_events_witness :
  let r := EventStore.DeleteExpiredEvents Main.eventStore Scenario.nowD Scenario.dbD in
  fst (EventStore.GetEventByID Main.eventStore Scenario.hex2 (snd r))
    = Ok Scenario.upcoming /\
  fst (BookingStore.GetBookingByID Main.bookingStore Scenario.hex101 (snd r))
    = Ok (Scenario.booked 101%N 2%N "VIP" 2 200%float) /\
  fst (EventStore.GetEventByID Main.eventStore Scenario.hex1 (snd r))
    = Err "event not found" /\
  fst (BookingStore.GetBookingByID Main.bookingStore Scenario.hex100 (snd r))
    = Err "booking not found".
Proof.
  destruct (proj1 C8_delete_expired_events Scenario.nowD Scenario.dbD)
    as (_ & _ & _ & _ & Hevent & Hbooking & Hgone & Hgone').
  split; [|split; [|split]].
  - apply Hevent; [reflexivity|vm_compute; discriminate].
  - apply (Hbooking Scenario.hex101 _ Scenario.upcoming).
    + unfold unique_event_ids. simpl. repeat constructor; simpl; intuition discriminate.
    + reflexivity.
    + simpl. tauto.
    + reflexivity.
    + vm_compute. discriminate.
  - apply (Hgone Scenario.hex1 Scenario.ended).
    + unfold unique_event_ids. simpl. repeat constructor; simpl; intuition discriminate.
    + reflexivity.
    + reflexivity.
  - apply (Hgone' Scenario.hex100 (Scenario.booked 100%N 1%N "VIP" 3 300%float)
             Scenario.ended).
    + unfold unique_booking_ids. simpl. repeat constructor; simpl; intuition discriminate.
    + reflexivity.
    + simpl. tauto.
    + reflexivity.
    + reflexivity.
Defined.

(** ** Deleting one event *)

(** C9. [DeleteEvent], with the stores wired as [main] wires them, issues
    two store operations outside any transaction: first the bulk delete of
    the bookings whose [event_id] is the identifier, then the delete of the
    event.  It fails "event not found" exactly when no event has the
    identifier; in that case the events are untouched and the bookings that
    referred to the identifier are gone all the same.  For instance, a
    booking left behind by a vanished event is deleted by the failing
    call. *)
Theorem C9_delete_event_two_steps :
  (forall id db,
      let r := EventStore.DeleteEvent Main.eventStore id db in
      OpLog (snd r) =
        OpLog db ++ [OpDeleteMany "Bookings" (F_event_id id); OpDeleteOne "Events" (F_id id)] /\
      Bookings (snd r) = filter (fun b => negb (N.eqb (Booking.EventID b) id)) (Bookings db) /\
      Events (snd r) = delete_first (fun e => N.eqb (Event.ID e) id) (Events db) /\
      (fst r = Err "event not found" <->
       find (fun e => N.eqb (Event.ID e) id) (Events db) = None) /\
      (fst r = Ok tt <->
       exists e, find (fun e => N.eqb (Event.ID e) id) (Events db) = Some e) /\
      (fst r = Err "event not found" ->
       Events (snd r) = Events db /\
       forall b, In b (Bookings (snd r)) <-> In b (Bookings db) /\ Booking.EventID b <> id)) /\
  (let r := EventStore.DeleteEvent Main.eventStore 1%N Scenario.dbOrphan in
   fst r = Err "event not found" /\
   Bookings Scenario.dbOrphan = [Scenario.booked 100%N 1%N "VIP" 3 300%float] /\
   Bookings (snd r) = []).
Proof.
  split.
  - intros id db r. unfold r. rewrite DeleteEvent_run.
    cbn [fst snd OpLog Bookings Events].
    change (event_matches (F_id id)) with (fun e : Event.t => N.eqb (Event.ID e) id).
    change (fun b : Booking.t => negb (booking_matches (F_event_id id) b))
      with (fun b : Booking.t => negb (N.eqb (Booking.EventID b) id)).
    split; [reflexivity|]. split; [reflexivity|]. split; [reflexivity|].
    assert (Hnone : existsb (fun e => N.eqb (Event.ID e) id) (Events db) = false <->
                    find (fun e => N.eqb (Event.ID e) id) (Events db) = None)
      by (symmetry; apply find_none_existsb).
    destruct (existsb _ _) eqn:Hex.
    + assert (Hsome : exists e, find (fun e => N.eqb (Event.ID e) id) (Events db) = Some e).
      { destruct (find _ _) as [e|] eqn:Hfind; [eauto|].
        apply find_none_existsb in Hfind. congruence. }
      split; [|split].
      * split; [discriminate|]. intros Hn. apply Hnone in Hn. discriminate.
      * split; [intros _; exact Hsome|reflexivity].
      * discriminate.
    + assert (Hn : find (fun e => N.eqb (Event.ID e) id) (Events db) = None)
        by (apply Hnone; reflexivity).
      split; [|split].
      * split; [intros _; exact Hn|reflexivity].
      * split; [discriminate|]. intros [e He]. congruence.
      * intros _. split.
        -- apply delete_first_none. exact Hex.
        -- intros b. rewrite filter_In, negb_true_iff, N.eqb_neq. tauto.
  - vm_compute. repeat split.
Qed.

(** ** Deleting a category without cascade *)

Lemma DeleteCategory_cases (categoryID : ObjectID) (db : DB) :
  let r := CategoryStore.DeleteCategory Main.categoryStore categoryID db in
  Events (snd r) = Events db /\
  Bookings (snd r) = Bookings db /\
  match find (category_matches (F_id categoryID)) (Categories db) with
  | None => fst r = Err "category not found" /\ Categories (snd r) = Categories db
  | Some category =>
      let name := Category.Name category in
      let count :=
        Z.of_nat (List.length (filter (event_matches (F_category_name name)) (Events db))) in
      if 0 <? count
      then fst r = Err "cannot delete category with existing events" /\
           Categories (snd r) = Categories db
      else fst r = Ok tt /\
           Categories (snd r) =
             delete_first (category_matches (F_id categoryID)) (Categories db) /\
           OpLog (snd r) =
             OpLog db ++
             [OpFindOne "Categories" (F_id categoryID);
              OpCountDocuments "Events" (F_category_name name);
              OpDeleteOne "Categories" (F_id categoryID)]
  end.
Proof.
  unfold CategoryStore.DeleteCategory, CategoryStore.GetCategoryEventCount,
    CategoryStore.GetCategoryByID, bind, FindOne, CountDocuments, DeleteOne, fail, ret.
  cbn.
  destruct (find _ _) as [category|] eqn:Hc; cbn; [|repeat split].
  destruct (0 <? _); cbn; [repeat split|].
  rewrite (find_some_existsb _ _ _ Hc). cbn.
  repeat rewrite <- app_assoc. repeat split.
Qed.

(** ** The inventory invariant *)

Lemma tickets_of_found_event (P : TicketInfo.t -> Prop) (db : DB) (p : Event.t -> bool)
    (event : Event.t) (ty : string) (i : nat) (ticket : TicketInfo.t) :
  Forall (fun e => Forall P (Event.Tickets e)) (Events db) ->
  find p (Events db) = Some event ->
  BookingStore.find_ticket ty (Event.Tickets event) = Some (i, ticket) ->
  P ticket.
Proof.
  intros HF Hev Htk. apply find_some in Hev as [Hin _].
  rewrite Forall_forall in HF. specialize (HF _ Hin).
  rewrite Forall_forall in HF. apply HF. eapply find_ticket_In. exact Htk.
Qed.

Lemma invariant_after_set (db : DB) (eventID : ObjectID) (event : Event.t) (ty : string)
    (i : nat) (ticket : TicketInfo.t) (v : Z) :
  inventory_invariant db ->
  find (event_matches (F_id eventID)) (Events db) = Some event ->
  BookingStore.find_ticket ty (Event.Tickets event) = Some (i, ticket) ->
  0 <= v <= TicketInfo.TotalQuantity ticket ->
  Forall (fun e => Forall ticket_within_bounds (Event.Tickets e))
    (update_first (event_matches (F_id eventID))
       (event_apply (U_set_ticket_available i v)) (Events db)).
Proof.
  intros Hinv Hev Htk Hv. apply Forall_update_first; [exact Hinv|].
  intros d Hd Hbounds. rewrite Hev in Hd. injection Hd as <-.
  simpl. eapply Forall_set_ticket_available; [exact Htk|exact Hbounds|].
  unfold ticket_within_bounds. simpl. exact Hv.
Qed.

(** C2, as the code has it.  [0 <= available <= total] for every ticket
    class of every event is preserved by [CreateBooking] for a quantity that
    is not negative, and by every deleting operation; [CancelBooking]
    preserves it when the booking's quantity is not negative and adding it
    to the available count of the ticket class it restores does not exceed
    the class's total, a bound the code itself does not check. *)
Theorem C2_inventory_invariant_preserved :
  forall db,
    inventory_invariant db ->
    events_well_typed db ->
    (forall now generated booking,
        0 <= Booking.Quantity booking ->
        inventory_invariant
          (snd (BookingStore.CreateBooking Main.bookingStore now generated booking db))) /\
    (forall bookingID,
        (forall booking event i ticket,
            find (booking_matches (F_id bookingID)) (Bookings db) = Some booking ->
            find (event_matches (F_id (Booking.EventID booking))) (Events db) = Some event ->
            BookingStore.find_ticket (Booking.TicketType booking) (Event.Tickets event)
              = Some (i, ticket) ->
            0 <= Booking.Quantity booking /\
            TicketInfo.AvailableQuantity ticket + Booking.Quantity booking
              <= TicketInfo.TotalQuantity ticket) ->
        inventory_invariant
          (snd (BookingStore.CancelBooking Main.bookingStore bookingID db))) /\
    (forall id,
        inventory_invariant (snd (EventStore.DeleteEvent Main.eventStore id db))) /\
    (forall now,
        inventory_invariant (snd (EventStore.DeleteExpiredEvents Main.eventStore now db))) /\
    (forall id,
        inventory_invariant
          (snd (CategoryStore.DeleteCategoryWithCascade Main.categoryStore id db))) /\
    (forall id,
        inventory_invariant (snd (CategoryStore.DeleteCategory Main.categoryStore id db))) /\
    (forall id,
        inventory_invariant
          (snd (BookingStore.DeleteBookingsByEventID Main.bookingStore id db))).
Proof.
  intros db Hinv Htyped.
  split; [|split; [|split; [|split; [|split; [|split]]]]].
  - intros now generated booking Hq. unfold inventory_invariant.
    pose proof (CreateBooking_cases now generated booking db) as H. cbv zeta in H.
    destruct (find _ _) as [event|] eqn:Hev;
      [|destruct H as (_ & _ & -> & _); exact Hinv].
    destruct (BookingStore.find_ticket _ _) as [[i ticket]|] eqn:Htk;
      [|destruct H as (_ & _ & -> & _); exact Hinv].
    destruct (_ <? _) eqn:Hlt; [destruct H as (_ & _ & -> & _); exact Hinv|].
    destruct (existsb _ _); [destruct H as (_ & _ & -> & _); exact Hinv|].
    destruct H as (_ & _ & -> & _). apply Z.ltb_ge in Hlt.
    pose proof (tickets_of_found_event _ _ _ _ _ _ _ Hinv Hev Htk) as Hb.
    pose proof (tickets_of_found_event _ _ _ _ _ _ _ Htyped Hev Htk) as [Ht Ha].
    unfold ticket_within_bounds in Hb.
    eapply invariant_after_set; eauto.
    unfold GoInt.sub. rewrite wrap_in_range;
      unfold GoInt.in_range, GoInt.min_int, GoInt.max_int in *; lia.
  - intros bookingID Hrestore. unfold inventory_invariant.
    pose proof (CancelBooking_cases bookingID db) as H. cbv zeta in H.
    destruct (find _ (Bookings db)) as [booking|] eqn:Hbk;
      [|destruct H as (_ & _ & -> & _); exact Hinv].
    destruct (String.eqb _ _); [destruct H as (_ & _ & -> & _); exact Hinv|].
    destruct H as (_ & _ & _ & ->).
    destruct (find _ (Events db)) as [event|] eqn:Hev; [|exact Hinv].
    destruct (BookingStore.find_ticket _ _) as [[i ticket]|] eqn:Htk; [|exact Hinv].
    destruct (Hrestore booking event i ticket eq_refl Hev Htk) as [Hq Hsum].
    pose proof (tickets_of_found_event _ _ _ _ _ _ _ Hinv Hev Htk) as Hb.
    pose proof (tickets_of_found_event _ _ _ _ _ _ _ Htyped Hev Htk) as [Ht Ha].
    unfold ticket_within_bounds in Hb.
    eapply invariant_after_set; eauto.
    unfold GoInt.add. rewrite wrap_in_range;
      unfold GoInt.in_range, GoInt.min_int, GoInt.max_int in *; lia.
  - intros id. rewrite DeleteEvent_run. apply Forall_delete_first. exact Hinv.
  - intros now. rewrite DeleteExpiredEvents_run. apply Forall_filter. exact Hinv.
  - intros id. rewrite DeleteCategoryWithCascade_run.
    destruct (find _ _); [apply Forall_filter|]; exact Hinv.
  - intros id. unfold inventory_invariant.
    destruct (DeleteCategory_cases id db) as (-> & _). exact Hinv.
  - intros id. exact Hinv.
Qed.

(** C2 as stated fails.  In the state reached from scenario A by booking 3
    VIP tickets and then updating the event with its original ticket list,
    every ticket class is within its bounds; cancelling the booking
    succeeds and leaves 13 tickets available out of 10. *)
Lemma C2_cancel_exceeds_total :
  fst (EventStore.UpdateEvent Main.eventStore Scenario.concert Scenario.dbA_booked) = Ok tt /\
  inventory_invariant Scenario.dbA_updated /\
  fst (BookingStore.CancelBooking Main.bookingStore 100%N Scenario.dbA_updated) = Ok tt /\
  map Event.Tickets
    (Events (snd (BookingStore.CancelBooking Main.bookingStore 100%N Scenario.dbA_updated)))
    = [[TicketInfo.mk "VIP" 100%float 10 13]] /\
  ~ inventory_invariant
      (snd (BookingStore.CancelBooking Main.bookingStore 100%N Scenario.dbA_updated)).
Proof.
  split; [vm_compute; reflexivity|].
  assert (Hupdated : Events Scenario.dbA_updated = [Scenario.concert])
    by (vm_compute; reflexivity).
  assert (Hcancelled :
            Events (snd (BookingStore.CancelBooking Main.bookingStore 100%N
                           Scenario.dbA_updated))
            = [Event.with_Tickets [TicketInfo.mk "VIP" 100%float 10 13] Scenario.concert])
    by (vm_compute; reflexivity).
  split.
  { unfold inventory_invariant. rewrite Hupdated. simpl.
    repeat constructor; discriminate. }
  split; [vm_compute; reflexivity|].
  split; [rewrite Hcancelled; reflexivity|].
  unfold inventory_invariant. rewrite Hcancelled. intros H.
  inversion H as [|? ? Htickets _]. inversion Htickets as [|? ? Hbounds _].
  destruct Hbounds as [_ Hle]. apply Hle. reflexivity.
Qed.

Lemma C2_inventory_invariant_preserved_witness :
  inventory_invariant
    (snd (BookingStore.CreateBooking Main.bookingStore 5000 100%N
            (Scenario.request 1%N "VIP" 3) Scenario.dbA)) /\
  inventory_invariant
    (snd (BookingStore.CancelBooking Main.bookingStore 100%N Scenario.dbA_booked)).
Proof.
  assert (HeventsA : Events Scenario.dbA_booked
                     = [Event.with_Tickets [TicketInfo.mk "VIP" 100%float 10 7]
                          Scenario.concert])
    by (vm_compute; reflexivity).
  assert (HinvA : inventory_invariant Scenario.dbA).
  { unfold inventory_invariant. simpl. repeat constructor; discriminate. }
  assert (HtypedA : events_well_typed Scenario.dbA).
  { unfold events_well_typed. simpl. repeat constructor; discriminate. }
  assert (Hinv : inventory_invariant Scenario.dbA_booked).
  { unfold inventory_invariant. rewrite HeventsA. simpl.
    repeat constructor; discriminate. }
  assert (Htyped : events_well_typed Scenario.dbA_booked).
  { unfold events_well_typed. rewrite HeventsA. simpl.
    repeat constructor; discriminate. }
  split.
  - apply (proj1 (C2_inventory_invariant_preserved Scenario.dbA HinvA HtypedA)).
    discriminate.
  - apply (proj1 (proj2 (C2_inventory_invariant_preserved Scenario.dbA_booked Hinv Htyped))).
    intros booking event i ticket Hb He Ht.
    vm_compute in Hb. injection Hb as <-.
    vm_compute in He. injection He as <-.
    vm_compute in Ht. injection Ht as <- <-.
    split; discriminate.
Defined.

Lemma C1_no_oversell_serializable_witness :
  fst (run_serial [Scenario.callB2; Scenario.callB1] Scenario.dbA) <= 10.
Proof.
  apply (C1_no_oversell_serializable Scenario.dbA 1%N "VIP" Scenario.concert 0%nat
           Scenario.vip [Scenario.callB1; Scenario.callB2]
           [Scenario.callB2; Scenario.callB1]).
  - reflexivity.
  - reflexivity.
  - split; discriminate.
  - repeat constructor; discriminate.
  - apply perm_swap.
Defined.

(** Scenario B of the specification: of two calls for 6 VIP tickets each,
    in either order, the first is granted and the second is refused, which
    leaves 4 tickets available. *)
Example scenario_B_one_of_two :
  forall schedule,
    Permutation [Scenario.callB1; Scenario.callB2] schedule ->
    fst (run_serial schedule Scenario.dbA) = 6 /\
    map Event.Tickets (Events (snd (run_serial schedule Scenario.dbA)))
      = [[TicketInfo.mk "VIP" 100%float 10 4]].
Proof.
  intros schedule Hperm.
  assert (Hcases : schedule = [Scenario.callB1; Scenario.callB2] \/
                   schedule = [Scenario.callB2; Scenario.callB1]).
  { apply Permutation_length_2_inv in Hperm. destruct Hperm; auto. }
  destruct Hcases as [-> | ->]; vm_compute; split; reflexivity.
Qed.

(** ** Matching events to categories by name *)

Lemma GetCategoryByName_run (name : string) (db : DB) :
  fst (CategoryStore.GetCategoryByName Main.categoryStore name db) =
  match find (fun c => regex_i_anchored name (Category.Name c)) (Categories db) with
  | None => Err "category not found"
  | Some category => Ok category
  end.
Proof.
  unfold CategoryStore.GetCategoryByName, bind, FindOne. cbn.
  destruct (find _ _); reflexivity.
Qed.

Lemma find_of_member {A : Type} (p : A -> bool) (docs : list A) (d : A) :
  In d docs -> p d = true -> exists d', find p docs = Some d'.
Proof.
  intros Hin Hp. destruct (find p docs) as [d'|] eqn:Hfind; [eauto|].
  pose proof (find_none _ _ Hfind d Hin). congruence.
Qed.

(** C10. Names are matched in two ways.  The existence check of event
    creation ([GetCategoryByName]) accepts a name equal to a stored
    category name up to the case of letters.  Listing, counting and bulk
    deletion select the events whose [category_name] equals the category's
    name exactly.  So for an event whose [category_name] differs from the
    stored name of its category, [DeleteCategoryWithCascade] deletes the
    category and leaves the event and its bookings in place, and when no
    event carries the exact name [DeleteCategory] counts zero events and
    succeeds.  Such an event exists: an event created under ["music"] while
    the category is stored as ["Music"]. *)
Theorem C10_category_name_matching :
  (forall db category name,
      In category (Categories db) ->
      string_lower name = string_lower (Category.Name category) ->
      exists found,
        fst (CategoryStore.GetCategoryByName Main.categoryStore name db) = Ok found) /\
  (forall db categoryID category,
      find (category_matches (F_id categoryID)) (Categories db) = Some category ->
      fst (CategoryStore.getEventsByCategory Main.categoryStore categoryID db)
        = Ok (filter (fun e => String.eqb (Event.CategoryName e) (Category.Name category))
                (Events db)) /\
      fst (CategoryStore.GetCategoryEventCount Main.categoryStore categoryID db)
        = Ok (Z.of_nat
                (List.length
                   (filter (fun e => String.eqb (Event.CategoryName e) (Category.Name category))
                      (Events db))))) /\
  (forall db categoryID category event,
      unique_event_ids db ->
      find (category_matches (F_id categoryID)) (Categories db) = Some category ->
      In event (Events db) ->
      Event.CategoryName event <> Category.Name category ->
      let r := CategoryStore.DeleteCategoryWithCascade Main.categoryStore categoryID db in
      fst r = Ok tt /\
      Categories (snd r) = delete_first (category_matches (F_id categoryID)) (Categories db) /\
      In event (Events (snd r)) /\
      (forall b, In b (Bookings db) -> Booking.EventID b = Event.ID event ->
                 In b (Bookings (snd r)))) /\
  (forall db categoryID category,
      find (category_matches (F_id categoryID)) (Categories db) = Some category ->
      (forall e, In e (Events db) -> Event.CategoryName e <> Category.Name category) ->
      fst (CategoryStore.GetCategoryEventCount Main.categoryStore categoryID db) = Ok 0 /\
      let r := CategoryStore.DeleteCategory Main.categoryStore categoryID db in
      fst r = Ok tt /\
      Categories (snd r) = delete_first (category_matches (F_id categoryID)) (Categories db) /\
      Events (snd r) = Events db /\
      Bookings (snd r) = Bookings db) /\
  (let created := EventStore.CreateEvent Main.eventStore 3000 1%N Scenario.lowercase_concert
                    (mkDB [Scenario.music] [] [] []) in
   let cascade := CategoryStore.DeleteCategoryWithCascade Main.categoryStore 5%N Scenario.dbM in
   let plain := CategoryStore.DeleteCategory Main.categoryStore 5%N Scenario.dbM in
   (exists event, fst created = Ok event /\ Event.CategoryName event = "music" /\
                  Event.ID event = 1%N) /\
   map Event.ID (Events Scenario.dbM) = [1%N] /\
   map Event.CategoryName (Events Scenario.dbM) = ["music"] /\
   map Category.Name (Categories Scenario.dbM) = ["Music"] /\
   fst cascade = Ok tt /\
   fst (CategoryStore.GetCategoryByID Main.categoryStore 5%N (snd cascade))
     = Err "category not found" /\
   Events (snd cascade) = Events Scenario.dbM /\
   Bookings (snd cascade) = Bookings Scenario.dbM /\
   List.length (Bookings Scenario.dbM) = 1%nat /\
   fst (CategoryStore.GetCategoryEventCount Main.categoryStore 5%N Scenario.dbM) = Ok 0 /\
   fst plain = Ok tt /\
   Categories (snd plain) = [] /\
   Events (snd plain) = Events Scenario.dbM).
Proof.
  split; [|split; [|split; [|split]]].
  - intros db category name Hin Hlower. rewrite GetCategoryByName_run.
    destruct (find_of_member (fun c => regex_i_anchored name (Category.Name c))
                (Categories db) category Hin) as [found Hfound].
    + unfold regex_i_anchored. rewrite Hlower. apply String.eqb_refl.
    + exists found. now rewrite Hfound.
  - intros db categoryID category Hc.
    unfold CategoryStore.getEventsByCategory, CategoryStore.GetCategoryEventCount,
      CategoryStore.GetCategoryByID, bind, FindOne, Find, CountDocuments.
    cbn. rewrite Hc. cbn. split; reflexivity.
  - intros db categoryID category event Huniq Hc Hin Hname r. unfold r.
    rewrite DeleteCategoryWithCascade_run, Hc. cbn.
    apply String.eqb_neq in Hname.
    split; [reflexivity|]. split; [reflexivity|]. split.
    + apply filter_In. split; [exact Hin|]. now rewrite Hname.
    + intros b Hb Hid. apply filter_In. split; [exact Hb|].
      apply without_bookings_of_keeps. intros e' Hin' Heq.
      apply filter_In in Hin' as [Hin' Hmatch]. simpl in Hmatch.
      assert (e' = event) as ->.
      { apply (unique_id_same Event.ID (Events db)); auto. congruence. }
      congruence.
  - intros db categoryID category Hc Hnone.
    assert (Hempty : filter (event_matches (F_category_name (Category.Name category)))
                       (Events db) = []).
    { destruct (filter _ _) as [|e rest] eqn:Hf; [reflexivity|].
      assert (Hin : In e (filter (event_matches (F_category_name (Category.Name category)))
                            (Events db))) by (rewrite Hf; now left).
      apply filter_In in Hin as [Hin Hmatch]. simpl in Hmatch.
      apply String.eqb_eq in Hmatch. exfalso. exact (Hnone e Hin Hmatch). }
    split.
    + unfold CategoryStore.GetCategoryEventCount, CategoryStore.GetCategoryByID,
        bind, FindOne, CountDocuments.
      cbn. rewrite Hc. cbn. now rewrite Hempty.
    + pose proof (DeleteCategory_cases categoryID db) as H. cbv zeta in H.
      rewrite Hc, Hempty in H. simpl in H.
      destruct H as (He & Hb & Hok & Hcat & _). cbv zeta.
      split; [exact Hok|]. split; [exact Hcat|]. split; [exact He|exact Hb].
  - vm_compute. split; [eexists; repeat split|repeat split].
Qed.

Lemma C10_category_name_matching_witness :
  let event :=
    Event.with_Tickets [TicketInfo.mk "VIP" 100%float 10 7]
      (Event.with_ID 1%N (Event.with_CreatedAt 3000 Scenario.lowercase_concert)) in
  (exists found,
      fst (CategoryStore.GetCategoryByName Main.categoryStore "music" Scenario.dbM)
        = Ok found) /\
  In event
    (Events (snd (CategoryStore.DeleteCategoryWithCascade Main.categoryStore 5%N
                    Scenario.dbM))) /\
  fst (CategoryStore.DeleteCategory Main.categoryStore 5%N Scenario.dbM) = Ok tt.
Proof.
  intros event.
  assert (Hevents : Events Scenario.dbM = [event]) by (vm_compute; reflexivity).
  assert (Hcategory : find (category_matches (F_id 5%N)) (Categories Scenario.dbM)
                      = Some Scenario.music) by reflexivity.
  split; [|split].
  - apply (proj1 C10_category_name_matching Scenario.dbM Scenario.music "music").
    + simpl. tauto.
    + reflexivity.
  - destruct (proj1 (proj2 (proj2 C10_category_name_matching)) Scenario.dbM 5%N
                Scenario.music event) as (_ & _ & Hkept & _).
    + unfold unique_event_ids. rewrite Hevents. simpl.
      repeat constructor; simpl; tauto.
    + exact Hcategory.
    + rewrite Hevents. left. reflexivity.
    + discriminate.
    + exact Hkept.
  - destruct (proj1 (proj2 (proj2 (proj2 C10_category_name_matching))) Scenario.dbM 5%N
                Scenario.music) as (_ & Hplain & _).
    + exact Hcategory.
    + intros e Hin. rewrite Hevents in Hin. destruct Hin as [<-|[]]. discriminate.
    + exact Hplain.
Defined.

Lemma C9_delete_event_two_steps_witness :
  let r := EventStore.DeleteEvent Main.eventStore 1%N Scenario.dbOrphan in
  Events (snd r) = Events Scenario.dbOrphan /\
  forall b, In b (Bookings (snd r)) <->
            In b (Bookings Scenario.dbOrphan) /\ Booking.EventID b <> 1%N.
Proof.
  apply (proj1 C9_delete_event_two_steps 1%N Scenario.dbOrphan).
  reflexivity.
Defined.

(** ** Uniqueness of identifiers is kept by the store *)

Lemma map_id_update_first {A : Type} (id : A -> ObjectID) (p : A -> bool) (u : A -> A)
    (docs : list A) :
  (forall x, id (u x) = id x) -> map id (update_first p u docs) = map id docs.
Proof.
  intros Hu. induction docs as [|d rest IH]; simpl; [reflexivity|].
  destruct (p d); simpl; [now rewrite Hu|now f_equal].
Qed.

Lemma NoDup_map_app_fresh {A : Type} (id : A -> ObjectID) (docs : list A) (d : A) :
  NoDup (map id docs) ->
  existsb (fun x => N.eqb (id x) (id d)) docs = false ->
  NoDup (map id (docs ++ [d])).
Proof.
  intros Hnd Hfresh. rewrite map_app. simpl.
  apply NoDup_app; [exact Hnd|repeat constructor; simpl; tauto|].
  intros k Hin [<-|[]].
  apply in_map_iff in Hin as (x & Hx & Hin).
  assert (Hex : existsb (fun x => N.eqb (id x) (id d)) docs = true).
  { apply existsb_exists. exists x. split; [exact Hin|]. now apply N.eqb_eq. }
  congruence.
Qed.

Lemma event_apply_ticket_keeps_ID (i : nat) (v : Z) (e : Event.t) :
  Event.ID (event_apply (U_set_ticket_available i v) e) = Event.ID e.
Proof. reflexivity. Qed.

(** The booking operations and the deleting operations keep [_id] unique in
    the events and in the bookings. *)
Lemma store_keeps_ids_unique (db : DB) :
  unique_event_ids db ->
  unique_booking_ids db ->
  (forall now generated booking,
      let db' := snd (BookingStore.CreateBooking Main.bookingStore now generated booking db) in
      unique_event_ids db' /\ unique_booking_ids db') /\
  (forall bookingID,
      let db' := snd (BookingStore.CancelBooking Main.bookingStore bookingID db) in
      unique_event_ids db' /\ unique_booking_ids db') /\
  (forall id,
      let db' := snd (EventStore.DeleteEvent Main.eventStore id db) in
      unique_event_ids db' /\ unique_booking_ids db') /\
  (forall now,
      let db' := snd (EventStore.DeleteExpiredEvents Main.eventStore now db) in
      unique_event_ids db' /\ unique_booking_ids db') /\
  (forall id,
      let db' := snd (CategoryStore.DeleteCategoryWithCascade Main.categoryStore id db) in
      unique_event_ids db' /\ unique_booking_ids db').
Proof.
  intros He Hb. unfold unique_event_ids, unique_booking_ids in *.
  split; [|split; [|split; [|split]]].
  - intros now generated booking.
    pose proof (CreateBooking_cases now generated booking db) as H. cbv zeta in H.
    destruct (find _ _) as [event|];
      [|destruct H as (_ & _ & -> & ->); split; assumption].
    destruct (BookingStore.find_ticket _ _) as [[i ticket]|];
      [|destruct H as (_ & _ & -> & ->); split; assumption].
    destruct (_ <? _); [destruct H as (_ & _ & -> & ->); split; assumption|].
    destruct (existsb _ _) eqn:Hfresh;
      [destruct H as (_ & _ & -> & ->); split; assumption|].
    destruct H as (_ & _ & -> & ->). split.
    + rewrite map_id_update_first; [exact He|]. intros x. apply event_apply_ticket_keeps_ID.
    + apply NoDup_map_app_fresh; [exact Hb|]. rewrite booking_made_ID. exact Hfresh.
  - intros bookingID.
    pose proof (CancelBooking_cases bookingID db) as H. cbv zeta in H.
    destruct (find _ (Bookings db)) as [booking|];
      [|destruct H as (_ & _ & -> & ->); split; assumption].
    destruct (String.eqb _ _); [destruct H as (_ & _ & -> & ->); split; assumption|].
    destruct H as (_ & _ & -> & ->). split; [|apply NoDup_map_delete_first; exact Hb].
    destruct (find _ (Events db)) as [event|]; [|exact He].
    destruct (BookingStore.find_ticket _ _) as [[i ticket]|]; [|exact He].
    rewrite map_id_update_first; [exact He|]. intros x. apply event_apply_ticket_keeps_ID.
  - intros id. rewrite DeleteEvent_run. simpl. split.
    + apply NoDup_map_delete_first. exact He.
    + apply NoDup_map_filter. exact Hb.
  - intros now. rewrite DeleteExpiredEvents_run. simpl. split.
    + apply NoDup_map_filter. exact He.
    + apply NoDup_map_filter. exact Hb.
  - intros id. rewrite DeleteCategoryWithCascade_run.
    destruct (find _ _); simpl; [|split; assumption]. split.
    + apply NoDup_map_filter. exact He.
    + apply NoDup_map_filter. exact Hb.
Qed.

(** * Further properties of the store layer *)

(** ** More on lists of documents *)

Lemma filter_negb_twice {A : Type} (p : A -> bool) (docs : list A) :
  filter (fun d => negb (p d)) (filter (fun d => negb (p d)) docs)
  = filter (fun d => negb (p d)) docs.
Proof.
  induction docs as [|d rest IH]; simpl; [reflexivity|].
  destruct (p d) eqn:E; simpl; [exact IH|]. rewrite E. simpl. now f_equal.
Qed.

Lemma filter_after_negb {A : Type} (p : A -> bool) (docs : list A) :
  filter p (filter (fun d => negb (p d)) docs) = [].
Proof.
  induction docs as [|d rest IH]; simpl; [reflexivity|].
  destruct (p d) eqn:E; simpl; [exact IH|]. now rewrite E.
Qed.

Lemma In_update_first_other {A : Type} (p : A -> bool) (u : A -> A) (docs : list A) (d : A) :
  In d docs -> p d = false -> In d (update_first p u docs).
Proof.
  induction docs as [|x rest IH]; simpl; [tauto|].
  intros [->|Hin] Hp.
  - rewrite Hp. now left.
  - destruct (p x); [now right|right; auto].
Qed.

Lemma find_ticket_app (ty : string) (before after : list TicketInfo.t)
    (first : TicketInfo.t) :
  (forall t, In t before -> TicketInfo.Type_ t <> ty) ->
  TicketInfo.Type_ first = ty ->
  BookingStore.find_ticket ty (before ++ first :: after)
  = Some (List.length before, first).
Proof.
  intros Hbefore Hfirst. induction before as [|t rest IH]; simpl.
  - rewrite (proj2 (String.eqb_eq _ _) Hfirst). reflexivity.
  - rewrite (proj2 (String.eqb_neq _ _) (Hbefore t (or_introl eq_refl))).
    rewrite IH; [reflexivity|]. intros t' Hin. apply Hbefore. now right.
Qed.

Lemma set_ticket_available_app (v : Z) (before after : list TicketInfo.t)
    (first : TicketInfo.t) :
  set_ticket_available (List.length before) v (before ++ first :: after)
  = before ++ TicketInfo.with_AvailableQuantity v first :: after.
Proof.
  induction before as [|t rest IH]; simpl; [reflexivity|now f_equal].
Qed.

(** ** Deleting the bookings of an event *)

(** X1. [DeleteBookingsByEventID] returns how many bookings refer to the
    event and removes exactly those; events and categories are untouched.
    Run again it deletes nothing, and the event's booking list is empty. *)
Theorem X1_delete_bookings_by_event :
  forall id db,
    let r := BookingStore.DeleteBookingsByEventID Main.bookingStore id db in
    fst r = Ok (Z.of_nat (List.length
                            (filter (fun b => N.eqb (Booking.EventID b) id) (Bookings db)))) /\
    (forall b, In b (Bookings (snd r)) <-> In b (Bookings db) /\ Booking.EventID b <> id) /\
    Events (snd r) = Events db /\
    Categories (snd r) = Categories db /\
    fst (BookingStore.DeleteBookingsByEventID Main.bookingStore id (snd r)) = Ok 0 /\
    Bookings (snd (BookingStore.DeleteBookingsByEventID Main.bookingStore id (snd r)))
      = Bookings (snd r) /\
    fst (BookingStore.GetBookingsByEventID Main.bookingStore id (snd r)) = Ok [].
Proof.
  intros id db r. unfold r, BookingStore.DeleteBookingsByEventID,
    BookingStore.GetBookingsByEventID, DeleteMany, Find.
  cbn.
  split; [reflexivity|]. split.
  { intros b. rewrite filter_In, negb_true_iff, N.eqb_neq. tauto. }
  split; [reflexivity|]. split; [reflexivity|].
  rewrite (filter_after_negb (fun b => N.eqb (Booking.EventID b) id)).
  rewrite (filter_negb_twice (fun b => N.eqb (Booking.EventID b) id)).
  repeat split.
Qed.

(** ** Cancelling: the other paths *)

(** X2. Orphan clean-up.  When the booking's event is no longer stored, or
    the event has no ticket class of the booking's type, [CancelBooking]
    still succeeds: it deletes the booking and leaves every event as it
    was. *)
Theorem X2_cancel_without_restoring :
  forall bookingID db booking,
    find (booking_matches (F_id bookingID)) (Bookings db) = Some booking ->
    Booking.Status booking <> "cancelled" ->
    (find (event_matches (F_id (Booking.EventID booking))) (Events db) = None \/
     exists event,
       find (event_matches (F_id (Booking.EventID booking))) (Events db) = Some event /\
       BookingStore.find_ticket (Booking.TicketType booking) (Event.Tickets event) = None) ->
    let r := BookingStore.CancelBooking Main.bookingStore bookingID db in
    fst r = Ok tt /\
    Events (snd r) = Events db /\
    Categories (snd r) = Categories db /\
    Bookings (snd r) = delete_first (fun b => N.eqb (Booking.ID b) bookingID) (Bookings db).
Proof.
  intros bookingID db booking Hb Hstatus Hmissing r.
  pose proof (CancelBooking_cases bookingID db) as H. cbv zeta in H. fold r in H.
  rewrite Hb in H. apply String.eqb_neq in Hstatus. rewrite Hstatus in H.
  destruct H as (Hok & Hc & Hbs & He).
  split; [exact Hok|]. split; [|split; [exact Hc|exact Hbs]].
  rewrite He. destruct Hmissing as [Hnone|(event & Hev & Htk)].
  - now rewrite Hnone.
  - now rewrite Hev, Htk.
Qed.

Lemma X2_cancel_without_restoring_witness :
  (let r := BookingStore.CancelBooking Main.bookingStore 100%N Scenario.dbOrphan in
   fst r = Ok tt /\ Bookings (snd r) = []) /\
  (let r := BookingStore.CancelBooking Main.bookingStore 100%N Scenario2.dbNoClass in
   fst r = Ok tt /\ Events (snd r) = [Scenario.concert]).
Proof.
  split.
  - destruct (X2_cancel_without_restoring 100%N Scenario.dbOrphan
                (Scenario.booked 100%N 1%N "VIP" 3 300%float))
      as (Hok & _ & _ & Hb).
    + reflexivity.
    + discriminate.
    + left. reflexivity.
    + split; [exact Hok|]. rewrite Hb. reflexivity.
  - destruct (X2_cancel_without_restoring 100%N Scenario2.dbNoClass
                (Scenario.booked 100%N 1%N "Student" 2 40%float))
      as (Hok & He & _).
    + reflexivity.
    + discriminate.
    + right. exists Scenario.concert. split; reflexivity.
    + split; [exact Hok|]. rewrite He. reflexivity.
Defined.

(** X3. When the booking's event has a ticket class of the booking's type,
    a successful [CancelBooking] raises the available count of the first
    such class by exactly the booking's quantity, keeps that class's type,
    price and total, keeps every other ticket class and every other event,
    and removes the booking. *)
Theorem X3_cancel_restores_exactly :
  forall bookingID db booking event before first after,
    find (booking_matches (F_id bookingID)) (Bookings db) = Some booking ->
    Booking.Status booking <> "cancelled" ->
    find (event_matches (F_id (Booking.EventID booking))) (Events db) = Some event ->
    Event.Tickets event = before ++ first :: after ->
    (forall t, In t before -> TicketInfo.Type_ t <> Booking.TicketType booking) ->
    TicketInfo.Type_ first = Booking.TicketType booking ->
    GoInt.in_range (TicketInfo.AvailableQuantity first + Booking.Quantity booking) ->
    let r := BookingStore.CancelBooking Main.bookingStore bookingID db in
    fst r = Ok tt /\
    find (event_matches (F_id (Booking.EventID booking))) (Events (snd r))
      = Some (Event.with_Tickets
                (before ++
                 TicketInfo.mk (TicketInfo.Type_ first) (TicketInfo.Price first)
                   (TicketInfo.TotalQuantity first)
                   (TicketInfo.AvailableQuantity first + Booking.Quantity booking)
                 :: after) event) /\
    (forall e, In e (Events db) -> Event.ID e <> Booking.EventID booking ->
               In e (Events (snd r))) /\
    List.length (Events (snd r)) = List.length (Events db) /\
    Bookings (snd r) = delete_first (fun b => N.eqb (Booking.ID b) bookingID) (Bookings db).
Proof.
  intros bookingID db booking event before first after Hb Hstatus Hev Htickets
    Hbefore Hfirst Hrange r.
  pose proof (CancelBooking_cases bookingID db) as H. cbv zeta in H. fold r in H.
  rewrite Hb in H. apply String.eqb_neq in Hstatus. rewrite Hstatus in H.
  rewrite Hev, Htickets, (find_ticket_app _ before after first Hbefore Hfirst) in H.
  destruct H as (Hok & _ & Hbs & He).
  unfold GoInt.add in He. rewrite (wrap_in_range _ Hrange) in He.
  split; [exact Hok|]. split; [|split; [|split; [|exact Hbs]]].
  - rewrite He, find_update_first by (intros x; apply event_apply_keeps_id).
    rewrite Hev. simpl. rewrite Htickets, set_ticket_available_app. reflexivity.
  - intros e Hin Hid. rewrite He. apply In_update_first_other; [exact Hin|].
    simpl. now apply N.eqb_neq.
  - rewrite He. rewrite <- (length_map Event.ID), map_id_update_first.
    + apply length_map.
    + intros x. apply event_apply_ticket_keeps_ID.
Qed.

Lemma X3_cancel_restores_exactly_witness :
  let r := BookingStore.CancelBooking Main.bookingStore 100%N Scenario.dbC in
  fst r = Ok tt /\
  In Scenario.recital (Events (snd r)) /\
  Bookings (snd r) = [Scenario.booked 101%N 2%N "Regular" 1 20%float].
Proof.
  destruct (X3_cancel_restores_exactly 100%N Scenario.dbC
              (Scenario.booked 100%N 1%N "VIP" 3 300%float) Scenario.concert
              [] Scenario.vip [])
    as (Hok & _ & Hothers & _ & Hb).
  - reflexivity.
  - discriminate.
  - reflexivity.
  - reflexivity.
  - intros t [].
  - reflexivity.
  - split; discriminate.
  - split; [exact Hok|]. split.
    + apply Hothers; [simpl; tauto|discriminate].
    + rewrite Hb. reflexivity.
Defined.

(** ** The status of stored bookings *)

(** X4. Every booking [CreateBooking] stores has the status "confirmed",
    whatever status the caller put in; cancelling and the deleting
    operations only remove bookings.  So as long as every stored booking is
    confirmed, [CancelBooking] never answers "booking already cancelled". *)
Theorem X4_bookings_stay_confirmed :
  forall db,
    bookings_confirmed db ->
    (forall now generated booking,
        bookings_confirmed
          (snd (BookingStore.CreateBooking Main.bookingStore now generated booking db))) /\
    (forall bookingID,
        bookings_confirmed (snd (BookingStore.CancelBooking Main.bookingStore bookingID db))) /\
    (forall id,
        bookings_confirmed (snd (EventStore.DeleteEvent Main.eventStore id db))) /\
    (forall now,
        bookings_confirmed (snd (EventStore.DeleteExpiredEvents Main.eventStore now db))) /\
    (forall id,
        bookings_confirmed
          (snd (CategoryStore.DeleteCategoryWithCascade Main.categoryStore id db))) /\
    (forall bookingID,
        fst (BookingStore.CancelBooking Main.bookingStore bookingID db)
          <> Err "booking already cancelled").
Proof.
  intros db Hconf. unfold bookings_confirmed in *.
  split; [|split; [|split; [|split; [|split]]]].
  - intros now generated booking.
    pose proof (CreateBooking_cases now generated booking db) as H. cbv zeta in H.
    destruct (find _ _) as [event|]; [|destruct H as (_ & _ & _ & ->); exact Hconf].
    destruct (BookingStore.find_ticket _ _) as [[i ticket]|];
      [|destruct H as (_ & _ & _ & ->); exact Hconf].
    destruct (_ <? _); [destruct H as (_ & _ & _ & ->); exact Hconf|].
    destruct (existsb _ _); [destruct H as (_ & _ & _ & ->); exact Hconf|].
    destruct H as (_ & _ & _ & ->). apply Forall_app. split; [exact Hconf|].
    repeat constructor.
  - intros bookingID.
    pose proof (CancelBooking_cases bookingID db) as H. cbv zeta in H.
    destruct (find _ (Bookings db)) as [booking|];
      [|destruct H as (_ & _ & _ & ->); exact Hconf].
    destruct (String.eqb _ _); [destruct H as (_ & _ & _ & ->); exact Hconf|].
    destruct H as (_ & _ & -> & _). apply Forall_delete_first. exact Hconf.
  - intros id. rewrite DeleteEvent_run. apply Forall_filter. exact Hconf.
  - intros now. rewrite DeleteExpiredEvents_run. apply Forall_filter. exact Hconf.
  - intros id. rewrite DeleteCategoryWithCascade_run.
    destruct (find _ _); [apply Forall_filter|]; exact Hconf.
  - intros bookingID.
    pose proof (CancelBooking_cases bookingID db) as H. cbv zeta in H.
    destruct (find _ (Bookings db)) as [booking|] eqn:Hb.
    + apply find_some in Hb as [Hin _].
      rewrite Forall_forall in Hconf. rewrite (Hconf _ Hin) in H. simpl in H.
      destruct H as [-> _]. discriminate.
    + destruct H as [-> _]. discriminate.
Qed.

Lemma X4_bookings_stay_confirmed_witness :
  bookings_confirmed
    (snd (BookingStore.CreateBooking Main.bookingStore 5001 101%N
            (Scenario.request 1%N "VIP" 2) Scenario.dbA_booked)) /\
  fst (BookingStore.CancelBooking Main.bookingStore 100%N Scenario.dbA_booked)
    <> Err "booking already cancelled".
Proof.
  assert (Hconf : bookings_confirmed Scenario.dbA_booked).
  { unfold bookings_confirmed.
    assert (Hb : Bookings Scenario.dbA_booked
                 = [booking_made 5000 100%N (Scenario.request 1%N "VIP" 3) Scenario.vip])
      by (vm_compute; reflexivity).
    rewrite Hb. repeat constructor. }
  destruct (X4_bookings_stay_confirmed Scenario.dbA_booked Hconf)
    as (Hcreate & _ & _ & _ & _ & Hnever).
  split; [apply Hcreate|apply Hnever].
Defined.

(** ** Creating a booking: which ticket class, and what else is touched *)

(** X5. Only the first ticket class of the requested type counts.  When it
    has fewer tickets available than requested, [CreateBooking] fails "not
    enough tickets available" and changes nothing, whatever the later
    classes of the event hold, a later class of the same type with enough
    tickets included. *)
Theorem X5_first_class_of_type_decides :
  forall now generated booking db event before first after,
    find (event_matches (F_id (Booking.EventID booking))) (Events db) = Some event ->
    Event.Tickets event = before ++ first :: after ->
    (forall t, In t before -> TicketInfo.Type_ t <> Booking.TicketType booking) ->
    TicketInfo.Type_ first = Booking.TicketType booking ->
    TicketInfo.AvailableQuantity first < Booking.Quantity booking ->
    let r := BookingStore.CreateBooking Main.bookingStore now generated booking db in
    fst r = Err "not enough tickets available" /\
    Events (snd r) = Events db /\
    Bookings (snd r) = Bookings db.
Proof.
  intros now generated booking db event before first after Hev Htickets Hbefore
    Hfirst Hlt r.
  pose proof (CreateBooking_cases now generated booking db) as H. cbv zeta in H.
  fold r in H.
  rewrite Hev, Htickets, (find_ticket_app _ before after first Hbefore Hfirst) in H.
  apply Z.ltb_lt in Hlt. rewrite Hlt in H.
  destruct H as (Hr & _ & He & Hb). tauto.
Qed.

Lemma X5_first_class_of_type_decides_witness :
  fst (BookingStore.CreateBooking Main.bookingStore 5000 100%N
         (Scenario.request 1%N "VIP" 5) Scenario2.dbTwin)
    = Err "not enough tickets available".
Proof.
  destruct (X5_first_class_of_type_decides 5000 100%N (Scenario.request 1%N "VIP" 5)
              Scenario2.dbTwin Scenario2.twin
              [TicketInfo.mk "Regular" 20%float 50 50]
              (TicketInfo.mk "VIP" 100%float 10 2)
              [TicketInfo.mk "VIP" 80%float 60 50])
    as (Hr & _).
  - reflexivity.
  - reflexivity.
  - intros t [<-|[]]. discriminate.
  - reflexivity.
  - reflexivity.
  - exact Hr.
Defined.

(** X6. What a granted booking touches.  The event keeps all its fields but
    the ticket list; in the list only the first class of the requested type
    changes, and only in its available count; the other events are kept,
    the categories are untouched, and exactly one booking is added, at the
    end. *)
Theorem X6_create_booking_frame :
  forall now generated booking db event before first after,
    find (event_matches (F_id (Booking.EventID booking))) (Events db) = Some event ->
    Event.Tickets event = before ++ first :: after ->
    (forall t, In t before -> TicketInfo.Type_ t <> Booking.TicketType booking) ->
    TicketInfo.Type_ first = Booking.TicketType booking ->
    Booking.Quantity booking <= TicketInfo.AvailableQuantity first ->
    GoInt.in_range (TicketInfo.AvailableQuantity first - Booking.Quantity booking) ->
    existsb (fun d => N.eqb (Booking.ID d) (inserted_id generated booking)) (Bookings db)
      = false ->
    let r := BookingStore.CreateBooking Main.bookingStore now generated booking db in
    fst r = Ok (booking_made now generated booking first) /\
    find (event_matches (F_id (Booking.EventID booking))) (Events (snd r))
      = Some (Event.with_Tickets
                (before ++
                 TicketInfo.mk (TicketInfo.Type_ first) (TicketInfo.Price first)
                   (TicketInfo.TotalQuantity first)
                   (TicketInfo.AvailableQuantity first - Booking.Quantity booking)
                 :: after) event) /\
    (forall e, In e (Events db) -> Event.ID e <> Booking.EventID booking ->
               In e (Events (snd r))) /\
    List.length (Events (snd r)) = List.length (Events db) /\
    Categories (snd r) = Categories db /\
    Bookings (snd r) = Bookings db ++ [booking_made now generated booking first].
Proof.
  intros now generated booking db event before first after Hev Htickets Hbefore
    Hfirst Hle Hrange Hfresh r.
  pose proof (CreateBooking_cases now generated booking db) as H. cbv zeta in H.
  fold r in H.
  rewrite Hev, Htickets, (find_ticket_app _ before after first Hbefore Hfirst) in H.
  apply Z.ltb_ge in Hle. rewrite Hle, Hfresh in H.
  destruct H as (Hr & Hc & He & Hb).
  unfold GoInt.sub in He. rewrite (wrap_in_range _ Hrange) in He.
  split; [exact Hr|]. split; [|split; [|split; [|split; [exact Hc|exact Hb]]]].
  - rewrite He, find_update_first by (intros x; apply event_apply_keeps_id).
    rewrite Hev. simpl. rewrite Htickets, set_ticket_available_app. reflexivity.
  - intros e Hin Hid. rewrite He. apply In_update_first_other; [exact Hin|].
    simpl. now apply N.eqb_neq.
  - rewrite He. rewrite <- (length_map Event.ID), map_id_update_first.
    + apply length_map.
    + intros x. apply event_apply_ticket_keeps_ID.
Qed.

Lemma X6_create_booking_frame_witness :
  let r := BookingStore.CreateBooking Main.bookingStore 5000 100%N
             (Scenario.request 1%N "VIP" 2) Scenario2.dbTwin in
  map Event.Tickets (Events (snd r))
  = [[TicketInfo.mk "Regular" 20%float 50 50;
      TicketInfo.mk "VIP" 100%float 10 0;
      TicketInfo.mk "VIP" 80%float 60 50]].
Proof.
  destruct (X6_create_booking_frame 5000 100%N (Scenario.request 1%N "VIP" 2)
              Scenario2.dbTwin Scenario2.twin
              [TicketInfo.mk "Regular" 20%float 50 50]
              (TicketInfo.mk "VIP" 100%float 10 2)
              [TicketInfo.mk "VIP" 80%float 60 50])
    as (_ & Hfound & _ & Hlen & _).
  - reflexivity.
  - reflexivity.
  - intros t [<-|[]]. discriminate.
  - reflexivity.
  - discriminate.
  - split; discriminate.
  - reflexivity.
  - cbv zeta in *.
    destruct (Events (snd (BookingStore.CreateBooking Main.bookingStore 5000 100%N
                             (Scenario.request 1%N "VIP" 2) Scenario2.dbTwin)))
      as [|e [|e' rest]]; try discriminate.
    simpl in Hfound. destruct (N.eqb (Event.ID e) 1); [|discriminate].
    injection Hfound as ->. reflexivity.
Defined.

(** ** Reading bookings back *)

Lemma Find_bookings_run (f : Filter) (db : DB) :
  fst (Find BookingsColl f db) = Ok (filter (booking_matches f) (Bookings db)).
Proof. reflexivity. Qed.

(** X7. A booking just created is the one [GetBookingByID] returns for its
    identifier; it is added at the end of its user's list, of its event's
    list and of the list of all bookings, and the lists of the other users
    and events are the same as before. *)
Theorem X7_created_booking_is_listed :
  forall now generated booking db booking' db',
    BookingStore.CreateBooking Main.bookingStore now generated booking db
      = (Ok booking', db') ->
    (forall hex, ObjectIDFromHex hex = Some (Booking.ID booking') ->
       fst (BookingStore.GetBookingByID Main.bookingStore hex db') = Ok booking') /\
    fst (BookingStore.GetBookingsByUserID Main.bookingStore (Booking.UserID booking) db')
      = Ok (filter (fun b => N.eqb (Booking.UserID b) (Booking.UserID booking)) (Bookings db)
            ++ [booking']) /\
    (forall userID, userID <> Booking.UserID booking ->
       fst (BookingStore.GetBookingsByUserID Main.bookingStore userID db')
       = fst (BookingStore.GetBookingsByUserID Main.bookingStore userID db)) /\
    fst (BookingStore.GetBookingsByEventID Main.bookingStore (Booking.EventID booking) db')
      = Ok (filter (fun b => N.eqb (Booking.EventID b) (Booking.EventID booking)) (Bookings db)
            ++ [booking']) /\
    (forall eventID, eventID <> Booking.EventID booking ->
       fst (BookingStore.GetBookingsByEventID Main.bookingStore eventID db')
       = fst (BookingStore.GetBookingsByEventID Main.bookingStore eventID db)) /\
    fst (BookingStore.GetAllBookings Main.bookingStore db') = Ok (Bookings db ++ [booking']).
Proof.
  intros now generated booking db booking' db' Hrun.
  assert (Hfst : fst (BookingStore.CreateBooking Main.bookingStore now generated booking db)
                 = Ok booking') by now rewrite Hrun.
  destruct (CreateBooking_success _ _ _ _ _ Hfst)
    as (event & i & ticket & _ & _ & _ & Hfresh & Hmade & _ & _ & Hb).
  rewrite Hrun in Hb. simpl in Hb.
  assert (Huser : Booking.UserID booking' = Booking.UserID booking)
    by (subst booking'; reflexivity).
  assert (Hevent : Booking.EventID booking' = Booking.EventID booking)
    by (subst booking'; reflexivity).
  assert (Hid : Booking.ID booking' = inserted_id generated booking)
    by (subst booking'; reflexivity).
  unfold BookingStore.GetBookingsByUserID, BookingStore.GetBookingsByEventID,
    BookingStore.GetAllBookings.
  change (BookingStore.bookingCollection Main.bookingStore) with BookingsColl.
  split; [|split; [|split; [|split; [|split]]]].
  - intros hex Hhex. rewrite GetBookingByID_run, Hhex, Hb.
    rewrite (find_app_fresh _ (Bookings db) booking'); [reflexivity| |].
    + rewrite Hid. exact Hfresh.
    + simpl. apply N.eqb_refl.
  - rewrite Find_bookings_run, Hb, filter_app. simpl.
    rewrite Huser, N.eqb_refl. reflexivity.
  - intros userID Hne. rewrite !Find_bookings_run, Hb, filter_app. simpl.
    rewrite Huser. rewrite (proj2 (N.eqb_neq _ _)) by congruence.
    now rewrite app_nil_r.
  - rewrite Find_bookings_run, Hb, filter_app. simpl.
    rewrite Hevent, N.eqb_refl. reflexivity.
  - intros eventID Hne. rewrite !Find_bookings_run, Hb, filter_app. simpl.
    rewrite Hevent. rewrite (proj2 (N.eqb_neq _ _)) by congruence.
    now rewrite app_nil_r.
  - rewrite Find_bookings_run, Hb. simpl. now rewrite filter_all_true.
Qed.

Lemma X7_created_booking_is_listed_witness :
  let made := booking_made 5000 100%N (Scenario.request 1%N "VIP" 3) Scenario.vip in
  fst (BookingStore.GetBookingByID Main.bookingStore Scenario.hex100 Scenario.dbA_booked)
    = Ok made /\
  fst (BookingStore.GetBookingsByUserID Main.bookingStore Scenario.userID Scenario.dbA_booked)
    = Ok [made].
Proof.
  intros made.
  destruct (X7_created_booking_is_listed 5000 100%N (Scenario.request 1%N "VIP" 3)
              Scenario.dbA made Scenario.dbA_booked)
    as (Hget & Huser & _).
  - vm_compute. reflexivity.
  - split; [apply Hget; reflexivity|exact Huser].
Defined.

(** ** Creating categories and events *)


(** What [CreateCategory] returns and leaves behind. *)
Lemma CreateCategory_cases (now : Time) (generated : ObjectID) (category : Category.t)
    (db : DB) :
  let r := CategoryStore.CreateCategory Main.categoryStore now generated category db in
  let id := if N.eqb (Category.ID category) NilObjectID then generated
            else Category.ID category in
  let created := Category.with_ID id (Category.with_CreatedAt now category) in
  Events (snd r) = Events db /\
  Bookings (snd r) = Bookings db /\
  match find (fun c => String.eqb (Category.Name c) (Category.Name category))
          (Categories db) with
  | Some _ =>
      fst r = Err "category with the same name already exists" /\
      Categories (snd r) = Categories db
  | None =>
      if existsb (fun c => N.eqb (Category.ID c) id) (Categories db)
      then fst r = Err ErrDuplicateKey /\ Categories (snd r) = Categories db
      else fst r = Ok created /\ Categories (snd r) = Categories db ++ [created]
  end.
Proof.
  unfold CategoryStore.CreateCategory, bind, FindOne, InsertOne, fail, ret.
  cbn.
  destruct (find _ _); cbn; [repeat split|].
  destruct (existsb _ _); cbn; repeat split.
Qed.

(** What [CreateEvent] returns and leaves behind. *)
Lemma CreateEvent_cases (now : Time) (generated : ObjectID) (event : Event.t) (db : DB) :
  let r := EventStore.CreateEvent Main.eventStore now generated event db in
  let id := if N.eqb (Event.ID event) NilObjectID then generated else Event.ID event in
  let created := Event.with_ID id (Event.with_CreatedAt now event) in
  Categories (snd r) = Categories db /\
  Bookings (snd r) = Bookings db /\
  match find (fun c => regex_i_anchored (Event.CategoryName event) (Category.Name c))
          (Categories db) with
  | None =>
      fst r = Err ("category not found: " ++ Event.CategoryName event)%string /\
      Events (snd r) = Events db
  | Some _ =>
      match find (fun e => String.eqb (Event.Name e) (Event.Name event)) (Events db) with
      | Some _ =>
          fst r = Err "event with the same name already exists" /\
          Events (snd r) = Events db
      | None =>
          if existsb (fun e => N.eqb (Event.ID e) id) (Events db)
          then fst r = Err ErrDuplicateKey /\ Events (snd r) = Events db
          else fst r = Ok created /\ Events (snd r) = Events db ++ [created]
      end
  end.
Proof.
  unfold EventStore.CreateEvent, CategoryStore.GetCategoryByName, replace_err, bind,
    FindOne, InsertOne, fail, ret.
  cbn.
  destruct (find _ (Categories db)); cbn; [|repeat split].
  destruct (find _ (Events db)); cbn; [repeat split|].
  destruct (existsb _ _); cbn; repeat split.
Qed.

(** What [UpdateEvent] returns and leaves behind. *)
Lemma UpdateEvent_cases (event : Event.t) (db : DB) :
  let r := EventStore.UpdateEvent Main.eventStore event db in
  Categories (snd r) = Categories db /\
  Bookings (snd r) = Bookings db /\
  match find (fun c => regex_i_anchored (Event.CategoryName event) (Category.Name c))
          (Categories db) with
  | None =>
      fst r = Err ("category not found: " ++ Event.CategoryName event)%string /\
      Events (snd r) = Events db
  | Some _ =>
      Events (snd r) =
        update_first (fun e => N.eqb (Event.ID e) (Event.ID event))
          (event_apply (U_set_event_fields event)) (Events db) /\
      fst r = if existsb (fun e => N.eqb (Event.ID e) (Event.ID event)) (Events db)
              then Ok tt else Err "event not found"
  end.
Proof.
  unfold EventStore.UpdateEvent, CategoryStore.GetCategoryByName, replace_err, bind,
    FindOne, UpdateOne, fail, ret.
  cbn.
  destruct (find _ (Categories db)); cbn; [|repeat split].
  destruct (existsb _ _); cbn; repeat split.
Qed.

Lemma find_none_of_all {A : Type} (p : A -> bool) (docs : list A) :
  (forall d, In d docs -> p d = false) -> find p docs = None.
Proof.
  intros H. destruct (find p docs) as [d|] eqn:Hfind; [|reflexivity].
  apply find_some in Hfind as [Hin Hp]. rewrite (H d Hin) in Hp. discriminate.
Qed.

Lemma existsb_false_of_all {A : Type} (p : A -> bool) (docs : list A) :
  (forall d, In d docs -> p d = false) -> existsb p docs = false.
Proof. intros H. apply find_none_existsb. now apply find_none_of_all. Qed.


Lemma NoDup_map_same {A B : Type} (f : A -> B) (docs : list A) (x y : A) :
  NoDup (map f docs) -> In x docs -> In y docs -> f x = f y -> x = y.
Proof.
  induction docs as [|d rest IH]; simpl; [tauto|].
  intros Hnd Hx Hy Hf. inversion Hnd as [|? ? Hnotin Hrest]; subst.
  destruct Hx as [->|Hx], Hy as [->|Hy]; auto.
  - exfalso. apply Hnotin. rewrite Hf. now apply in_map.
  - exfalso. apply Hnotin. rewrite <- Hf. now apply in_map.
Qed.

Lemma NoDup_map_snoc {A B : Type} (f : A -> B) (docs : list A) (d : A) :
  NoDup (map f docs) -> (forall x, In x docs -> f x <> f d) -> NoDup (map f (docs ++ [d])).
Proof.
  intros Hnd Hfresh. rewrite map_app. simpl.
  apply NoDup_app; [exact Hnd|repeat constructor; simpl; tauto|].
  intros k Hin [<-|[]].
  apply in_map_iff in Hin as (x & Hx & Hin). exact (Hfresh x Hin Hx).
Qed.

(** A category without identifier, with a new name and a fresh generated
    identifier, is stored at the end of the collection. *)
Lemma CreateCategory_accepts (now : Time) (generated : ObjectID) (category : Category.t)
    (db : DB) :
  (forall c, In c (Categories db) -> Category.Name c <> Category.Name category) ->
  Category.ID category = NilObjectID ->
  (forall c, In c (Categories db) -> Category.ID c <> generated) ->
  fst (CategoryStore.CreateCategory Main.categoryStore now generated category db)
    = Ok (Category.mk generated (Category.Name category) now) /\
  Categories (snd (CategoryStore.CreateCategory Main.categoryStore now generated category db))
    = Categories db ++ [Category.mk generated (Category.Name category) now].
Proof.
  intros Hnames Hnil Hfresh.
  pose proof (CreateCategory_cases now generated category db) as H. cbv zeta in H.
  destruct H as (_ & _ & H).
  rewrite find_none_of_all in H
    by (intros c Hin; apply String.eqb_neq; now apply Hnames).
  rewrite Hnil in H. simpl in H.
  rewrite existsb_false_of_all in H
    by (intros c Hin; apply N.eqb_neq; now apply Hfresh).
  exact H.
Qed.

(** X8. [CreateCategory] refuses a name some category already has, letter
    for letter, and then changes nothing.  Otherwise, given a category
    without identifier, it stores the category at the end of the collection
    under the generated identifier with the creation time set, returns it,
    and [GetCategoryByID] finds it.  Events and bookings are never touched. *)
Theorem X8_create_category :
  forall now generated category db,
    let r := CategoryStore.CreateCategory Main.categoryStore now generated category db in
    let created := Category.mk generated (Category.Name category) now in
    Events (snd r) = Events db /\
    Bookings (snd r) = Bookings db /\
    ((exists c, In c (Categories db) /\ Category.Name c = Category.Name category) ->
     fst r = Err "category with the same name already exists" /\
     Categories (snd r) = Categories db) /\
    ((forall c, In c (Categories db) -> Category.Name c <> Category.Name category) ->
     Category.ID category = NilObjectID ->
     (forall c, In c (Categories db) -> Category.ID c <> generated) ->
     fst r = Ok created /\
     Categories (snd r) = Categories db ++ [created] /\
     fst (CategoryStore.GetCategoryByID Main.categoryStore generated (snd r)) = Ok created).
Proof.
  intros now generated category db r created. subst r.
  pose proof (CreateCategory_cases now generated category db) as H. cbv zeta in H.
  destruct H as (He & Hb & H).
  split; [exact He|]. split; [exact Hb|]. split.
  - intros (c & Hin & Hname).
    destruct (find_of_member (fun c => String.eqb (Category.Name c) (Category.Name category))
                (Categories db) c Hin) as [c' Hc'].
    + now apply String.eqb_eq.
    + rewrite Hc' in H. exact H.
  - intros Hnames Hnil Hfresh.
    destruct (CreateCategory_accepts now generated category db Hnames Hnil Hfresh)
      as [Hr Hc].
    fold created in Hr, Hc.
    split; [exact Hr|]. split; [exact Hc|].
    rewrite GetCategoryByID_run. cbn [fst]. rewrite Hc.
    rewrite (find_app_fresh _ (Categories db) created); [reflexivity| |].
    + apply existsb_false_of_all. intros c Hin. apply N.eqb_neq. now apply Hfresh.
    + simpl. apply N.eqb_refl.
Qed.

Lemma X8_create_category_witness :
  fst (CategoryStore.CreateCategory Main.categoryStore 3000 6%N
         (Category.mk NilObjectID "Music" 0) Scenario.dbA)
    = Err "category with the same name already exists" /\
  fst (CategoryStore.CreateCategory Main.categoryStore 3000 6%N
         (Category.mk NilObjectID "Sport" 0) Scenario.dbA)
    = Ok (Category.mk 6%N "Sport" 3000).
Proof.
  split.
  - apply (proj1 (proj2 (proj2 (X8_create_category 3000 6%N
                                  (Category.mk NilObjectID "Music" 0) Scenario.dbA)))).
    exists Scenario.music. split; [simpl; tauto|reflexivity].
  - apply (proj2 (proj2 (proj2 (X8_create_category 3000 6%N
                                  (Category.mk NilObjectID "Sport" 0) Scenario.dbA)))).
    + intros c [<-|[]]. discriminate.
    + reflexivity.
    + intros c [<-|[]]. discriminate.
Defined.



Lemma category_match_found (name : string) (db : DB) (c : Category.t) :
  In c (Categories db) ->
  string_lower name = string_lower (Category.Name c) ->
  exists found,
    find (fun c => regex_i_anchored name (Category.Name c)) (Categories db) = Some found.
Proof.
  intros Hin Hlower. apply (find_of_member _ _ c Hin).
  unfold regex_i_anchored. rewrite Hlower. apply String.eqb_refl.
Qed.




(** X11. Creation keeps names and identifiers unique: if no two categories
    share a name or an identifier, the same holds after [CreateCategory],
    and likewise for events after [CreateEvent], whether the call succeeds
    or fails. *)
Theorem X11_creation_keeps_names_unique :
  forall db,
    (unique_category_names db -> unique_category_ids db ->
     forall now generated category,
       let db' := snd (CategoryStore.CreateCategory Main.categoryStore now generated
                         category db) in
       unique_category_names db' /\ unique_category_ids db') /\
    (unique_event_names db -> unique_event_ids db ->
     forall now generated event,
       let db' := snd (EventStore.CreateEvent Main.eventStore now generated event db) in
       unique_event_names db' /\ unique_event_ids db').
Proof.
  intros db. split.
  - intros Hn Hi now generated category.
    unfold unique_category_names, unique_category_ids in *.
    pose proof (CreateCategory_cases now generated category db) as H. cbv zeta in H.
    destruct H as (_ & _ & H).
    destruct (find _ _) eqn:Hfind; [destruct H as (_ & ->); split; assumption|].
    destruct (existsb _ _) eqn:Hfresh; [destruct H as (_ & ->); split; assumption|].
    destruct H as (_ & ->). split.
    + apply NoDup_map_snoc; [exact Hn|]. intros x Hin. simpl.
      apply String.eqb_neq. exact (find_none _ _ Hfind x Hin).
    + apply NoDup_map_app_fresh; [exact Hi|exact Hfresh].
  - intros Hn Hi now generated event.
    unfold unique_event_names, unique_event_ids in *.
    pose proof (CreateEvent_cases now generated event db) as H. cbv zeta in H.
    destruct H as (_ & _ & H).
    destruct (find _ (Categories db)); [|destruct H as (_ & ->); split; assumption].
    destruct (find _ (Events db)) eqn:Hfind; [destruct H as (_ & ->); split; assumption|].
    destruct (existsb _ _) eqn:Hfresh; [destruct H as (_ & ->); split; assumption|].
    destruct H as (_ & ->). split.
    + apply NoDup_map_snoc; [exact Hn|]. intros x Hin. simpl.
      apply String.eqb_neq. exact (find_none _ _ Hfind x Hin).
    + apply NoDup_map_app_fresh; [exact Hi|exact Hfresh].
Qed.

Lemma X11_creation_keeps_names_unique_witness :
  unique_event_names
    (snd (EventStore.CreateEvent Main.eventStore 3000 2%N
            (Event.with_ID NilObjectID Scenario.recital) Scenario.dbA)) /\
  unique_category_names
    (snd (CategoryStore.CreateCategory Main.categoryStore 3000 6%N
            (Category.mk NilObjectID "Music" 0) Scenario.dbA)).
Proof.
  assert (Hone : forall (B : Type) (x : B), NoDup [x]).
  { intros B x. constructor; [simpl; tauto|constructor]. }
  split.
  - apply (proj2 (X11_creation_keeps_names_unique Scenario.dbA)); apply Hone.
  - apply (proj1 (X11_creation_keeps_names_unique Scenario.dbA)); apply Hone.
Defined.

(** ** Updating an event *)

(** The stored event after [UpdateEvent]: identifier, host and creation time
    are the stored ones, every other field is the request's. *)
Lemma UpdateEvent_found (event : Event.t) (db : DB) (c : Category.t) (stored : Event.t) :
  In c (Categories db) ->
  string_lower (Event.CategoryName event) = string_lower (Category.Name c) ->
  find (fun e => N.eqb (Event.ID e) (Event.ID event)) (Events db) = Some stored ->
  fst (EventStore.UpdateEvent Main.eventStore event db) = Ok tt /\
  Events (snd (EventStore.UpdateEvent Main.eventStore event db))
    = update_first (fun e => N.eqb (Event.ID e) (Event.ID event))
        (event_apply (U_set_event_fields event)) (Events db) /\
  find (fun e => N.eqb (Event.ID e) (Event.ID event))
    (Events (snd (EventStore.UpdateEvent Main.eventStore event db)))
    = Some (Event.mk (Event.ID stored) (Event.HostID stored) (Event.CategoryName event)
              (Event.Name event) (Event.Description event) (Event.Date event)
              (Event.Location event) (Event.ImageURL event) (Event.StartTime event)
              (Event.EndTime event) (Event.CreatedAt stored) (Event.Tickets event)).
Proof.
  intros Hin Hlower Hstored.
  pose proof (UpdateEvent_cases event db) as H. cbv zeta in H.
  destruct H as (_ & _ & H).
  destruct (category_match_found _ db c Hin Hlower) as [found Hfound].
  rewrite Hfound in H. destruct H as [Hevents Hr].
  rewrite (find_some_existsb _ _ _ Hstored) in Hr.
  split; [exact Hr|]. split; [exact Hevents|].
  rewrite Hevents.
  rewrite (find_update_first (fun e => N.eqb (Event.ID e) (Event.ID event)))
    by (intros x; reflexivity).
  rewrite Hstored. reflexivity.
Qed.



(** X13. [UpdateEvent] does not check the new name against the other
    events, as [CreateEvent] does: renaming an event to the name of another
    stored event succeeds and leaves two events with the same name. *)
Theorem X13_update_event_allows_duplicate_names :
  forall event db c stored other,
    In c (Categories db) ->
    string_lower (Event.CategoryName event) = string_lower (Category.Name c) ->
    find (fun e => N.eqb (Event.ID e) (Event.ID event)) (Events db) = Some stored ->
    In other (Events db) ->
    Event.ID other <> Event.ID event ->
    Event.Name other = Event.Name event ->
    let r := EventStore.UpdateEvent Main.eventStore event db in
    fst r = Ok tt /\
    (exists updated,
        In updated (Events (snd r)) /\ In other (Events (snd r)) /\
        Event.ID updated <> Event.ID other /\ Event.Name updated = Event.Name other) /\
    ~ unique_event_names (snd r).
Proof.
  intros event db c stored other Hin Hlower Hstored Hother Hid Hname r. subst r.
  destruct (UpdateEvent_found event db c stored Hin Hlower Hstored)
    as (Hr & Hevents & Hfind).
  assert (Hkept : In other (Events (snd (EventStore.UpdateEvent Main.eventStore event db)))).
  { rewrite Hevents. apply In_update_first_other; [exact Hother|]. now apply N.eqb_neq. }
  apply find_some in Hfind as [Hupdated Hsame]. apply N.eqb_eq in Hsame. simpl in Hsame.
  split; [exact Hr|]. split.
  - eexists. split; [exact Hupdated|]. split; [exact Hkept|].
    simpl. split; [congruence|now symmetry].
  - unfold unique_event_names. intros Hnd.
    pose proof (NoDup_map_same Event.Name _ _ _ Hnd Hupdated Hkept) as Heq.
    simpl in Heq. specialize (Heq (eq_sym Hname)).
    apply Hid. rewrite <- Heq. simpl. now symmetry.
Qed.

Lemma X13_update_event_allows_duplicate_names_witness :
  let renamed :=
    Event.mk 2%N Scenario.hostID "Music" "Concert" "" 1000 "Club" "" 1000 2000 0 [] in
  fst (EventStore.UpdateEvent Main.eventStore renamed Scenario.dbC) = Ok tt /\
  ~ unique_event_names (snd (EventStore.UpdateEvent Main.eventStore renamed Scenario.dbC)).
Proof.
  intros renamed.
  destruct (X13_update_event_allows_duplicate_names renamed Scenario.dbC Scenario.music
              Scenario.recital Scenario.concert)
    as (Hr & _ & Hdup).
  - simpl. tauto.
  - reflexivity.
  - reflexivity.
  - simpl. tauto.
  - discriminate.
  - reflexivity.
  - split; [exact Hr|exact Hdup].
Defined.

(** ** Sweeps and repeated deletes *)

Lemma filter_filter {A : Type} (p q : A -> bool) (docs : list A) :
  filter q (filter p docs) = filter (fun d => p d && q d) docs.
Proof.
  induction docs as [|d rest IH]; simpl; [reflexivity|].
  destruct (p d); simpl; [destruct (q d); [f_equal|]; exact IH|exact IH].
Qed.

Lemma filter_same_on {A : Type} (p q : A -> bool) (docs : list A) :
  (forall d, In d docs -> p d = q d) -> filter p docs = filter q docs.
Proof.
  induction docs as [|d rest IH]; simpl; intros H; [reflexivity|].
  rewrite (H d (or_introl eq_refl)), IH by (intros x Hx; apply H; now right).
  reflexivity.
Qed.

Lemma length_filter_split {A : Type} (p q : A -> bool) (docs : list A) :
  (forall d, p d = true -> q d = true) ->
  List.length (filter q docs)
  = (List.length (filter p docs)
     + List.length (filter q (filter (fun d => negb (p d)) docs)))%nat.
Proof.
  intros Hpq. induction docs as [|d rest IH]; simpl; [reflexivity|].
  destruct (p d) eqn:Hp; simpl.
  - rewrite (Hpq d Hp). simpl. now rewrite IH.
  - destruct (q d); simpl; rewrite IH; lia.
Qed.

(** X14. After a sweep at time [now] no stored event has ended before
    [now], and a further sweep at that time or an earlier one deletes
    nothing.  A sweep at [now] followed by a sweep at a later time leaves
    the same events and bookings as the later sweep alone, and the two
    counts add up to its count. *)
Theorem X14_sweeps_compose :
  forall now db,
    let r := EventStore.DeleteExpiredEvents Main.eventStore now db in
    (forall e, In e (Events (snd r)) -> now <= Event.EndTime e) /\
    (forall earlier, earlier <= now ->
       let r2 := EventStore.DeleteExpiredEvents Main.eventStore earlier (snd r) in
       fst r2 = Ok 0 /\
       Events (snd r2) = Events (snd r) /\
       Bookings (snd r2) = Bookings (snd r) /\
       Categories (snd r2) = Categories (snd r)) /\
    (forall later, now <= later ->
       let r2 := EventStore.DeleteExpiredEvents Main.eventStore later (snd r) in
       let direct := EventStore.DeleteExpiredEvents Main.eventStore later db in
       Events (snd r2) = Events (snd direct) /\
       Bookings (snd r2) = Bookings (snd direct) /\
       exists n1 n2, fst r = Ok n1 /\ fst r2 = Ok n2 /\ fst direct = Ok (n1 + n2)).
Proof.
  intros now db r. subst r. rewrite DeleteExpiredEvents_run. cbv zeta.
  cbn [fst snd Events Bookings Categories].
  change (event_matches (F_end_time_lt now))
    with (fun e : Event.t => Event.EndTime e <? now).
  split; [|split].
  - intros e Hin. apply filter_In in Hin as [_ Hkeep].
    apply negb_true_iff, Z.ltb_ge in Hkeep. exact Hkeep.
  - intros earlier Hle. rewrite DeleteExpiredEvents_run. cbv zeta.
    cbn [fst snd Events Bookings Categories].
    change (event_matches (F_end_time_lt earlier))
      with (fun e : Event.t => Event.EndTime e <? earlier).
    assert (Hnone : filter (fun e : Event.t => Event.EndTime e <? earlier)
                      (filter (fun e : Event.t => negb (Event.EndTime e <? now)) (Events db))
                    = []).
    { rewrite filter_filter.
      rewrite (filter_same_on _ (fun _ => false)); [now induction (Events db)|].
      intros e _. destruct (Event.EndTime e <? now) eqn:E1; [reflexivity|]. simpl.
      apply Z.ltb_ge in E1. apply Z.ltb_ge. lia. }
    rewrite Hnone. simpl.
    split; [reflexivity|]. split; [|split; [|reflexivity]].
    + rewrite filter_filter. apply filter_same_on.
      intros e _. destruct (Event.EndTime e <? now) eqn:E1; [reflexivity|]. simpl.
      apply Z.ltb_ge in E1. apply negb_true_iff, Z.ltb_ge. lia.
    + unfold without_bookings_of at 1. simpl. apply filter_all_true.
  - intros later Hle. rewrite !DeleteExpiredEvents_run. cbv zeta.
    cbn [fst snd Events Bookings Categories].
    change (event_matches (F_end_time_lt later))
      with (fun e : Event.t => Event.EndTime e <? later).
    assert (Himp : forall e : Event.t,
               (Event.EndTime e <? now) = true -> (Event.EndTime e <? later) = true).
    { intros e H. apply Z.ltb_lt in H. apply Z.ltb_lt. lia. }
    split; [|split].
    + rewrite filter_filter. apply filter_same_on.
      intros e _. destruct (Event.EndTime e <? now) eqn:E1; simpl; [|reflexivity].
      now rewrite (Himp e E1).
    + unfold without_bookings_of. rewrite filter_filter. apply filter_same_on.
      intros b _.
      rewrite <- negb_orb. f_equal.
      apply eq_true_iff_eq. rewrite orb_true_iff, !existsb_exists. split.
      * intros [(e & Hin & Hid)|(e & Hin & Hid)]; exists e; (split; [|exact Hid]).
        -- apply filter_In in Hin as [Hin Hexp]. apply filter_In. auto.
        -- apply filter_In in Hin as [Hin Hexp]. apply filter_In in Hin as [Hin _].
           apply filter_In. auto.
      * intros (e & Hin & Hid). apply filter_In in Hin as [Hin Hexp].
        destruct (Event.EndTime e <? now) eqn:E1.
        -- left. exists e. split; [apply filter_In; auto|exact Hid].
        -- right. exists e. split; [|exact Hid].
           apply filter_In. split; [|exact Hexp]. apply filter_In. split; [exact Hin|].
           now rewrite E1.
    + eexists. eexists. split; [reflexivity|]. split; [reflexivity|].
      f_equal. rewrite <- Nat2Z.inj_add. f_equal.
      apply length_filter_split. exact Himp.
Qed.

Lemma X14_sweeps_compose_witness :
  let r := EventStore.DeleteExpiredEvents Main.eventStore Scenario.nowD Scenario.dbD in
  fst (EventStore.DeleteExpiredEvents Main.eventStore Scenario.nowD (snd r)) = Ok 0 /\
  Events (snd (EventStore.DeleteExpiredEvents Main.eventStore (Scenario.nowD + 7200000)
                 (snd r))) = [].
Proof.
  destruct (X14_sweeps_compose Scenario.nowD Scenario.dbD) as (_ & Hagain & Hlater).
  split.
  - apply (Hagain Scenario.nowD). apply Z.le_refl.
  - destruct (Hlater (Scenario.nowD + 7200000)) as (He & _).
    + discriminate.
    + cbv zeta in He. rewrite He. reflexivity.
Defined.

(** X15. Deleting an event twice: once [DeleteEvent] has run, the event's
    booking list is empty and [GetEventByID] no longer finds the event, and
    a second [DeleteEvent] fails "event not found" and changes nothing. *)
Theorem X15_delete_event_again :
  forall id db,
    unique_event_ids db ->
    let r := EventStore.DeleteEvent Main.eventStore id db in
    let r2 := EventStore.DeleteEvent Main.eventStore id (snd r) in
    fst (BookingStore.GetBookingsByEventID Main.bookingStore id (snd r)) = Ok [] /\
    (forall hex, ObjectIDFromHex hex = Some id ->
       fst (EventStore.GetEventByID Main.eventStore hex (snd r)) = Err "event not found") /\
    fst r2 = Err "event not found" /\
    same_documents (snd r) (snd r2).
Proof.
  intros id db Huniq r r2. subst r r2. rewrite !DeleteEvent_run.
  cbn [fst snd Events Bookings Categories].
  change (event_matches (F_id id)) with (fun e : Event.t => N.eqb (Event.ID e) id).
  change (fun b : Booking.t => negb (booking_matches (F_event_id id) b))
    with (fun b : Booking.t => negb (N.eqb (Booking.EventID b) id)).
  pose proof (find_delete_first_unique Event.ID id (Events db) Huniq) as Hgone.
  assert (Hex : existsb (fun e => N.eqb (Event.ID e) id)
                  (delete_first (fun e => N.eqb (Event.ID e) id) (Events db)) = false)
    by (now apply find_none_existsb).
  split; [|split; [|split]].
  - unfold BookingStore.GetBookingsByEventID, Find. cbn.
    now rewrite (filter_after_negb (fun b => N.eqb (Booking.EventID b) id)).
  - intros hex Hhex. rewrite GetEventByID_run, Hhex. cbn [Events].
    change (event_matches (F_id id)) with (fun e : Event.t => N.eqb (Event.ID e) id).
    now rewrite Hgone.
  - now rewrite Hex.
  - unfold same_documents. cbn [Events Bookings Categories].
    split; [reflexivity|]. split.
    + now apply delete_first_none.
    + apply (filter_negb_twice (fun b => N.eqb (Booking.EventID b) id)).
Qed.

Lemma X15_delete_event_again_witness :
  let r := EventStore.DeleteEvent Main.eventStore 1%N Scenario.dbC in
  fst r = Ok tt /\
  fst (EventStore.DeleteEvent Main.eventStore 1%N (snd r)) = Err "event not found".
Proof.
  split; [reflexivity|].
  apply (X15_delete_event_again 1%N Scenario.dbC).
  unfold unique_event_ids. simpl. repeat constructor; simpl; intuition discriminate.
Defined.

(** X16. The non-cascading [DeleteCategory] never changes an event or a
    booking.  For a stored category it answers "cannot delete category with
    existing events" exactly when some event carries the category's name
    letter for letter, and then the category stays; for an unknown
    identifier it answers "category not found". *)
Theorem X16_delete_category_refuses :
  forall id db,
    let r := CategoryStore.DeleteCategory Main.categoryStore id db in
    Events (snd r) = Events db /\
    Bookings (snd r) = Bookings db /\
    (find (fun c => N.eqb (Category.ID c) id) (Categories db) = None ->
     fst r = Err "category not found" /\ Categories (snd r) = Categories db) /\
    (forall category,
        find (fun c => N.eqb (Category.ID c) id) (Categories db) = Some category ->
        (fst r = Err "cannot delete category with existing events" <->
         exists e, In e (Events db) /\ Event.CategoryName e = Category.Name category) /\
        ((exists e, In e (Events db) /\ Event.CategoryName e = Category.Name category) ->
         Categories (snd r) = Categories db)).
Proof.
  intros id db r. subst r.
  pose proof (DeleteCategory_cases id db) as H. cbv zeta in H.
  destruct H as (He & Hb & H).
  change (category_matches (F_id id)) with (fun c : Category.t => N.eqb (Category.ID c) id)
    in H.
  split; [exact He|]. split; [exact Hb|]. split.
  - intros Hnone. rewrite Hnone in H. exact H.
  - intros category Hc. rewrite Hc in H.
    change (event_matches (F_category_name (Category.Name category)))
      with (fun e : Event.t => String.eqb (Event.CategoryName e) (Category.Name category))
      in H.
    destruct (filter _ (Events db)) as [|e rest] eqn:Hf.
    + simpl in H. destruct H as (Hr & _).
      assert (Hnone : ~ exists e, In e (Events db) /\
                                  Event.CategoryName e = Category.Name category).
      { intros (e & Hin & Hname).
        assert (Hin' : In e (filter (fun e : Event.t =>
                                       String.eqb (Event.CategoryName e)
                                         (Category.Name category)) (Events db))).
        { apply filter_In. split; [exact Hin|]. now apply String.eqb_eq. }
        rewrite Hf in Hin'. exact Hin'. }
      split; [|intros Hex; contradiction].
      split; [rewrite Hr; discriminate|intros Hex; contradiction].
    + assert (Hsome : exists e, In e (Events db) /\
                                Event.CategoryName e = Category.Name category).
      { exists e.
        assert (Hin : In e (filter (fun e : Event.t =>
                                      String.eqb (Event.CategoryName e)
                                        (Category.Name category)) (Events db)))
          by (rewrite Hf; now left).
        apply filter_In in Hin as [Hin Hname]. split; [exact Hin|].
        now apply String.eqb_eq. }
      replace (0 <? Z.of_nat (List.length (e :: rest))) with true in H
        by (symmetry; apply Z.ltb_lt; simpl; lia).
      destruct H as [Hr Hcat].
      split; [split; [intros _; exact Hsome|intros _; exact Hr]|intros _; exact Hcat].
Qed.

Lemma X16_delete_category_refuses_witness :
  let r := CategoryStore.DeleteCategory Main.categoryStore 5%N Scenario.dbC in
  fst r = Err "cannot delete category with existing events" /\
  Categories (snd r) = Categories Scenario.dbC.
Proof.
  destruct (X16_delete_category_refuses 5%N Scenario.dbC) as (_ & _ & _ & H).
  destruct (H Scenario.music eq_refl) as [Hiff Hkeep].
  assert (Hex : exists e, In e (Events Scenario.dbC) /\
                          Event.CategoryName e = Category.Name Scenario.music).
  { exists Scenario.concert. split; [simpl; tauto|reflexivity]. }
  split; [apply Hiff; exact Hex|apply Hkeep; exact Hex].
Defined.

(** X17. Running the cascade again.  After a successful
    [DeleteCategoryWithCascade] a second call for the same identifier
    fails "category not found" and changes no document, and no event
    carrying the category's exact name is left. *)
Theorem X17_cascade_again :
  forall id db category,
    unique_category_ids db ->
    find (fun c => N.eqb (Category.ID c) id) (Categories db) = Some category ->
    let r := CategoryStore.DeleteCategoryWithCascade Main.categoryStore id db in
    let r2 := CategoryStore.DeleteCategoryWithCascade Main.categoryStore id (snd r) in
    fst r = Ok tt /\
    (forall e, In e (Events (snd r)) -> Event.CategoryName e <> Category.Name category) /\
    fst r2 = Err "category not found" /\
    same_documents (snd r) (snd r2).
Proof.
  intros id db category Huniq Hc r r2. subst r r2.
  rewrite (DeleteCategoryWithCascade_run id db).
  change (category_matches (F_id id)) with (fun c : Category.t => N.eqb (Category.ID c) id).
  rewrite Hc. cbv zeta. cbn [fst snd Events].
  split; [reflexivity|]. split.
  - intros e Hin. apply filter_In in Hin as [_ Hkeep]. simpl in Hkeep.
    apply negb_true_iff in Hkeep. now apply String.eqb_neq.
  - rewrite DeleteCategoryWithCascade_run. cbn [Categories].
    change (category_matches (F_id id))
      with (fun c : Category.t => N.eqb (Category.ID c) id).
    rewrite (find_delete_first_unique Category.ID id (Categories db) Huniq).
    split; [reflexivity|]. repeat split.
Qed.

Lemma X17_cascade_again_witness :
  let r := CategoryStore.DeleteCategoryWithCascade Main.categoryStore 5%N Scenario.dbC in
  fst (CategoryStore.DeleteCategoryWithCascade Main.categoryStore 5%N (snd r))
    = Err "category not found".
Proof.
  destruct (X17_cascade_again 5%N Scenario.dbC Scenario.music) as (_ & _ & Hr & _).
  - unfold unique_category_ids. simpl. repeat constructor; simpl; tauto.
  - reflexivity.
  - exact Hr.
Defined.

(** ** Categories with their events *)

Lemma getEventsByCategory_run (id : ObjectID) (db : DB) :
  CategoryStore.getEventsByCategory Main.categoryStore id db =
  match find (fun c => N.eqb (Category.ID c) id) (Categories db) with
  | None => (Err "category not found", log_op (OpFindOne "Categories" (F_id id)) db)
  | Some category =>
      (Ok (filter (fun e => String.eqb (Event.CategoryName e) (Category.Name category))
             (Events db)),
       log_op (OpFind "Events" (F_category_name (Category.Name category)))
         (log_op (OpFindOne "Categories" (F_id id)) db))
  end.
Proof.
  unfold CategoryStore.getEventsByCategory, CategoryStore.GetCategoryByID, bind,
    FindOne, Find, fail, ret.
  cbn.
  change (category_matches (F_id id)) with (fun c : Category.t => N.eqb (Category.ID c) id).
  destruct (find _ _); reflexivity.
Qed.

Lemma find_by_id_of_member {A : Type} (id : A -> ObjectID) (docs : list A) (d : A) :
  NoDup (map id docs) -> In d docs ->
  find (fun x => N.eqb (id x) (id d)) docs = Some d.
Proof.
  intros Hnd Hin.
  destruct (find_of_member (fun x => N.eqb (id x) (id d)) docs d Hin (N.eqb_refl _))
    as [d' Hd'].
  rewrite Hd'. f_equal.
  apply (find_by_id_In id) in Hd' as [Hin' Hid].
  now apply (unique_id_same id docs).
Qed.

(** The entry [GetCategoryWithEvents] builds for a category. *)
Lemma GetCategoryWithEvents_run (id : ObjectID) (db : DB) :
  fst (CategoryStore.GetCategoryWithEvents Main.categoryStore id db) =
  match find (fun c => N.eqb (Category.ID c) id) (Categories db) with
  | None => Err "category not found"
  | Some category =>
      let events := filter (fun e => String.eqb (Event.CategoryName e)
                                       (Category.Name category)) (Events db) in
      Ok (CategoryWithEvents.mk category events (Z.of_nat (List.length events)))
  end.
Proof.
  unfold CategoryStore.GetCategoryWithEvents, bind.
  rewrite GetCategoryByID_run.
  change (category_matches (F_id id)) with (fun c : Category.t => N.eqb (Category.ID c) id).
  destruct (find _ (Categories db)) as [category|] eqn:Hc; [|reflexivity].
  rewrite getEventsByCategory_run. cbn [Categories log_op]. rewrite Hc. reflexivity.
Qed.

(** X18. [GetCategoryWithEvents] fails "category not found" for an unknown
    identifier.  For a stored category it returns the category, the events
    whose [category_name] is exactly the category's name, in stored order,
    and their number; an event whose category name differs only in letter
    case is not among them. *)
Theorem X18_category_with_events :
  forall id db,
    let r := CategoryStore.GetCategoryWithEvents Main.categoryStore id db in
    (find (fun c => N.eqb (Category.ID c) id) (Categories db) = None ->
     fst r = Err "category not found") /\
    (forall category,
        find (fun c => N.eqb (Category.ID c) id) (Categories db) = Some category ->
        exists entry,
          fst r = Ok entry /\
          CategoryWithEvents.Category entry = category /\
          CategoryWithEvents.Events entry
            = filter (fun e => String.eqb (Event.CategoryName e) (Category.Name category))
                (Events db) /\
          CategoryWithEvents.EventCount entry
            = Z.of_nat (List.length (CategoryWithEvents.Events entry)) /\
          (forall e, In e (CategoryWithEvents.Events entry) <->
                     In e (Events db) /\ Event.CategoryName e = Category.Name category)).
Proof.
  intros id db r. subst r. rewrite GetCategoryWithEvents_run. split.
  - intros Hnone. now rewrite Hnone.
  - intros category Hc. rewrite Hc. cbv zeta. eexists.
    split; [reflexivity|]. cbn [CategoryWithEvents.Category CategoryWithEvents.Events
                                 CategoryWithEvents.EventCount].
    split; [reflexivity|]. split; [reflexivity|]. split; [reflexivity|].
    intros e. rewrite filter_In, String.eqb_eq. tauto.
Qed.

Lemma X18_category_with_events_witness :
  exists entry,
    fst (CategoryStore.GetCategoryWithEvents Main.categoryStore 5%N Scenario.dbM)
      = Ok entry /\
    CategoryWithEvents.Events entry = [] /\
    CategoryWithEvents.EventCount entry = 0.
Proof.
  destruct (proj2 (X18_category_with_events 5%N Scenario.dbM) Scenario.music eq_refl)
    as (entry & Hr & _ & Hevents & Hcount & _).
  exists entry. split; [exact Hr|].
  assert (Hnone : CategoryWithEvents.Events entry = []).
  { rewrite Hevents.
    assert (He : map Event.CategoryName (Events Scenario.dbM) = ["music"])
      by (vm_compute; reflexivity).
    destruct (Events Scenario.dbM) as [|e [|e' rest]]; try discriminate.
    simpl in He. injection He as He. simpl. now rewrite He. }
  split; [exact Hnone|]. rewrite Hcount, Hnone. reflexivity.
Defined.

Lemma collect_with_events_run (all : list Category.t) (events : list Event.t)
    (categories : list Category.t) :
  (forall c, In c categories ->
             find (fun x => N.eqb (Category.ID x) (Category.ID c)) all = Some c) ->
  forall result db,
    Categories db = all -> Events db = events ->
    fst (CategoryStore.collect_with_events Main.categoryStore categories result db)
      = Ok (result ++
            map (fun c =>
                   let listed := filter (fun e => String.eqb (Event.CategoryName e)
                                                    (Category.Name c)) events in
                   CategoryWithEvents.mk c listed (Z.of_nat (List.length listed)))
              categories) /\
    same_documents db
      (snd (CategoryStore.collect_with_events Main.categoryStore categories result db)).
Proof.
  induction categories as [|c rest IH]; intros Hfind result db Hcats Hevents.
  - simpl. rewrite app_nil_r. repeat split.
  - cbn [CategoryStore.collect_with_events]. rewrite getEventsByCategory_run.
    rewrite Hcats, (Hfind c (or_introl eq_refl)), Hevents.
    destruct (IH (fun x Hx => Hfind x (or_intror Hx))
                (result ++
                 [CategoryWithEvents.mk c
                    (filter (fun e => String.eqb (Event.CategoryName e) (Category.Name c))
                       events)
                    (Z.of_nat (List.length
                       (filter (fun e => String.eqb (Event.CategoryName e)
                                           (Category.Name c)) events)))])
                (log_op (OpFind "Events" (F_category_name (Category.Name c)))
                   (log_op (OpFindOne "Categories" (F_id (Category.ID c))) db))
                Hcats Hevents) as [Hr Hsame].
    split.
    + rewrite Hr, <- app_assoc. reflexivity.
    + destruct Hsame as (H1 & H2 & H3). repeat split; assumption.
Qed.

(** X19. [GetAllCategoriesWithEvents] never fails and changes no document:
    it returns one entry per stored category, in stored order, each with
    the events carrying exactly that category's name and their number. *)
Theorem X19_all_categories_with_events :
  forall db,
    unique_category_ids db ->
    let r := CategoryStore.GetAllCategoriesWithEvents Main.categoryStore db in
    fst r
      = Ok (map (fun c =>
                   let listed := filter (fun e => String.eqb (Event.CategoryName e)
                                                    (Category.Name c)) (Events db) in
                   CategoryWithEvents.mk c listed (Z.of_nat (List.length listed)))
              (Categories db)) /\
    same_documents db (snd r).
Proof.
  intros db Huniq r. subst r.
  unfold CategoryStore.GetAllCategoriesWithEvents, CategoryStore.GetAllCategories,
    bind, Find.
  cbn [CategoryStore.collection Main.categoryStore CategoryStore.SetBookingStore
       CategoryStore.NewCategoryStore coll_docs CategoriesColl doc_matches coll_name].
  change (filter (category_matches F_all) (Categories db))
    with (filter (fun _ : Category.t => true) (Categories db)).
  rewrite filter_all_true.
  destruct (collect_with_events_run (Categories db) (Events db) (Categories db)
              (fun c Hin => find_by_id_of_member Category.ID (Categories db) c Huniq Hin)
              [] (log_op (OpFind "Categories" F_all) db) eq_refl eq_refl)
    as [Hr Hsame].
  split; [exact Hr|]. destruct Hsame as (H1 & H2 & H3). repeat split; assumption.
Qed.

Lemma X19_all_categories_with_events_witness :
  fst (CategoryStore.GetAllCategoriesWithEvents Main.categoryStore Scenario.dbC)
    = Ok [CategoryWithEvents.mk Scenario.music [Scenario.concert; Scenario.recital] 2].
Proof.
  destruct (X19_all_categories_with_events Scenario.dbC) as [Hr _].
  - unfold unique_category_ids. simpl. repeat constructor; simpl; tauto.
  - exact Hr.
Defined.

(** ** Malformed identifiers *)

Lemma hex_value_none_iff (s : string) :
  forall acc,
    hex_value s acc = None <->
    exists c, In c (list_ascii_of_string s) /\ hex_digit c = None.
Proof.
  induction s as [|c r IH]; intros acc; simpl.
  - split; [discriminate|intros (c & [] & _)].
  - destruct (hex_digit c) as [d|] eqn:Hd.
    + rewrite IH. split.
      * intros (x & Hin & Hx). exists x. split; [now right|exact Hx].
      * intros (x & [<-|Hin] & Hx); [congruence|]. exists x. split; assumption.
    + split; [intros _; exists c; split; [now left|exact Hd]|reflexivity].
Qed.

Lemma ObjectIDFromHex_none_iff (s : string) :
  ObjectIDFromHex s = None <->
  String.length s <> 24%nat \/
  exists c, In c (list_ascii_of_string s) /\ hex_digit c = None.
Proof.
  unfold ObjectIDFromHex. destruct (Nat.eqb (String.length s) 24) eqn:Hlen.
  - apply Nat.eqb_eq in Hlen. rewrite hex_value_none_iff. split; [now right|].
    intros [Hne|H]; [contradiction|exact H].
  - apply Nat.eqb_neq in Hlen. split; [now left|reflexivity].
Qed.

(** X20. [GetBookingByID] and [GetEventByID] answer "invalid booking id"
    and "invalid event id" exactly when the identifier is not made of 24
    hexadecimal characters, and then they do not ask the store anything;
    otherwise they ask it once, for the document with that identifier. *)
Theorem X20_malformed_identifiers :
  forall hex db,
    let malformed :=
      String.length hex <> 24%nat \/
      exists c, In c (list_ascii_of_string hex) /\ hex_digit c = None in
    (fst (BookingStore.GetBookingByID Main.bookingStore hex db) = Err "invalid booking id"
     <-> malformed) /\
    (fst (EventStore.GetEventByID Main.eventStore hex db) = Err "invalid event id"
     <-> malformed) /\
    (malformed ->
     snd (BookingStore.GetBookingByID Main.bookingStore hex db) = db /\
     snd (EventStore.GetEventByID Main.eventStore hex db) = db) /\
    (~ malformed ->
     exists id,
       ObjectIDFromHex hex = Some id /\
       OpLog (snd (BookingStore.GetBookingByID Main.bookingStore hex db))
         = OpLog db ++ [OpFindOne "Bookings" (F_id id)] /\
       OpLog (snd (EventStore.GetEventByID Main.eventStore hex db))
         = OpLog db ++ [OpFindOne "Events" (F_id id)]).
Proof.
  intros hex db malformed.
  pose proof (ObjectIDFromHex_none_iff hex) as Hiff. fold malformed in Hiff.
  rewrite GetBookingByID_run, GetEventByID_run.
  unfold BookingStore.GetBookingByID, EventStore.GetEventByID.
  destruct (ObjectIDFromHex hex) as [id|].
  - assert (Hwell : ~ malformed) by (intros Hm; apply Hiff in Hm; discriminate).
    split; [|split; [|split]].
    + split; [|intros Hm; contradiction]. destruct (find _ _); discriminate.
    + split; [|intros Hm; contradiction]. destruct (find _ _); discriminate.
    + intros Hm. contradiction.
    + intros _. exists id. split; [reflexivity|].
      unfold bind, FindOne. cbn.
      destruct (find _ (Bookings db)), (find _ (Events db)); split; reflexivity.
  - assert (Hm : malformed) by (apply Hiff; reflexivity).
    split; [|split; [|split]].
    + split; [intros _; exact Hm|reflexivity].
    + split; [intros _; exact Hm|reflexivity].
    + intros _. split; reflexivity.
    + intros Hwell. contradiction.
Qed.

Lemma X20_malformed_identifiers_witness :
  snd (EventStore.GetEventByID Main.eventStore "12345" Scenario.dbA) = Scenario.dbA /\
  snd (BookingStore.GetBookingByID Main.bookingStore "00000000000000000000000g"
         Scenario.dbA) = Scenario.dbA.
Proof.
  split.
  - apply (proj1 (proj2 (proj2 (X20_malformed_identifiers "12345" Scenario.dbA)))).
    left. discriminate.
  - apply (proj1 (proj2 (proj2 (X20_malformed_identifiers "00000000000000000000000g"
                                  Scenario.dbA)))).
    right. exists "g"%char. split; [simpl; tauto|reflexivity].
Defined.

(** * The booking and category handlers *)

Lemma GetEventByID_parsed (hex : string) (id : ObjectID) (db : DB) :
  ObjectIDFromHex hex = Some id ->
  EventStore.GetEventByID Main.eventStore hex db =
  (match find (fun e => N.eqb (Event.ID e) id) (Events db) with
   | None => Err "event not found"
   | Some event => Ok event
   end,
   log_op (OpFindOne "Events" (F_id id)) db).
Proof.
  intros Hhex. unfold EventStore.GetEventByID. rewrite Hhex.
  unfold bind, FindOne. cbn.
  change (event_matches (F_id id)) with (fun e : Event.t => N.eqb (Event.ID e) id).
  destruct (find _ _); reflexivity.
Qed.

Lemma GetBookingByID_parsed (hex : string) (id : ObjectID) (db : DB) :
  ObjectIDFromHex hex = Some id ->
  BookingStore.GetBookingByID Main.bookingStore hex db =
  (match find (fun b => N.eqb (Booking.ID b) id) (Bookings db) with
   | None => Err "booking not found"
   | Some booking => Ok booking
   end,
   log_op (OpFindOne "Bookings" (F_id id)) db).
Proof.
  intros Hhex. unfold BookingStore.GetBookingByID. rewrite Hhex.
  unfold bind, FindOne. cbn.
  change (booking_matches (F_id id)) with (fun b : Booking.t => N.eqb (Booking.ID b) id).
  destruct (find _ _); reflexivity.
Qed.

(** The store's [CreateBooking] keeps every ticket class within its bounds
    when the quantity is not negative. *)
Lemma CreateBooking_keeps_invariant now generated booking db :
  inventory_invariant db ->
  events_well_typed db ->
  0 <= Booking.Quantity booking ->
  inventory_invariant
    (snd (BookingStore.CreateBooking Main.bookingStore now generated booking db)).
Proof.
  intros Hinv Htyped Hq. unfold inventory_invariant.
  pose proof (CreateBooking_cases now generated booking db) as H. cbv zeta in H.
  destruct (find _ _) as [event|] eqn:Hev;
    [|destruct H as (_ & _ & -> & _); exact Hinv].
  destruct (BookingStore.find_ticket _ _) as [[i ticket]|] eqn:Htk;
    [|destruct H as (_ & _ & -> & _); exact Hinv].
  destruct (_ <? _) eqn:Hlt; [destruct H as (_ & _ & -> & _); exact Hinv|].
  destruct (existsb _ _); [destruct H as (_ & _ & -> & _); exact Hinv|].
  destruct H as (_ & _ & -> & _). apply Z.ltb_ge in Hlt.
  pose proof (tickets_of_found_event _ _ _ _ _ _ _ Hinv Hev Htk) as Hb.
  pose proof (tickets_of_found_event _ _ _ _ _ _ _ Htyped Hev Htk) as [Ht Ha].
  unfold ticket_within_bounds in Hb.
  eapply invariant_after_set; eauto.
  unfold GoInt.sub. rewrite wrap_in_range;
    unfold GoInt.in_range, GoInt.min_int, GoInt.max_int in *; lia.
Qed.

(** X21. The booking handler never hands the store a quantity that is not
    positive: a request that could not be bound, or whose quantity is zero
    or negative, is answered 400 before any store call.  Whatever the
    request, if every ticket class is within its bounds before the call, it
    is so afterwards. *)
Theorem X21_booking_handler_guards_quantity :
  forall bound token random now generated db,
    let r := BookingController.CreateBooking MainControllers.bookingController
               bound token random now generated db in
    (bound = None ->
     r = (HTTPError StatusBadRequest "Invalid request payload FROM BOOKING", db)) /\
    (forall request,
        bound = Some request -> BookingController.Quantity request <= 0 ->
        r = (HTTPError StatusBadRequest
               "Quantity must be greater than zero FROM BOOKING", db)) /\
    (inventory_invariant db -> events_well_typed db -> inventory_invariant (snd r)).
Proof.
  intros bound token random now generated db r. subst r.
  unfold BookingController.CreateBooking.
  split; [|split].
  - intros ->. reflexivity.
  - intros request -> Hq. apply Z.leb_le in Hq. now rewrite Hq.
  - intros Hinv Htyped.
    destruct bound as [request|]; [|exact Hinv].
    destruct (_ <=? 0) eqn:Hq; [exact Hinv|]. apply Z.leb_gt in Hq.
    destruct token as [userID|e]; [|exact Hinv].
    destruct (ObjectIDFromHex userID) as [userObjID|]; [|exact Hinv].
    destruct (ObjectIDFromHex (BookingController.EventID request)) as [eventObjID|] eqn:Hhex;
      [|exact Hinv].
    cbn [BookingController.EventStore_ BookingController.BookingStore_
         MainControllers.bookingController BookingController.NewBookingController].
    rewrite (GetEventByID_parsed _ _ _ Hhex).
    destruct (find _ (Events db)) as [event|]; [|exact Hinv].
    match goal with
    | |- context [BookingStore.CreateBooking Main.bookingStore ?n ?g ?b ?d] =>
        pose proof (CreateBooking_keeps_invariant n g b d Hinv Htyped
                      ltac:(simpl; lia)) as Hkept;
        destruct (BookingStore.CreateBooking Main.bookingStore n g b d) as [[made|e] db2]
    end; exact Hkept.
Qed.

Lemma X21_booking_handler_guards_quantity_witness :
  BookingController.CreateBooking MainControllers.bookingController
    (Some (BookingController.mkRequest Scenario.hex1 "VIP" (-3)))
    (Ok Scenario2.userHex) [] 5000 100%N Scenario.dbA
  = (HTTPError 400 "Quantity must be greater than zero FROM BOOKING", Scenario.dbA) /\
  inventory_invariant
    (snd (BookingController.CreateBooking MainControllers.bookingController
            (Some (BookingController.mkRequest Scenario.hex1 "VIP" 3))
            (Ok Scenario2.userHex) [] 5000 100%N Scenario.dbA)).
Proof.
  split.
  - apply (proj1 (proj2 (X21_booking_handler_guards_quantity
                           (Some (BookingController.mkRequest Scenario.hex1 "VIP" (-3)))
                           (Ok Scenario2.userHex) [] 5000 100%N Scenario.dbA))
             (BookingController.mkRequest Scenario.hex1 "VIP" (-3)) eq_refl).
    discriminate.
  - apply (proj2 (proj2 (X21_booking_handler_guards_quantity
                           (Some (BookingController.mkRequest Scenario.hex1 "VIP" 3))
                           (Ok Scenario2.userHex) [] 5000 100%N Scenario.dbA))).
    + unfold inventory_invariant. simpl. repeat constructor; discriminate.
    + unfold events_well_typed. simpl. repeat constructor; discriminate.
Defined.



(** X23. Only the owner cancels through the handler.  A 200 answer means
    the path parameter named a stored booking whose user identifier, in
    hexadecimal, is the token's user, and that booking has been deleted.
    For a stored booking of another user the answer is 403, and after any
    error answer all documents are as they were. *)
Theorem X23_cancel_handler_checks_owner :
  forall bookingID token db,
    let r := BookingController.CancelBooking MainControllers.bookingController
               bookingID token db in
    (forall code message, fst r = HTTPError code message -> same_documents db (snd r)) /\
    (forall code body,
        fst r = JSON code body ->
        exists id userID booking,
          ObjectIDFromHex bookingID = Some id /\
          token = Ok userID /\
          find (fun b => N.eqb (Booking.ID b) id) (Bookings db) = Some booking /\
          Hex (Booking.UserID booking) = userID /\
          code = StatusOK /\
          Bookings (snd r) = delete_first (fun b => N.eqb (Booking.ID b) id) (Bookings db)) /\
    (forall id userID booking,
        ObjectIDFromHex bookingID = Some id ->
        token = Ok userID ->
        find (fun b => N.eqb (Booking.ID b) id) (Bookings db) = Some booking ->
        Hex (Booking.UserID booking) <> userID ->
        fst r = HTTPError StatusForbidden
                  "You can only cancel your own bookings FROM BOOKING").
Proof.
  intros bookingID token db r. subst r.
  unfold BookingController.CancelBooking.
  destruct (ObjectIDFromHex bookingID) as [id|] eqn:Hhex.
  2:{ split; [intros; repeat split|]. split; [intros code body H; discriminate|].
      intros id userID booking H. discriminate. }
  destruct token as [userID|e].
  2:{ split; [intros; repeat split|]. split; [intros code body H; discriminate|].
      intros id' userID booking _ H. discriminate. }
  cbn [BookingController.BookingStore_ MainControllers.bookingController
       BookingController.NewBookingController].
  rewrite (GetBookingByID_parsed _ _ _ Hhex).
  destruct (find _ (Bookings db)) as [booking|] eqn:Hb.
  2:{ split; [intros; repeat split|]. split; [intros code body H; discriminate|].
      intros id' userID' booking [= <-] _ H. congruence. }
  destruct (String.eqb (Hex (Booking.UserID booking)) userID) eqn:Howner; cbn [negb].
  2:{ split; [intros; repeat split|]. split; [intros code body H; discriminate|].
      intros; reflexivity. }
  apply String.eqb_eq in Howner.
  match goal with
  | |- context [BookingStore.CancelBooking Main.bookingStore ?i ?d] =>
      pose proof (CancelBooking_cases i d) as H; cbv zeta in H
  end.
  cbn [Events Bookings Categories log_op] in H.
  change (booking_matches (F_id id)) with (fun b : Booking.t => N.eqb (Booking.ID b) id) in H.
  rewrite Hb in H.
  destruct (String.eqb (Booking.Status booking) "cancelled").
  - destruct (BookingStore.CancelBooking _ _ _) as [[u|e] db2];
      destruct H as (Hr & Hsame); [discriminate|].
    split; [intros; exact Hsame|]. split; [intros code body Hj; discriminate|].
    intros id' userID' booking' [= <-] [= <-] Hb' Hne. congruence.
  - destruct (BookingStore.CancelBooking _ _ _) as [[u|e] db2];
      destruct H as (Hr & _ & Hbs & _); [|discriminate].
    split; [intros code message Hj; discriminate|]. split.
    + intros code body Hj. simpl in Hj. injection Hj as <- <-.
      exists id, userID, booking.
      split; [reflexivity|]. split; [reflexivity|]. split; [exact Hb|].
      split; [exact Howner|]. split; [reflexivity|exact Hbs].
    + intros id' userID' booking' [= <-] [= <-] Hb' Hne. congruence.
Qed.

Lemma X23_cancel_handler_checks_owner_witness :
  fst (BookingController.CancelBooking MainControllers.bookingController
         Scenario.hex100 (Ok Scenario2.otherHex) Scenario.dbC)
    = HTTPError 403 "You can only cancel your own bookings FROM BOOKING" /\
  same_documents Scenario.dbC
    (snd (BookingController.CancelBooking MainControllers.bookingController
            Scenario.hex100 (Ok Scenario2.otherHex) Scenario.dbC)).
Proof.
  destruct (X23_cancel_handler_checks_owner Scenario.hex100 (Ok Scenario2.otherHex)
              Scenario.dbC) as (Herr & _ & Hforbidden).
  assert (Hr : fst (BookingController.CancelBooking MainControllers.bookingController
                      Scenario.hex100 (Ok Scenario2.otherHex) Scenario.dbC)
               = HTTPError 403 "You can only cancel your own bookings FROM BOOKING").
  { apply (Hforbidden 100%N Scenario2.otherHex
             (Scenario.booked 100%N 1%N "VIP" 3 300%float)).
    - reflexivity.
    - reflexivity.
    - reflexivity.
    - vm_compute. discriminate. }
  split; [exact Hr|]. exact (Herr _ _ Hr).
Defined.



(** X25. The category delete handler always cascades.  For a stored
    category it answers 200 even when events carry the category's name,
    and those events are gone afterwards; it never answers with the
    refusal of the non-cascading delete.  A malformed identifier is answered
    400 before any store call, an unknown one 400 with "Failed to delete
    category: category not found". *)
Theorem X25_category_delete_handler_cascades :
  forall categoryID db,
    let r := CategoryController.DeleteCategory MainControllers.categoryController
               categoryID db in
    (ObjectIDFromHex categoryID = None ->
     r = (HTTPError StatusBadRequest "Invalid category ID", db)) /\
    (forall id,
        ObjectIDFromHex categoryID = Some id ->
        find (fun c => N.eqb (Category.ID c) id) (Categories db) = None ->
        fst r = HTTPError StatusBadRequest "Failed to delete category: category not found" /\
        same_documents db (snd r)) /\
    (forall id category,
        ObjectIDFromHex categoryID = Some id ->
        find (fun c => N.eqb (Category.ID c) id) (Categories db) = Some category ->
        fst r = JSON StatusOK
                  [("message",
                    JString "Category and all associated events deleted successfully")] /\
        (forall e, In e (Events (snd r)) <->
                   In e (Events db) /\ Event.CategoryName e <> Category.Name category) /\
        Categories (snd r) = delete_first (fun c => N.eqb (Category.ID c) id) (Categories db)) /\
    (forall code,
        fst r <> HTTPError code
                   "Failed to delete category: cannot delete category with existing events").
Proof.
  intros categoryID db r. subst r. unfold CategoryController.DeleteCategory.
  destruct (ObjectIDFromHex categoryID) as [id|].
  2:{ split; [reflexivity|]. split; [intros id H; discriminate|].
      split; [intros id c H; discriminate|]. intros code H. discriminate. }
  cbn [CategoryController.categoryStore MainControllers.categoryController
       CategoryController.NewCategoryController].
  rewrite DeleteCategoryWithCascade_run.
  change (category_matches (F_id id)) with (fun c : Category.t => N.eqb (Category.ID c) id).
  split; [intros H; discriminate|].
  destruct (find _ (Categories db)) as [category|] eqn:Hc.
  - split; [intros id' [= <-] H; congruence|]. split.
    + intros id' category' [= <-] Hc'. rewrite Hc in Hc'. injection Hc' as <-.
      cbv zeta. cbn [fst snd Events Categories].
      split; [reflexivity|]. split; [|reflexivity].
      intros e. rewrite filter_In, negb_true_iff. simpl. rewrite String.eqb_neq. tauto.
    + intros code H. discriminate.
  - split.
    + intros id' [= <-] _. split; [reflexivity|repeat split].
    + split; [intros id' c [= <-] H; congruence|]. intros code H. discriminate.
Qed.

Lemma X25_category_delete_handler_cascades_witness :
  let r := CategoryController.DeleteCategory MainControllers.categoryController
             Scenario.hex5 Scenario.dbC in
  fst r = JSON 200
            [("message",
              JString "Category and all associated events deleted successfully")] /\
  Categories (snd r) = [].
Proof.
  destruct (X25_category_delete_handler_cascades Scenario.hex5 Scenario.dbC)
    as (_ & _ & H & _).
  destruct (H 5%N Scenario.music eq_refl eq_refl) as (Hr & _ & Hc).
  split; [exact Hr|]. rewrite Hc. reflexivity.
Defined.

(** * Conservation of tickets *)

Lemma find_update_first_other {A : Type} (p q : A -> bool) (u : A -> A) (docs : list A) :
  (forall x, q (u x) = q x) ->
  (forall x, q x = true -> p x = false) ->
  find q (update_first p u docs) = find q docs.
Proof.
  intros Hu Hdisjoint. induction docs as [|x rest IH]; simpl; [reflexivity|].
  destruct (p x) eqn:Hp; simpl.
  - rewrite Hu. destruct (q x) eqn:Hq; [|reflexivity].
    rewrite (Hdisjoint x Hq) in Hp. discriminate.
  - destruct (q x); [reflexivity|exact IH].
Qed.

Lemma find_ticket_set_other (ty ty' : string) (v : Z) (tickets : list TicketInfo.t) i ticket :
  BookingStore.find_ticket ty' tickets = Some (i, ticket) ->
  ty <> ty' ->
  BookingStore.find_ticket ty (set_ticket_available i v tickets)
  = BookingStore.find_ticket ty tickets.
Proof.
  revert i. induction tickets as [|x rest IH]; simpl; intros i; [discriminate|].
  destruct (String.eqb (TicketInfo.Type_ x) ty') eqn:E'.
  - intros [= <- <-] Hne. simpl.
    apply String.eqb_eq in E'.
    rewrite (proj2 (String.eqb_neq _ _)) by congruence. reflexivity.
  - destruct (BookingStore.find_ticket ty' rest) as [[j found]|] eqn:F; [|discriminate].
    intros [= <- <-] Hne. simpl.
    destruct (String.eqb (TicketInfo.Type_ x) ty); [reflexivity|].
    now rewrite (IH j eq_refl Hne).
Qed.

Lemma total_quantity_app (xs ys : list Booking.t) :
  total_quantity (xs ++ ys) = total_quantity xs + total_quantity ys.
Proof. induction xs as [|x rest IH]; simpl; [reflexivity|]. rewrite IH. lia. Qed.

Lemma total_quantity_delete_first (p q : Booking.t -> bool) (bookings : list Booking.t)
    (b : Booking.t) :
  find p bookings = Some b ->
  total_quantity (filter q (delete_first p bookings))
  = total_quantity (filter q bookings) - (if q b then Booking.Quantity b else 0).
Proof.
  induction bookings as [|x rest IH]; simpl; [discriminate|].
  destruct (p x) eqn:Hp.
  - intros [= ->]. destruct (q b); simpl; lia.
  - intros Hfind. simpl. destruct (q x); simpl; rewrite (IH Hfind); lia.
Qed.

(** The drawn-from count after the available count of the first class of
    type [ty'] of event [id'] is set to [v]. *)
Lemma available_of_after_set (db db' : DB) (id id' : ObjectID) (ty ty' : string)
    (event : Event.t) (i : nat) (ticket : TicketInfo.t) (v : Z) :
  find (fun e => N.eqb (Event.ID e) id') (Events db) = Some event ->
  BookingStore.find_ticket ty' (Event.Tickets event) = Some (i, ticket) ->
  Events db' = update_first (fun e => N.eqb (Event.ID e) id')
                 (event_apply (U_set_ticket_available i v)) (Events db) ->
  available_of db' id ty =
  if N.eqb id id' && String.eqb ty ty' then Some v else available_of db id ty.
Proof.
  intros Hev Htk Hevents. unfold available_of. rewrite Hevents.
  destruct (N.eqb id id') eqn:Hid.
  - apply N.eqb_eq in Hid. subst id'.
    rewrite (find_update_first (fun e => N.eqb (Event.ID e) id)) by (intros x; reflexivity).
    rewrite Hev. simpl Event.Tickets.
    destruct (String.eqb ty ty') eqn:Hty; simpl.
    + apply String.eqb_eq in Hty. subst ty'.
      now rewrite (find_ticket_set _ _ _ _ _ Htk).
    + apply String.eqb_neq in Hty. now rewrite (find_ticket_set_other _ _ _ _ _ _ Htk Hty).
  - simpl. rewrite find_update_first_other; [reflexivity|intros x; reflexivity|].
    intros x Hx. apply N.eqb_eq in Hx. apply N.eqb_neq. apply N.eqb_neq in Hid. congruence.
Qed.

(** X26. Tickets are conserved.  For a ticket class bookings are drawn
    from, the available count plus the total quantity of the stored
    bookings of that event and type is the same after [CreateBooking] (for a
    quantity that is not negative) as before, whether the call is granted
    or refused, and the same after [CancelBooking] as long as the restored
    count does not overflow. *)
Theorem X26_tickets_are_conserved :
  forall db eventID ticketType available,
    available_of db eventID ticketType = Some available ->
    events_well_typed db ->
    (forall now generated booking,
        0 <= Booking.Quantity booking ->
        let db' := snd (BookingStore.CreateBooking Main.bookingStore now generated
                          booking db) in
        exists available',
          available_of db' eventID ticketType = Some available' /\
          available' + booked_of db' eventID ticketType
          = available + booked_of db eventID ticketType) /\
    (forall bookingID,
        (forall b, find (fun b => N.eqb (Booking.ID b) bookingID) (Bookings db) = Some b ->
                   Booking.EventID b = eventID -> Booking.TicketType b = ticketType ->
                   available + Booking.Quantity b <= GoInt.max_int /\
                   0 <= Booking.Quantity b) ->
        let db' := snd (BookingStore.CancelBooking Main.bookingStore bookingID db) in
        exists available',
          available_of db' eventID ticketType = Some available' /\
          available' + booked_of db' eventID ticketType
          = available + booked_of db eventID ticketType).
Proof.
  intros db eventID ticketType available Havail Htyped.
  assert (Hsame : forall db', Events db' = Events db -> Bookings db' = Bookings db ->
            exists available',
              available_of db' eventID ticketType = Some available' /\
              available' + booked_of db' eventID ticketType
              = available + booked_of db eventID ticketType).
  { intros db' He Hb. exists available. unfold available_of, booked_of in *.
    rewrite He, Hb. split; [exact Havail|reflexivity]. }
  split.
  - intros now generated booking Hq. cbv zeta.
    pose proof (CreateBooking_cases now generated booking db) as H. cbv zeta in H.
    change (event_matches (F_id (Booking.EventID booking)))
      with (fun e : Event.t => N.eqb (Event.ID e) (Booking.EventID booking)) in H.
    destruct (find _ (Events db)) as [event|] eqn:Hev;
      [|destruct H as (_ & _ & He & Hb); now apply Hsame].
    destruct (BookingStore.find_ticket _ _) as [[i ticket]|] eqn:Htk;
      [|destruct H as (_ & _ & He & Hb); now apply Hsame].
    destruct (_ <? _) eqn:Hlt; [destruct H as (_ & _ & He & Hb); now apply Hsame|].
    destruct (existsb _ _); [destruct H as (_ & _ & He & Hb); now apply Hsame|].
    destruct H as (_ & _ & He & Hb). apply Z.ltb_ge in Hlt.
    pose proof (tickets_of_found_event _ _ _ _ _ _ _ Htyped Hev Htk) as [_ Ha].
    assert (Hsub : GoInt.sub (TicketInfo.AvailableQuantity ticket) (Booking.Quantity booking)
                   = TicketInfo.AvailableQuantity ticket - Booking.Quantity booking).
    { apply wrap_in_range. unfold GoInt.in_range, GoInt.min_int, GoInt.max_int in *. lia. }
    rewrite Hsub in He.
    rewrite (available_of_after_set db _ eventID _ ticketType _ event i ticket _ Hev Htk He).
    unfold booked_of. rewrite Hb, filter_app, total_quantity_app.
    unfold books at 2. cbn [filter Booking.EventID Booking.TicketType booking_made
                            Booking.with_ID Booking.priced].
    destruct (N.eqb eventID (Booking.EventID booking)) eqn:Hid.
    + apply N.eqb_eq in Hid. subst eventID. rewrite N.eqb_refl.
      destruct (String.eqb ticketType (Booking.TicketType booking)) eqn:Hty; simpl.
      * apply String.eqb_eq in Hty. subst ticketType. rewrite String.eqb_refl.
        eexists. split; [reflexivity|].
        unfold available_of in Havail. rewrite Hev, Htk in Havail.
        injection Havail as <-. simpl. lia.
      * rewrite String.eqb_sym, Hty. exists available. split; [exact Havail|simpl; lia].
    + rewrite N.eqb_sym, Hid. simpl. exists available. split; [exact Havail|lia].
  - intros bookingID Hrange. cbv zeta.
    pose proof (CancelBooking_cases bookingID db) as H. cbv zeta in H.
    change (booking_matches (F_id bookingID))
      with (fun b : Booking.t => N.eqb (Booking.ID b) bookingID) in H.
    destruct (find _ (Bookings db)) as [booking|] eqn:Hbk;
      [|destruct H as (_ & _ & He & Hb); now apply Hsame].
    destruct (String.eqb _ _); [destruct H as (_ & _ & He & Hb); now apply Hsame|].
    destruct H as (_ & _ & Hb & He).
    change (event_matches (F_id (Booking.EventID booking)))
      with (fun e : Event.t => N.eqb (Event.ID e) (Booking.EventID booking)) in He.
    assert (Hbooked : booked_of (snd (BookingStore.CancelBooking Main.bookingStore
                                        bookingID db)) eventID ticketType
                      = booked_of db eventID ticketType
                        - (if books eventID ticketType booking
                           then Booking.Quantity booking else 0)).
    { unfold booked_of. rewrite Hb. now apply total_quantity_delete_first. }
    rewrite Hbooked. unfold books.
    destruct (find _ (Events db)) as [event|] eqn:Hev.
    2:{ exists available. split.
        - unfold available_of in *. now rewrite He.
        - destruct (N.eqb (Booking.EventID booking) eventID) eqn:Hid; simpl; [|lia].
          apply N.eqb_eq in Hid. unfold available_of in Havail.
          rewrite <- Hid, Hev in Havail. discriminate. }
    destruct (BookingStore.find_ticket _ _) as [[i ticket]|] eqn:Htk.
    2:{ exists available. split.
        - unfold available_of in *. now rewrite He.
        - destruct (N.eqb (Booking.EventID booking) eventID) eqn:Hid; simpl; [|lia].
          destruct (String.eqb (Booking.TicketType booking) ticketType) eqn:Hty; [|lia].
          apply N.eqb_eq in Hid. apply String.eqb_eq in Hty.
          unfold available_of in Havail. rewrite <- Hid, Hev, <- Hty, Htk in Havail.
          discriminate. }
    destruct (N.eqb (Booking.EventID booking) eventID) eqn:Hid.
    + apply N.eqb_eq in Hid.
      destruct (String.eqb (Booking.TicketType booking) ticketType) eqn:Hty; simpl.
      * apply String.eqb_eq in Hty.
        assert (Ha : TicketInfo.AvailableQuantity ticket = available).
        { unfold available_of in Havail. rewrite <- Hid, Hev, <- Hty, Htk in Havail.
          now injection Havail. }
        destruct (Hrange booking eq_refl Hid Hty) as [Hmax Hq].
        pose proof (tickets_of_found_event _ _ _ _ _ _ _ Htyped Hev Htk) as [_ Hr].
        assert (Hadd : GoInt.add (TicketInfo.AvailableQuantity ticket)
                         (Booking.Quantity booking)
                       = TicketInfo.AvailableQuantity ticket + Booking.Quantity booking).
        { apply wrap_in_range.
          unfold GoInt.in_range, GoInt.min_int, GoInt.max_int in *. lia. }
        rewrite Hadd in He.
        rewrite (available_of_after_set db _ eventID _ ticketType _ event i ticket _
                   Hev Htk He).
        rewrite <- Hid, N.eqb_refl, <- Hty, String.eqb_refl. simpl.
        eexists. split; [reflexivity|]. lia.
      * rewrite (available_of_after_set db _ eventID _ ticketType _ event i ticket _
                   Hev Htk He).
        rewrite String.eqb_sym, Hty, andb_false_r.
        exists available. split; [exact Havail|lia].
    + simpl.
      rewrite (available_of_after_set db _ eventID _ ticketType _ event i ticket _
                 Hev Htk He).
      rewrite N.eqb_sym, Hid. simpl.
      exists available. split; [exact Havail|lia].
Qed.

Lemma X26_tickets_are_conserved_witness :
  (exists available',
      available_of
        (snd (BookingStore.CreateBooking Main.bookingStore 5000 100%N
                (Scenario.request 1%N "VIP" 3) Scenario.dbA)) 1%N "VIP"
      = Some available' /\
      available' + booked_of
                     (snd (BookingStore.CreateBooking Main.bookingStore 5000 100%N
                             (Scenario.request 1%N "VIP" 3) Scenario.dbA)) 1%N "VIP"
      = 10 + booked_of Scenario.dbA 1%N "VIP") /\
  (exists available',
      available_of
        (snd (BookingStore.CancelBooking Main.bookingStore 100%N Scenario.dbA_booked))
        1%N "VIP"
      = Some available' /\
      available' + booked_of
                     (snd (BookingStore.CancelBooking Main.bookingStore 100%N
                             Scenario.dbA_booked)) 1%N "VIP"
      = 7 + booked_of Scenario.dbA_booked 1%N "VIP").
Proof.
  assert (HeventsA : Events Scenario.dbA_booked
                     = [Event.with_Tickets [TicketInfo.mk "VIP" 100%float 10 7]
                          Scenario.concert])
    by (vm_compute; reflexivity).
  assert (HtypedA : events_well_typed Scenario.dbA).
  { unfold events_well_typed. simpl. repeat constructor; discriminate. }
  assert (Htyped : events_well_typed Scenario.dbA_booked).
  { unfold events_well_typed. rewrite HeventsA. simpl.
    repeat constructor; discriminate. }
  split.
  - apply (proj1 (X26_tickets_are_conserved Scenario.dbA 1%N "VIP" 10 eq_refl HtypedA)).
    discriminate.
  - assert (Havail : available_of Scenario.dbA_booked 1%N "VIP" = Some 7)
      by (vm_compute; reflexivity).
    apply (proj2 (X26_tickets_are_conserved Scenario.dbA_booked 1%N "VIP" 7 Havail Htyped)).
    intros b Hb _ _. vm_compute in Hb. injection Hb as <-.
    split; discriminate.
Defined.
